(** * Dockercfg secret controller for service accounts

    A shallow embedding of
    [pkg/serviceaccounts/controllers/create_dockercfg_secrets.go]:
    the classifier of generated dockercfg secret names, the token
    materialiser, the dockercfg secret builder, the reference linker and
    the reconciliation entry point, written against an abstract client
    interface, together with an in-memory API server that realises the
    interface with optimistic concurrency.

    Left out: the informer wiring of [NewDockercfgController], [Run] and
    [Stop], the [glog] lines, and the mutex around [dockerURL] (every
    computation here runs alone). *)

From Stdlib Require Import ZArith QArith Ascii.
From Stdlib.Strings Require Byte.
From stdpp Require Import base gmap sets list strings sorting.

#[local] Set Warnings "-clear-no-such-hyp".

Open Scope string_scope.
Open Scope list_scope.
Open Scope Z_scope.

(** ** Lexicographic order on Go strings

    [sort.Strings] orders strings byte-wise; [String.leb] is that
    order on Rocq strings (sequences of 8-bit characters). *)

Module StrOrd.

Definition le (s1 s2 : string) : Prop := String.leb s1 s2 = true.

#[global] Instance le_dec s1 s2 : Decision (le s1 s2).
Proof. unfold le. apply _. Defined.

End StrOrd.

(** ** [sets.String]

    A Go [map[string]struct{}]: a finite set of strings.  [List] returns
    the members sorted, as [sort.Strings] does. *)

Module sets.

Abbreviation String := (gset string).

Definition Insert (x : string) (s : String) : String := {[x]} ∪ s.
Definition Has (s : String) (x : string) : bool := bool_decide (x ∈ s).
Definition Len (s : String) : nat := size s.
Definition List (s : String) : list string := merge_sort StrOrd.le (elements s).

End sets.

(** ** API objects ([k8s.io/kubernetes/pkg/api]) *)

Module api.

(** Values of the Kubernetes API constants the controller refers to. *)
Definition ServiceAccountNameKey : string := "kubernetes.io/service-account.name".
Definition ServiceAccountUIDKey : string := "kubernetes.io/service-account.uid".
Definition ServiceAccountTokenKey : string := "token".
Definition DockerConfigKey : string := ".dockercfg".
Definition SecretTypeServiceAccountToken : string :=
  "kubernetes.io/service-account-token".
Definition SecretTypeDockercfg : string := "kubernetes.io/dockercfg".

Record ObjectMeta := mkObjectMeta {
  Name : string;
  Namespace : string;
  UID : string;
  ResourceVersion : string;
  Annotations : gmap string string
}.

Record ObjectReference := mkObjectReference { ObjectReference_Name : string }.
Record LocalObjectReference :=
  mkLocalObjectReference { LocalObjectReference_Name : string }.

Record ServiceAccount := mkServiceAccount {
  ServiceAccount_ObjectMeta : ObjectMeta;
  Secrets : list ObjectReference;
  ImagePullSecrets : list LocalObjectReference
}.

Record Secret := mkSecret {
  Secret_ObjectMeta : ObjectMeta;
  Type_ : string;
  Data : gmap string (list Byte.byte)
}.

#[global] Instance byte_eq_dec : EqDecision Byte.byte :=
  Stdlib.Strings.Byte.byte_eq_dec.
#[global] Instance ObjectMeta_eq_dec : EqDecision ObjectMeta.
Proof. solve_decision. Defined.
#[global] Instance ObjectReference_eq_dec : EqDecision ObjectReference.
Proof. solve_decision. Defined.
#[global] Instance LocalObjectReference_eq_dec
  : EqDecision LocalObjectReference.
Proof. solve_decision. Defined.
#[global] Instance ServiceAccount_eq_dec : EqDecision ServiceAccount.
Proof. solve_decision. Defined.
#[global] Instance Secret_eq_dec : EqDecision Secret.
Proof. solve_decision. Defined.

(** Field updates through a pointer, [o.Secrets = v] and the like. *)
Definition set_Secrets (v : list ObjectReference) (o : ServiceAccount) :=
  mkServiceAccount (ServiceAccount_ObjectMeta o) v (ImagePullSecrets o).
Definition set_ImagePullSecrets (v : list LocalObjectReference)
    (o : ServiceAccount) :=
  mkServiceAccount (ServiceAccount_ObjectMeta o) (Secrets o) v.
Definition set_Data (v : gmap string (list Byte.byte)) (o : Secret) :=
  mkSecret (Secret_ObjectMeta o) (Type_ o) v.

(** The zero values. *)
Definition ObjectMeta_zero : ObjectMeta := mkObjectMeta "" "" "" "" ∅.
#[global] Instance ServiceAccount_inhabited : Inhabited ServiceAccount :=
  populate (mkServiceAccount ObjectMeta_zero [] []).
#[global] Instance Secret_inhabited : Inhabited Secret :=
  populate (mkSecret ObjectMeta_zero "" ∅).

End api.

Import api.

(** The embedded [ObjectMeta] fields, read as [serviceAccount.Name]. *)
Definition sa_Name (o : ServiceAccount) := Name (ServiceAccount_ObjectMeta o).
Definition sa_Namespace (o : ServiceAccount) :=
  Namespace (ServiceAccount_ObjectMeta o).
Definition sa_UID (o : ServiceAccount) := UID (ServiceAccount_ObjectMeta o).
Definition sa_ResourceVersion (o : ServiceAccount) :=
  ResourceVersion (ServiceAccount_ObjectMeta o).
Definition secret_Name (o : Secret) := Name (Secret_ObjectMeta o).
Definition secret_Namespace (o : Secret) := Namespace (Secret_ObjectMeta o).

(** ** Errors ([k8s.io/kubernetes/pkg/api/errors])

    A Go [error] is [option error], [None] being [nil].  A function
    returning an object pointer and an [error] returns a [result T]: the object is only
    looked at once the error was found to be [nil]. *)

Module kapierrors.

Inductive StatusReason :=
| StatusReasonUnknown
| StatusReasonNotFound
| StatusReasonAlreadyExists
| StatusReasonConflict.

Inductive error :=
| StatusError (reason : StatusReason) (resource name cause : string)
| errorString (msg : string).

#[global] Instance StatusReason_eq_dec : EqDecision StatusReason.
Proof. solve_decision. Defined.
#[global] Instance error_eq_dec : EqDecision error.
Proof. solve_decision. Defined.

Definition IsConflict (err : option error) : bool :=
  match err with
  | Some (StatusError StatusReasonConflict _ _ _) => true
  | _ => false
  end.

Definition IsNotFound (err : option error) : bool :=
  match err with
  | Some (StatusError StatusReasonNotFound _ _ _) => true
  | _ => false
  end.

(** [err.Error()] of the errors built in this file. *)
Definition Error (err : error) : string :=
  match err with
  | StatusError _ _ _ cause => cause
  | errorString msg => msg
  end.

Definition NewConflict (resource name : string) (err : error) : error :=
  StatusError StatusReasonConflict resource name (Error err).
Definition NewNotFound (resource name : string) : error :=
  StatusError StatusReasonNotFound resource name "not found".
Definition NewAlreadyExists (resource name : string) : error :=
  StatusError StatusReasonAlreadyExists resource name "already exists".

End kapierrors.

Import kapierrors.

Inductive result (T : Type) :=
| Ok (v : T)
| Err (err : error).
Arguments Ok {T} v.
Arguments Err {T} err.

#[global] Instance result_eq_dec {T} `{!EqDecision T} : EqDecision (result T).
Proof. solve_decision. Defined.

Definition result_err {T} (r : result T) : option error :=
  match r with Ok _ => None | Err err => Some err end.

(** ** [credentialprovider.DockerConfig] *)

Module credentialprovider.

Record DockerConfigEntry := mkDockerConfigEntry {
  Username : string;
  Password : string;
  Email : string
}.

Abbreviation DockerConfig := (gmap string DockerConfigEntry).

End credentialprovider.

Import credentialprovider.

(** [%v] of a [[]string]. *)
Definition fmt_strings (l : list string) : string :=
  "[" +:+ String.concat " " l +:+ "]".

Definition ServiceAccountTokenSecretNameKey : string :=
  "openshift.io/token-secret.name".

(** [time.Duration] counts nanoseconds. *)
Definition Millisecond : Z := 1000000.
Definition tokenSecretWaitInterval : Z := 20 * Millisecond.
Definition tokenSecretWaitTimes : nat := 100.

(** ** The collaborators

    [Interface] is [client.Interface] restricted to the calls the
    controller makes, each a transition of the outside world [W]:
    the namespace selects the resource client, as in
    [e.client.Secrets(ns).Get(name)]. *)

Class Interface (W : Type) := {
  ServiceAccounts_Get : string → string → W → result ServiceAccount * W;
  ServiceAccounts_Update :
    string → ServiceAccount → W → result ServiceAccount * W;
  Secrets_Create : string → Secret → W → result Secret * W;
  Secrets_Get : string → string → W → result Secret * W;
  Secrets_Delete : string → string → W → option error * W
}.

(** The remaining library calls: the name generator of the secret
    strategy, [wait.Jitter] (with its [float64] factor as a rational),
    [time.Sleep], [utilruntime.HandleError], the two prefix helpers of
    [pkg/serviceaccounts/util] and [json.Marshal] on a [DockerConfig].
    Their bodies are outside [create_dockercfg_secrets.go] and are
    parameters here. *)

Class Platform (W : Type) := {
  GenerateName : string → W → string * W;
  wait_Jitter : Z → Q → W → Z * W;
  time_Sleep : Z → W → W;
  HandleError : error → W → W;
  GetDockercfgSecretNamePrefix : ServiceAccount → string;
  GetTokenSecretNamePrefix : ServiceAccount → string;
  json_Marshal : DockerConfig → result (list Byte.byte)
}.

(** What the controller was seen to ask of its collaborators. *)
Inductive Event :=
| EvServiceAccountsGet (ns name : string) (r : result ServiceAccount)
| EvServiceAccountsUpdate (ns : string) (sa : ServiceAccount)
    (r : result ServiceAccount)
| EvSecretsCreate (ns : string) (s : Secret) (r : result Secret)
| EvSecretsGet (ns name : string) (r : result Secret)
| EvSecretsDelete (ns name : string) (r : option error)
| EvSleep (d : Z)
| EvHandleError (err : error).

#[global] Instance Event_eq_dec : EqDecision Event.
Proof. solve_decision. Defined.

(** A write is a call that may change the store. *)
Definition is_write (ev : Event) : bool :=
  match ev with
  | EvServiceAccountsUpdate _ _ _ | EvSecretsCreate _ _ _
  | EvSecretsDelete _ _ _ => true
  | _ => false
  end.

(** ** Process state

    [*api.ServiceAccount] values are locations in [heap]; an object
    decoded by the client is a new location.  [dockerURL] is the
    controller's field of that name.  A computation returns its value,
    the state it leaves and the calls it made, in order. *)

Abbreviation loc := nat.

Record state (W : Type) := mkState {
  heap : list ServiceAccount;
  dockerURL : string;
  world : W
}.
Arguments mkState {W}.
Arguments heap {W}.
Arguments dockerURL {W}.
Arguments world {W}.

#[global] Instance state_eq_dec {W} `{!EqDecision W} : EqDecision (state W).
Proof. solve_decision. Defined.

Definition M (W A : Type) : Type := state W → A * state W * list Event.

#[global] Instance M_ret {W} : MRet (M W) := λ A a s, (a, s, []).
#[global] Instance M_bind {W} : MBind (M W) :=
  λ A B f m s,
    let '(a, s1, l1) := m s in
    let '(b, s2, l2) := f a s1 in
    (b, s2, l1 ++ l2).

Section Controller.
Context {W : Type} `{!Interface W} `{!Platform W}.

Definition load (p : loc) : M W ServiceAccount :=
  λ s, (heap s !!! p, s, []).
Definition store (p : loc) (v : ServiceAccount) : M W unit :=
  λ s, (tt, mkState (<[p := v]> (heap s)) (dockerURL s) (world s), []).
Definition new (v : ServiceAccount) : M W loc :=
  λ s, (length (heap s), mkState (heap s ++ [v]) (dockerURL s) (world s), []).

(** One call into the world, recorded; [quiet] calls are not. *)
Definition call {A} (f : W → A * W) (ev : A → Event) : M W A :=
  λ s, let '(a, w) := f (world s) in
       (a, mkState (heap s) (dockerURL s) w, [ev a]).
Definition quiet {A} (f : W → A * W) : M W A :=
  λ s, let '(a, w) := f (world s) in
       (a, mkState (heap s) (dockerURL s) w, []).

Definition client_ServiceAccounts_Get (ns name : string) : M W (result loc) :=
  r ← call (ServiceAccounts_Get ns name) (EvServiceAccountsGet ns name);
  match r with
  | Ok sa => p ← new sa; mret (Ok p)
  | Err err => mret (Err err)
  end.
Definition client_ServiceAccounts_Update (ns : string) (p : loc)
    : M W (result loc) :=
  sa ← load p;
  r ← call (ServiceAccounts_Update ns sa) (EvServiceAccountsUpdate ns sa);
  match r with
  | Ok sa' => p' ← new sa'; mret (Ok p')
  | Err err => mret (Err err)
  end.
Definition client_Secrets_Create (ns : string) (s : Secret)
    : M W (result Secret) :=
  call (Secrets_Create ns s) (EvSecretsCreate ns s).
Definition client_Secrets_Get (ns name : string) : M W (result Secret) :=
  call (Secrets_Get ns name) (EvSecretsGet ns name).
Definition client_Secrets_Delete (ns name : string) : M W (option error) :=
  call (Secrets_Delete ns name) (EvSecretsDelete ns name).
Definition utilruntime_HandleError (err : error) : M W unit :=
  call (λ w, (tt, HandleError err w)) (λ _, EvHandleError err).
Definition time_Sleep' (d : Z) : M W unit :=
  call (λ w, (tt, time_Sleep d w)) (λ _, EvSleep d).

Definition SetDockerURL (newDockerURL : string) : M W unit :=
  λ s, (tt, mkState (heap s) newDockerURL (world s), []).

(** *** The classifier *)

Definition getSecretReferences (serviceAccount : ServiceAccount) : sets.String :=
  foldl (λ references secret,
           sets.Insert (ObjectReference_Name secret) references)
        ∅ (Secrets serviceAccount).

Definition getGeneratedDockercfgSecretNames (serviceAccount : ServiceAccount)
    : sets.String * sets.String :=
  let secretNamePrefix := GetDockercfgSecretNamePrefix serviceAccount in
  let mountableDockercfgSecrets :=
    foldl (λ acc s,
             if String.prefix secretNamePrefix (ObjectReference_Name s)
             then sets.Insert (ObjectReference_Name s) acc else acc)
          ∅ (Secrets serviceAccount) in
  let imageDockercfgPullSecrets :=
    foldl (λ acc s,
             if String.prefix secretNamePrefix (LocalObjectReference_Name s)
             then sets.Insert (LocalObjectReference_Name s) acc else acc)
          ∅ (ImagePullSecrets serviceAccount) in
  (mountableDockercfgSecrets, imageDockercfgPullSecrets).

(** [reflect.DeepEqual] on two [[]string]. *)
Definition DeepEqual (l1 l2 : list string) : bool := bool_decide (l1 = l2).

(** *** The reference linker *)

Definition stale_message (dockercfgSecretName : string)
    (staleM staleI liveM liveI : sets.String) : string :=
  "cannot add reference to " +:+ dockercfgSecretName +:+
  " based on stale data.  decision made for " +:+
  fmt_strings (sets.List staleM) +:+ "," +:+ fmt_strings (sets.List staleI) +:+
  ", but live version is " +:+
  fmt_strings (sets.List liveM) +:+ "," +:+ fmt_strings (sets.List liveI).

Definition createDockerPullSecretReference (staleServiceAccount : loc)
    (dockercfgSecretName : string) : M W (option error) :=
  stale ← load staleServiceAccount;
  r ← client_ServiceAccounts_Get (sa_Namespace stale) (sa_Name stale);
  match r with
  | Err err => mret (Some err)
  | Ok liveServiceAccount =>
    live ← load liveServiceAccount;
    stale ← load staleServiceAccount;
    let '(mountableDockercfgSecrets, imageDockercfgPullSecrets) :=
      getGeneratedDockercfgSecretNames live in
    let '(staleDockercfgMountableSecrets, staleImageDockercfgPullSecrets) :=
      getGeneratedDockercfgSecretNames stale in
    if negb (DeepEqual (sets.List staleDockercfgMountableSecrets)
                       (sets.List mountableDockercfgSecrets))
       || negb (DeepEqual (sets.List staleImageDockercfgPullSecrets)
                          (sets.List imageDockercfgPullSecrets))
    then
      mret (Some (NewConflict "serviceaccount" (sa_Name stale)
        (errorString (stale_message dockercfgSecretName
           staleDockercfgMountableSecrets staleImageDockercfgPullSecrets
           mountableDockercfgSecrets imageDockercfgPullSecrets))))
    else
      let changed := false in
      changed ←
        (if negb (sets.Has mountableDockercfgSecrets dockercfgSecretName)
         then
           o ← load liveServiceAccount;
           _ ← store liveServiceAccount
                 (set_Secrets
                    (Secrets o ++ [mkObjectReference dockercfgSecretName]) o);
           mret true
         else mret changed);
      changed ←
        (if negb (sets.Has imageDockercfgPullSecrets dockercfgSecretName)
         then
           o ← load liveServiceAccount;
           _ ← store liveServiceAccount
                 (set_ImagePullSecrets
                    (ImagePullSecrets o
                       ++ [mkLocalObjectReference dockercfgSecretName]) o);
           mret true
         else mret changed);
      if changed : bool then
        o ← load liveServiceAccount;
        r ← client_ServiceAccounts_Update (sa_Namespace o) liveServiceAccount;
        match r with
        | Err err => mret (Some err)
        | Ok _ => mret None
        end
      else mret None
  end.

(** *** The token materialiser *)

(** The body of [for i := 0; i <= tokenSecretWaitTimes; i++]: [n]
    counts the iterations still to run, and [Some] is a [return] from
    inside the loop. *)
Fixpoint waitForToken (tokenSecret : Secret) (n : nat)
    : M W (option (result Secret)) :=
  match n with
  | O => mret None
  | S n' =>
    r ← client_Secrets_Get (secret_Namespace tokenSecret)
          (secret_Name tokenSecret);
    match r with
    | Err err2 => mret (Some (Err err2))
    | Ok liveTokenSecret =>
      if bool_decide (0 < length (default [] (Data liveTokenSecret
                                     !! ServiceAccountTokenKey)))%nat
      then mret (Some (Ok liveTokenSecret))
      else
        d ← quiet (wait_Jitter tokenSecretWaitInterval 0%Q);
        _ ← time_Sleep' d;
        waitForToken tokenSecret n'
    end
  end.

Definition token_never_generated (name : string) : error :=
  errorString ("token never generated for " +:+ name).

(** The [api.Secret] literal of [createTokenSecret]. *)
Definition tokenSecret_of (sa : ServiceAccount) (name : string) : Secret :=
  mkSecret
    (mkObjectMeta name (sa_Namespace sa) "" ""
       {[ ServiceAccountNameKey := sa_Name sa;
          ServiceAccountUIDKey := sa_UID sa ]})
    SecretTypeServiceAccountToken
    ∅.

Definition createTokenSecret (serviceAccount : loc) : M W (result Secret) :=
  sa ← load serviceAccount;
  name ← quiet (GenerateName (GetTokenSecretNamePrefix sa));
  let tokenSecret := tokenSecret_of sa name in
  r ← client_Secrets_Create (secret_Namespace tokenSecret) tokenSecret;
  match r with
  | Err err => mret (Err err)
  | Ok _ =>
    found ← waitForToken tokenSecret (S tokenSecretWaitTimes);
    match found with
    | Some res => mret res
    | None =>
      deleteErr ← client_Secrets_Delete (secret_Namespace tokenSecret)
                    (secret_Name tokenSecret);
      _ ← match deleteErr with
          | Some err =>
            if negb (IsNotFound deleteErr) then utilruntime_HandleError err
            else mret tt
          | None => mret tt
          end;
      mret (Err (token_never_generated (secret_Name tokenSecret)))
    end
  end.

(** *** The dockercfg secret builder *)

(** The [DockerConfig] literal of [createDockerPullSecret]. *)
Definition dockercfg_of (url : string) (tokenSecret : Secret) : DockerConfig :=
  {[ url := mkDockerConfigEntry
              "serviceaccount"
              (String.string_of_list_byte
                 (default [] (Data tokenSecret !! ServiceAccountTokenKey)))
              "serviceaccount@example.org" ]}.

(** The [api.Secret] literal of [createDockerPullSecret]. *)
Definition dockercfgSecret_of (sa : ServiceAccount) (tokenSecret : Secret)
    (name : string) : Secret :=
  mkSecret
    (mkObjectMeta name (secret_Namespace tokenSecret) "" ""
       {[ ServiceAccountNameKey := sa_Name sa;
          ServiceAccountUIDKey := sa_UID sa;
          ServiceAccountTokenSecretNameKey := secret_Name tokenSecret ]})
    SecretTypeDockercfg
    ∅.

Definition createDockerPullSecret (serviceAccount : loc)
    : M W (result Secret) :=
  r ← createTokenSecret serviceAccount;
  match r with
  | Err err => mret (Err err)
  | Ok tokenSecret =>
    sa ← load serviceAccount;
    name ← quiet (GenerateName (GetDockercfgSecretNamePrefix sa));
    let dockercfgSecret := dockercfgSecret_of sa tokenSecret name in
    (* e.dockerURLLock is held from here to the return *)
    url ← (λ s, (dockerURL s, s, []));
    let dockercfg := dockercfg_of url tokenSecret in
    match json_Marshal dockercfg with
    | Err err => mret (Err err)
    | Ok dockercfgContent =>
      let dockercfgSecret :=
        set_Data (<[DockerConfigKey := dockercfgContent]>
                    (Data dockercfgSecret)) dockercfgSecret in
      client_Secrets_Create (secret_Namespace tokenSecret) dockercfgSecret
    end
  end.

(** *** The reconciliation entry point *)

Definition createDockercfgSecretIfNeeded (serviceAccount : loc)
    : M W (option error) :=
  sa ← load serviceAccount;
  let '(mountableDockercfgSecrets, imageDockercfgPullSecrets) :=
    getGeneratedDockercfgSecretNames sa in
  let foundPullSecret :=
    bool_decide (0 < sets.Len imageDockercfgPullSecrets)%nat in
  let foundMountableSecret :=
    bool_decide (0 < sets.Len mountableDockercfgSecrets)%nat in
  if foundPullSecret && foundMountableSecret then mret None
  else if (foundPullSecret && negb foundMountableSecret)
          || (negb foundPullSecret && foundMountableSecret) then
    let dockercfgSecretName :=
      if foundPullSecret then sets.List imageDockercfgPullSecrets !!! 0%nat
      else if foundMountableSecret
           then sets.List mountableDockercfgSecrets !!! 0%nat
           else "" in
    err ← createDockerPullSecretReference serviceAccount dockercfgSecretName;
    if IsConflict err then mret None else mret err
  else
    r ← client_ServiceAccounts_Get (sa_Namespace sa) (sa_Name sa);
    match r with
    | Err err => mret (Some err)
    | Ok liveServiceAccount =>
      live ← load liveServiceAccount;
      sa ← load serviceAccount;
      if negb (String.eqb (sa_ResourceVersion live) (sa_ResourceVersion sa))
      then mret None
      else
        r ← createDockerPullSecret serviceAccount;
        match r with
        | Err err => mret (Some err)
        | Ok dockercfgSecret =>
          err ← createDockerPullSecretReference serviceAccount
                  (secret_Name dockercfgSecret);
          if IsConflict err then
            derr ← client_Secrets_Delete (secret_Namespace dockercfgSecret)
                     (secret_Name dockercfgSecret);
            _ ← match derr with
                | Some err' =>
                  if negb (IsNotFound derr) then utilruntime_HandleError err'
                  else mret tt
                | None => mret tt
                end;
            mret None
          else mret err
        end
    end.

(** The event handlers hand every error to [utilruntime.HandleError]. *)
Definition serviceAccountAdded (obj : loc) : M W unit :=
  err ← createDockercfgSecretIfNeeded obj;
  match err with
  | Some err => utilruntime_HandleError err
  | None => mret tt
  end.

Definition serviceAccountUpdated (oldObj newObj : loc) : M W unit :=
  err ← createDockercfgSecretIfNeeded newObj;
  match err with
  | Some err => utilruntime_HandleError err
  | None => mret tt
  end.

End Controller.

(** ** Closed forms used in the statements *)

Section Model.
Context {W : Type} `{!Interface W} `{!Platform W}.

(** The object the linker writes back: [live] with the name appended to
    each list whose generated names do not have it. *)
Definition with_reference (name : string) (live : ServiceAccount)
    : ServiceAccount :=
  let '(m, i) := getGeneratedDockercfgSecretNames live in
  let o := if sets.Has m name then live
           else set_Secrets (Secrets live ++ [mkObjectReference name]) live in
  if sets.Has i name then o
  else set_ImagePullSecrets
         (ImagePullSecrets o ++ [mkLocalObjectReference name]) o.

Definition needs_reference (name : string) (live : ServiceAccount) : bool :=
  let '(m, i) := getGeneratedDockercfgSecretNames live in
  negb (sets.Has m name) || negb (sets.Has i name).

Definition same_generated (a b : ServiceAccount) : bool :=
  bool_decide (getGeneratedDockercfgSecretNames a
               = getGeneratedDockercfgSecretNames b).

Definition stale_conflict (name : string) (stale live : ServiceAccount) : error :=
  let '(m, i) := getGeneratedDockercfgSecretNames live in
  let '(sm, si) := getGeneratedDockercfgSecretNames stale in
  NewConflict "serviceaccount" (sa_Name stale)
    (errorString (stale_message name sm si m i)).

(** Calls of the poll loop, and the fetches among them. *)
Definition is_poll (ev : Event) : bool :=
  match ev with
  | EvSecretsGet _ _ _ | EvSleep _ => true
  | _ => false
  end.
Definition is_secret_get (ev : Event) : bool :=
  match ev with
  | EvSecretsGet _ _ _ => true
  | _ => false
  end.

Definition is_secret_create (ev : Event) : bool :=
  match ev with
  | EvSecretsCreate _ _ _ => true
  | _ => false
  end.

(** A fetch that found the token, still without its payload. *)
Definition unfilled (r : result Secret) : Prop :=
  ∃ live, r = Ok live
          ∧ length (default [] (Data live !! ServiceAccountTokenKey)) = 0%nat.

(** A call that persisted a dockercfg secret. *)
Definition bundle_created (ev : Event) : bool :=
  match ev with
  | EvSecretsCreate _ s (Ok _) => String.eqb (Type_ s) SecretTypeDockercfg
  | _ => false
  end.

(** The executable form of [unfilled], over a whole trace. *)
Definition gets_unfilled (tr : list Event) : bool :=
  forallb (λ ev,
             match ev with
             | EvSecretsGet _ _ (Ok live) =>
               bool_decide
                 (length (default [] (Data live !! ServiceAccountTokenKey))
                  = 0%nat)
             | EvSecretsGet _ _ (Err _) => false
             | _ => true
             end) tr.

(** The world after the error of a delete was handled: a [nil] or
    NotFound error is dropped. *)
Definition handle_delete_error `{!Platform W} (deleteErr : option error) (w : W) : W :=
  match deleteErr with
  | Some err => if IsNotFound deleteErr then w else HandleError err w
  | None => w
  end.

(** What is passed to [utilruntime.HandleError] after a delete. *)
Definition reported_after_delete (deleteErr : option error) : list Event :=
  match deleteErr with
  | Some err => if IsNotFound deleteErr then [] else [EvHandleError err]
  | None => []
  end.

End Model.

(** ** An in-memory API server

    Modelled from the spec: the object store client of section 6, which
    is not part of the controller's file.  Objects are kept by namespace
    and name; a write carries the caller-held version token and is
    rejected with a Conflict when the stored token has moved; a
    successful write moves the token.  The other actors of the cluster
    (the token controller, other writers) act while the controller
    sleeps. *)

Module apiserver.

Record Cluster := mkCluster {
  serviceAccounts : gmap (string * string) ServiceAccount;
  secrets : gmap (string * string) Secret;
  suffixes : list string;
  jitter : Z;
  reported : list error
}.

#[global] Instance Cluster_eq_dec : EqDecision Cluster.
Proof. solve_decision. Defined.

Definition set_serviceAccounts (v : gmap (string * string) ServiceAccount)
    (c : Cluster) : Cluster :=
  mkCluster v (secrets c) (suffixes c) (jitter c) (reported c).
Definition set_secrets (v : gmap (string * string) Secret) (c : Cluster)
    : Cluster :=
  mkCluster (serviceAccounts c) v (suffixes c) (jitter c) (reported c).

(** A version token different from the one it replaces. *)
Definition next_version (rv : string) : string := rv +:+ "+".

Definition set_ResourceVersion (rv : string) (o : ServiceAccount)
    : ServiceAccount :=
  let m := ServiceAccount_ObjectMeta o in
  mkServiceAccount
    (mkObjectMeta (Name m) (Namespace m) (UID m) rv (Annotations m))
    (Secrets o) (ImagePullSecrets o).

Definition get_sa (ns name : string) (c : Cluster)
    : result ServiceAccount * Cluster :=
  match serviceAccounts c !! (ns, name) with
  | Some sa => (Ok sa, c)
  | None => (Err (NewNotFound "serviceaccounts" name), c)
  end.

Definition update_sa (ns : string) (sa : ServiceAccount) (c : Cluster)
    : result ServiceAccount * Cluster :=
  match serviceAccounts c !! (ns, sa_Name sa) with
  | None => (Err (NewNotFound "serviceaccounts" (sa_Name sa)), c)
  | Some cur =>
    if String.eqb (sa_ResourceVersion sa) (sa_ResourceVersion cur) then
      let sa' := set_ResourceVersion
                   (next_version (sa_ResourceVersion cur)) sa in
      (Ok sa',
       set_serviceAccounts (<[(ns, sa_Name sa) := sa']> (serviceAccounts c)) c)
    else
      (Err (NewConflict "serviceaccounts" (sa_Name sa)
              (errorString "the object has been modified")), c)
  end.

Definition create_secret (ns : string) (s : Secret) (c : Cluster)
    : result Secret * Cluster :=
  match secrets c !! (ns, secret_Name s) with
  | Some _ => (Err (NewAlreadyExists "secrets" (secret_Name s)), c)
  | None => (Ok s, set_secrets (<[(ns, secret_Name s) := s]> (secrets c)) c)
  end.

Definition get_secret (ns name : string) (c : Cluster)
    : result Secret * Cluster :=
  match secrets c !! (ns, name) with
  | Some s => (Ok s, c)
  | None => (Err (NewNotFound "secrets" name), c)
  end.

Definition delete_secret (ns name : string) (c : Cluster)
    : option error * Cluster :=
  match secrets c !! (ns, name) with
  | Some _ => (None, set_secrets (delete (ns, name) (secrets c)) c)
  | None => (Some (NewNotFound "secrets" name), c)
  end.

(** The name generator appends a random suffix to the base. *)
Definition generate_name (base : string) (c : Cluster) : string * Cluster :=
  match suffixes c with
  | x :: rest =>
    (base +:+ x,
     mkCluster (serviceAccounts c) (secrets c) rest (jitter c) (reported c))
  | [] => (base, c)
  end.

Definition report (err : error) (c : Cluster) : Cluster :=
  mkCluster (serviceAccounts c) (secrets c) (suffixes c) (jitter c)
    (reported c ++ [err]).

#[global] Instance Cluster_Interface : Interface Cluster := {|
  ServiceAccounts_Get := get_sa;
  ServiceAccounts_Update := update_sa;
  Secrets_Create := create_secret;
  Secrets_Get := get_secret;
  Secrets_Delete := delete_secret
|}.

Section Actors.
(** [others] is what the rest of the cluster does during one sleep of
    the controller; [dockercfgPrefix], [tokenPrefix] and [marshal] are
    the library functions.  The jittered duration is the interval plus
    whatever the cluster's [jitter] says the library added. *)
Variable others : Cluster → Cluster.
Variables dockercfgPrefix tokenPrefix : ServiceAccount → string.
Variable marshal : DockerConfig → result (list Byte.byte).

Definition Cluster_Platform : Platform Cluster := {|
  GenerateName := generate_name;
  wait_Jitter := λ d _ c, (d + jitter c, c);
  time_Sleep := λ _ c, others c;
  HandleError := report;
  GetDockercfgSecretNamePrefix := dockercfgPrefix;
  GetTokenSecretNamePrefix := tokenPrefix;
  json_Marshal := marshal
|}.

End Actors.

(** Modelled from the spec: the other store errors of section 7
    (transport, validation, not-authorized).  [fault] says, for a call
    and the store it meets, whether the store fails that call and with
    what error; a call that fails leaves the store as it was, and a
    call that does not fail is served as above. *)
Inductive call :=
| GetServiceAccount (ns name : string)
| UpdateServiceAccount (ns : string) (sa : ServiceAccount)
| CreateSecret (ns : string) (s : Secret)
| GetSecret (ns name : string)
| DeleteSecret (ns name : string).

Definition no_fault : call → Cluster → option error := λ _ _, None.

Section Faults.
Variable fault : call → Cluster → option error.

Definition failing {A} (k : call) (op : Cluster → result A * Cluster)
    (c : Cluster) : result A * Cluster :=
  match fault k c with
  | Some err => (Err err, c)
  | None => op c
  end.

Definition Faulty_Interface : Interface Cluster := {|
  ServiceAccounts_Get := λ ns name,
    failing (GetServiceAccount ns name) (get_sa ns name);
  ServiceAccounts_Update := λ ns sa,
    failing (UpdateServiceAccount ns sa) (update_sa ns sa);
  Secrets_Create := λ ns s, failing (CreateSecret ns s) (create_secret ns s);
  Secrets_Get := λ ns name, failing (GetSecret ns name) (get_secret ns name);
  Secrets_Delete := λ ns name c,
    match fault (DeleteSecret ns name) c with
    | Some err => (Some err, c)
    | None => delete_secret ns name c
    end
|}.

End Faults.

(** The stored principal a snapshot stands for, and the object an
    accepted link of [name] leaves in the store. *)
Definition stored (c : Cluster) (sa : ServiceAccount) : option ServiceAccount :=
  serviceAccounts c !! (sa_Namespace sa, sa_Name sa).

(** A token controller that fills every empty service-account token. *)
Definition fill_token (value : list Byte.byte) (s : Secret) : Secret :=
  if String.eqb (Type_ s) SecretTypeServiceAccountToken
     && bool_decide (Data s !! ServiceAccountTokenKey = None)
  then set_Data (<[ServiceAccountTokenKey := value]> (Data s)) s
  else s.
Definition token_controller (value : list Byte.byte) (c : Cluster) : Cluster :=
  set_secrets (fill_token value <$> secrets c) c.

End apiserver.

(** The object an accepted link of [name] leaves in the store, and the
    test of the first case of the entry point's [switch]. *)
Section LinkedModel.
Context {W : Type} `{!Platform W}.

Definition linked (name : string) (sa : ServiceAccount) : ServiceAccount :=
  apiserver.set_ResourceVersion
    (apiserver.next_version (sa_ResourceVersion sa))
    (with_reference name sa).

Definition both_found (sa : ServiceAccount) : bool :=
  let '(m, i) := getGeneratedDockercfgSecretNames sa in
  bool_decide (0 < sets.Len i)%nat && bool_decide (0 < sets.Len m)%nat.

End LinkedModel.

(** ** Starting and stopping

    [Run] and [Stop] of the controller, on the one field they touch.
    A channel is a number; [made] counts the channels of [make],
    [started] lists the stop channels handed to a
    [go e.serviceAccountController.Run(...)], [closed] the channels
    given to [close], which panics on a channel closed before. *)

Module lifecycle.

Record controller := mkController {
  stopChan : option nat;
  made : nat;
  started : list nat;
  closed : list nat
}.

(** A controller as [NewDockercfgController] leaves it: [stopChan] is
    [nil]. *)
Definition fresh : controller := mkController None 0 [] [].

Definition Run (e : controller) : controller :=
  match stopChan e with
  | None =>
    let c := made e in
    mkController (Some c) (S c) (started e ++ [c]) (closed e)
  | Some _ => e
  end.

Definition Stop (e : controller) : controller :=
  match stopChan e with
  | Some c => mkController None (made e) (started e) (closed e ++ [c])
  | None => e
  end.

Inductive op := DoRun | DoStop.

Definition step (e : controller) (o : op) : controller :=
  match o with DoRun => Run e | DoStop => Stop e end.

(** The informers still running: started and not told to stop. *)
Definition running (e : controller) : list nat :=
  filter (λ c, c ∉ closed e) (started e).

(** What every reachable controller satisfies. *)
Definition lifecycle_inv (e : controller) : Prop :=
  NoDup (started e) ∧ NoDup (closed e)
  ∧ (∀ c, c ∈ started e → c < made e)%nat
  ∧ (∀ c, c ∈ closed e → c ∈ started e)
  ∧ match stopChan e with
    | Some c => c ∈ started e ∧ (c ∉ closed e)
                ∧ ∀ c', c' ∈ started e → c' ≠ c → c' ∈ closed e
    | None => ∀ c, c ∈ started e → c ∈ closed e
    end.

End lifecycle.

(** Further readings of a trace. *)
Definition is_secret_delete (ev : Event) : bool :=
  match ev with
  | EvSecretsDelete _ _ _ => true
  | _ => false
  end.

Definition is_update (ev : Event) : bool :=
  match ev with
  | EvServiceAccountsUpdate _ _ _ => true
  | _ => false
  end.

(** The secret a delete names was given to, or returned by, a
    successful create of the same trace. *)
Definition deleted_was_created (tr : list Event) : Prop :=
  ∀ ns nm derr,
    EvSecretsDelete ns nm derr ∈ tr →
    ∃ ns' x y,
      EvSecretsCreate ns' x (Ok y) ∈ tr
      ∧ ((ns, nm) = (ns', secret_Name x)
         ∨ (ns, nm) = (secret_Namespace y, secret_Name y)).

(** ** A concrete cluster for the scenario of the specification *)

Module Scenario.
Import apiserver.

Definition prefix_dockercfg (sa : ServiceAccount) : string :=
  sa_Name sa +:+ "-dockercfg-".
Definition prefix_token (sa : ServiceAccount) : string :=
  sa_Name sa +:+ "-token-".
(** A stand-in serialiser: the password bytes, enough to tell payloads
    apart. *)
Definition marshal (cfg : DockerConfig) : result (list Byte.byte) :=
  Ok (flat_map (λ kv, String.list_byte_of_string (kv.1 +:+ "=" +:+ Password kv.2))
        (map_to_list cfg)).

Definition token_value : list Byte.byte := String.list_byte_of_string "s3cr3t".

Definition platform (others : Cluster → Cluster) : Platform Cluster :=
  Cluster_Platform others prefix_dockercfg prefix_token marshal.

Definition default_sa : ServiceAccount :=
  mkServiceAccount (mkObjectMeta "default" "ns" "uid-1" "7" ∅) [] [].

Definition cluster0 : Cluster :=
  mkCluster {[ ("ns", "default") := default_sa ]} ∅ ["abc"; "xyz"; "pqr"] 3 [].

Definition state0 : state Cluster :=
  mkState [default_sa] "registry.example.com" cluster0.

(** The same principal after another writer linked a generated secret
    as an image pull secret only. *)
Definition pull_only_sa : ServiceAccount :=
  mkServiceAccount (mkObjectMeta "default" "ns" "uid-1" "8" ∅)
    [mkObjectReference "other"]
    [mkLocalObjectReference "default-dockercfg-xyz"].

Definition cluster_pull_only : Cluster :=
  mkCluster {[ ("ns", "default") := pull_only_sa ]} ∅ ["abc"; "xyz"] 3 [].

(** The controller holds the old snapshot while the store has moved. *)
Definition state_stale : state Cluster :=
  mkState [default_sa] "registry.example.com" cluster_pull_only.

(** The controller holds the current snapshot. *)
Definition state_pull_only : state Cluster :=
  mkState [pull_only_sa] "registry.example.com" cluster_pull_only.

(** Nobody else acts. *)
Definition idle : Cluster → Cluster := id.

(** While the controller sleeps, the token controller fills the token
    and another writer links a generated secret to the principal. *)
Definition racing_writer (c : Cluster) : Cluster :=
  set_serviceAccounts
    (<[("ns", "default") := pull_only_sa]> (serviceAccounts c))
    (token_controller token_value c).

(** The parts of a run, for naming them in examples. *)
Definition value_of {A} (r : result A) (d : A) : A :=
  match r with Ok v => v | Err _ => d end.

(** The runs the examples refer to: a token that is never filled, a
    token filled during the first sleep, the build and the link of a
    reconciliation that loses a race, and two reconciliations in a row. *)
Definition unfilled_run :=
  createTokenSecret (Platform0 := platform idle) 0%nat state0.

Definition filled_token :=
  createTokenSecret (Platform0 := platform (token_controller token_value))
    0%nat state0.

Definition race_built :=
  createDockerPullSecret (Platform0 := platform racing_writer) 0%nat
    (mkState [default_sa; default_sa] "registry.example.com" cluster0).
Definition race_bundle : Secret := value_of race_built.1.1 inhabitant.
Definition race_linked :=
  createDockerPullSecretReference (Platform0 := platform racing_writer)
    0%nat (secret_Name race_bundle) race_built.1.2.

Definition first_run :=
  createDockercfgSecretIfNeeded
    (Platform0 := platform (token_controller token_value)) 0%nat state0.
Definition second_run :=
  createDockercfgSecretIfNeeded
    (Platform0 := platform (token_controller token_value)) 0%nat
    first_run.1.2.

(** A cluster that has lost the principal, one where the token name is
    taken, a principal that is already linked, and actors that remove
    every secret, or fill the token and remove the principal, while
    the controller sleeps. *)
Definition cluster_gone : Cluster := mkCluster ∅ ∅ ["abc"; "xyz"] 3 [].
Definition state_gone : state Cluster :=
  mkState [default_sa] "registry.example.com" cluster_gone.

Definition cluster_taken : Cluster :=
  mkCluster {[ ("ns", "default") := default_sa ]}
    {[ ("ns", "default-token-abc") := inhabitant ]} ["abc"; "xyz"] 3 [].
Definition state_taken : state Cluster :=
  mkState [default_sa] "registry.example.com" cluster_taken.

Definition converged_sa : ServiceAccount :=
  mkServiceAccount (mkObjectMeta "default" "ns" "uid-1" "9" ∅)
    [mkObjectReference "default-dockercfg-xyz"]
    [mkLocalObjectReference "default-dockercfg-xyz"].
Definition state_converged : state Cluster :=
  mkState [converged_sa] "registry.example.com"
    (mkCluster {[ ("ns", "default") := converged_sa ]} ∅ [] 3 []).

Definition secret_remover (c : Cluster) : Cluster := set_secrets ∅ c.
Definition principal_remover (c : Cluster) : Cluster :=
  set_serviceAccounts ∅ (token_controller token_value c).

(** Two principals that differ in the order and the repetitions of
    their references only. *)
Definition shuffled_a : ServiceAccount :=
  mkServiceAccount (mkObjectMeta "default" "ns" "uid-1" "7" ∅)
    [mkObjectReference "default-dockercfg-a"; mkObjectReference "other";
     mkObjectReference "default-dockercfg-b"]
    [mkLocalObjectReference "default-dockercfg-a"].
Definition shuffled_b : ServiceAccount :=
  mkServiceAccount (mkObjectMeta "default" "ns" "uid-1" "8" ∅)
    [mkObjectReference "default-dockercfg-b"; mkObjectReference "other";
     mkObjectReference "default-dockercfg-a"; mkObjectReference "other"]
    [mkLocalObjectReference "default-dockercfg-a";
     mkLocalObjectReference "default-dockercfg-a"].

(** The token secret vanishes while the controller sleeps. *)
Definition orphan_run :=
  createTokenSecret (Platform0 := platform secret_remover) 0%nat state0.

(** A build with the token controller at work, under the configured
    URL and after a reconfiguration. *)
Definition built_run :=
  createDockerPullSecret
    (Platform0 := platform (token_controller token_value)) 0%nat state0.
Definition state_reconfigured : state Cluster :=
  (SetDockerURL (W := Cluster) "mirror.example.com" state0).1.2.
Definition reconfigured_token :=
  createTokenSecret (Platform0 := platform (token_controller token_value))
    0%nat state_reconfigured.

(** The principal vanishes while the controller waits for its token. *)
Definition lost_built :=
  createDockerPullSecret (Platform0 := platform principal_remover) 0%nat
    (mkState [default_sa; default_sa] "registry.example.com" cluster0).
Definition lost_bundle : Secret := value_of lost_built.1.1 inhabitant.
Definition lost_linked :=
  createDockerPullSecretReference (Platform0 := platform principal_remover)
    0%nat (secret_Name lost_bundle) lost_built.1.2.

(** Links and reconciliations the examples refer to: a link after the
    principal is gone, a first link, a link of a name that is not a
    generated one, and reconciliations that meet a missing principal, a
    taken token name, a vanishing principal and a racing writer. *)
Definition gone_linked :=
  createDockerPullSecretReference (Platform0 := platform idle) 0%nat
    "default-dockercfg-abc" state_gone.
Definition fresh_linked :=
  createDockerPullSecretReference (Platform0 := platform idle) 0%nat
    "default-dockercfg-abc" state0.
Definition gone_run :=
  createDockercfgSecretIfNeeded (Platform0 := platform idle) 0%nat state_gone.
Definition taken_run :=
  createDockercfgSecretIfNeeded (Platform0 := platform idle) 0%nat state_taken.
Definition taken_built :=
  createDockerPullSecret (Platform0 := platform idle) 0%nat
    (mkState [default_sa; default_sa] "registry.example.com" cluster_taken).
Definition lost_run :=
  createDockercfgSecretIfNeeded (Platform0 := platform principal_remover)
    0%nat state0.
Definition race_run :=
  createDockercfgSecretIfNeeded (Platform0 := platform racing_writer)
    0%nat state0.

(** A store that refuses every write of a principal, and two
    reconciliations in a row against it. *)
Definition refuse_updates (k : call) (c : Cluster) : option error :=
  match k with
  | UpdateServiceAccount _ _ =>
    Some (StatusError StatusReasonUnknown "serviceaccounts" "default"
            "not authorized")
  | _ => None
  end.
Definition refused_first :=
  createDockercfgSecretIfNeeded
    (Interface0 := Faulty_Interface refuse_updates)
    (Platform0 := platform (token_controller token_value)) 0%nat state0.
Definition refused_second :=
  createDockercfgSecretIfNeeded
    (Interface0 := Faulty_Interface refuse_updates)
    (Platform0 := platform (token_controller token_value)) 0%nat
    refused_first.1.2.

(** The controller holds a half-linked snapshot of a principal that
    has been fully linked since. *)
Definition state_half_stale : state Cluster :=
  mkState [pull_only_sa] "registry.example.com"
    (mkCluster {[ ("ns", "default") := converged_sa ]} ∅ [] 3 []).

End Scenario.

(** * Facts *)

(** Closed decidable statements are settled by evaluation. *)
Ltac by_evaluation :=
  lazymatch goal with
  | |- @eq ?T ?x ?y =>
    let d := constr:(_ : EqDecision T) in
    apply (@bool_decide_unpack (x = y) (d x y)); vm_compute; exact I
  | |- ?x ≠ ?y =>
    let T := type of x in
    let d := constr:(_ : EqDecision T) in
    apply (@bool_decide_unpack (x ≠ y) (not_dec (d x y))); vm_compute; exact I
  end.

(** ** The order on strings *)

Module StrOrdFacts.
Import StrOrd.

Lemma ascii_compare_refl (a : ascii) : Ascii.compare a a = Eq.
Proof. unfold Ascii.compare. apply N.compare_refl. Qed.

Lemma ascii_compare_lt_trans (a b c : ascii) :
  Ascii.compare a b = Lt → Ascii.compare b c = Lt → Ascii.compare a c = Lt.
Proof.
  unfold Ascii.compare. rewrite !N.compare_lt_iff. intros; etransitivity; eauto.
Qed.

Lemma compare_refl (s : string) : String.compare s s = Eq.
Proof.
  induction s as [|a s IH]; simpl; [done|].
  by rewrite ascii_compare_refl.
Qed.

Lemma compare_lt_trans (s1 s2 s3 : string) :
  String.compare s1 s2 = Lt → String.compare s2 s3 = Lt →
  String.compare s1 s3 = Lt.
Proof.
  revert s2 s3. induction s1 as [|a s1 IH]; intros [|b s2] [|c s3]; simpl;
    try done.
  destruct (Ascii.compare a b) eqn:Hab; try done;
    destruct (Ascii.compare b c) eqn:Hbc; try done; intros H12 H23.
  - apply Ascii.compare_eq_iff in Hab, Hbc. subst.
    rewrite ascii_compare_refl. eauto.
  - apply Ascii.compare_eq_iff in Hab. subst. by rewrite Hbc.
  - apply Ascii.compare_eq_iff in Hbc. subst. by rewrite Hab.
  - by rewrite (ascii_compare_lt_trans a b c).
Qed.

#[global] Instance le_total : Total le.
Proof. intros s1 s2. apply String.leb_total. Qed.

#[global] Instance le_antisymm : AntiSymm (=) le.
Proof. intros s1 s2. apply String.leb_antisym. Qed.

#[global] Instance le_refl : Reflexive le.
Proof. intros s. unfold le, String.leb. by rewrite compare_refl. Qed.

#[global] Instance le_trans : Transitive le.
Proof.
  intros s1 s2 s3. unfold le, String.leb.
  destruct (String.compare s1 s2) eqn:H12; try done; intros _;
    destruct (String.compare s2 s3) eqn:H23; try done; intros _.
  - apply String.compare_eq_iff in H12 as ->. by rewrite H23.
  - apply String.compare_eq_iff in H12 as ->. by rewrite H23.
  - apply String.compare_eq_iff in H23 as <-. by rewrite H12.
  - by rewrite (compare_lt_trans s1 s2 s3).
Qed.

End StrOrdFacts.

(** ** Sorted listings of string sets *)

Module setsFacts.
Import sets.

Lemma List_Permutation (s : String) : List s ≡ₚ elements s.
Proof. apply merge_sort_Permutation. Qed.

Lemma elem_of_List (s : String) (x : string) : x ∈ List s ↔ x ∈ s.
Proof. by rewrite List_Permutation, elem_of_elements. Qed.

Lemma List_inj (s1 s2 : String) : List s1 = List s2 → s1 = s2.
Proof.
  intros H. apply set_eq. intros x. by rewrite <-!elem_of_List, H.
Qed.

Lemma List_eq_iff (s1 s2 : String) : List s1 = List s2 ↔ s1 = s2.
Proof. split; [apply List_inj | by intros ->]. Qed.

Lemma List_nil (s : String) : List s = [] ↔ s = ∅.
Proof.
  split.
  - intros H. apply set_eq. intros x. rewrite <-elem_of_List, H. set_solver.
  - intros ->. reflexivity.
Qed.

Lemma Len_0 (s : String) : Len s = 0%nat ↔ s = ∅.
Proof. unfold Len. rewrite size_empty_iff. by unfold_leibniz. Qed.

Lemma List_StronglySorted (s : String) : StronglySorted StrOrd.le (List s).
Proof. apply (StronglySorted_merge_sort _). Qed.

(** The first element of [List] is the lexicographically least member. *)
Lemma List_head_least (s : String) (x : string) (l : list string) :
  List s = x :: l → x ∈ s ∧ ∀ y, y ∈ s → StrOrd.le x y.
Proof.
  intros H. split.
  - apply elem_of_List. rewrite H. left.
  - intros y Hy. apply elem_of_List in Hy. rewrite H in Hy.
    pose proof (List_StronglySorted s) as HS. rewrite H in HS.
    apply StronglySorted_cons in HS as [HF _].
    apply elem_of_cons in Hy as [->|Hy]; [reflexivity|].
    by eapply Forall_forall in HF.
Qed.

Lemma Has_true (s : String) (x : string) : Has s x = true ↔ x ∈ s.
Proof. unfold Has. apply bool_decide_eq_true. Qed.

Lemma Has_false (s : String) (x : string) : Has s x = false ↔ x ∉ s.
Proof. unfold Has. apply bool_decide_eq_false. Qed.

End setsFacts.


(** ** The classifier *)

Section ClassifierFacts.
Context {W : Type} `{!Platform W}.

Lemma elem_of_foldl_insert {A} (f : A → string) (P : string → bool)
    (l : list A) (acc : gset string) (x : string) :
  x ∈ foldl (λ acc s, if P (f s) then sets.Insert (f s) acc else acc) acc l
  ↔ x ∈ acc ∨ (P x = true ∧ x ∈ f <$> l).
Proof.
  revert acc. induction l as [|a l IH]; intros acc; simpl.
  - rewrite elem_of_nil. naive_solver.
  - rewrite IH, elem_of_cons. unfold sets.Insert.
    destruct (P (f a)) eqn:HP.
    + rewrite elem_of_union, elem_of_singleton. naive_solver.
    + split; [naive_solver|]. intros [?|[? [->|?]]]; [auto| congruence |auto].
Qed.

Lemma elem_of_generated_mountable (sa : ServiceAccount) (x : string) :
  x ∈ (getGeneratedDockercfgSecretNames sa).1 ↔
  String.prefix (GetDockercfgSecretNamePrefix sa) x = true
  ∧ x ∈ ObjectReference_Name <$> Secrets sa.
Proof.
  unfold getGeneratedDockercfgSecretNames. simpl.
  rewrite (elem_of_foldl_insert ObjectReference_Name
             (String.prefix (GetDockercfgSecretNamePrefix sa))).
  set_solver.
Qed.

Lemma elem_of_generated_pull (sa : ServiceAccount) (x : string) :
  x ∈ (getGeneratedDockercfgSecretNames sa).2 ↔
  String.prefix (GetDockercfgSecretNamePrefix sa) x = true
  ∧ x ∈ LocalObjectReference_Name <$> ImagePullSecrets sa.
Proof.
  unfold getGeneratedDockercfgSecretNames. simpl.
  rewrite (elem_of_foldl_insert LocalObjectReference_Name
             (String.prefix (GetDockercfgSecretNamePrefix sa))).
  set_solver.
Qed.

(** For a name that carries the prefix, membership in the generated
    sets is membership in the lists. *)
Lemma Has_generated_mountable (sa : ServiceAccount) (x : string) :
  String.prefix (GetDockercfgSecretNamePrefix sa) x = true →
  sets.Has (getGeneratedDockercfgSecretNames sa).1 x
  = bool_decide (x ∈ ObjectReference_Name <$> Secrets sa).
Proof.
  intros Hx. unfold sets.Has. apply bool_decide_ext.
  rewrite elem_of_generated_mountable. naive_solver.
Qed.

Lemma Has_generated_pull (sa : ServiceAccount) (x : string) :
  String.prefix (GetDockercfgSecretNamePrefix sa) x = true →
  sets.Has (getGeneratedDockercfgSecretNames sa).2 x
  = bool_decide (x ∈ LocalObjectReference_Name <$> ImagePullSecrets sa).
Proof.
  intros Hx. unfold sets.Has. apply bool_decide_ext.
  rewrite elem_of_generated_pull. naive_solver.
Qed.

End ClassifierFacts.

(** ** Facts about the heap and the linker *)

#[local] Opaque getGeneratedDockercfgSecretNames stale_message sets.List sets.Has.

Section HeapFacts.
Context {A : Type} `{!Inhabited A}.

Lemma lookup_total_fresh (h : list A) (a : A) : (h ++ [a]) !!! length h = a.
Proof.
  apply list_lookup_total_correct. by rewrite lookup_app_r, Nat.sub_diag.
Qed.

Lemma lookup_total_old (h : list A) (a b : A) (p : nat) :
  h !! p = Some b → (h ++ [a]) !!! p = b.
Proof.
  intros H. apply list_lookup_total_correct. by apply lookup_app_l_Some.
Qed.

Lemma lookup_total_Some (h : list A) (b : A) (p : nat) :
  h !! p = Some b → h !!! p = b.
Proof. apply list_lookup_total_correct. Qed.

Lemma insert_fresh (h : list A) (a v : A) :
  <[length h := v]> (h ++ [a]) = h ++ [v].
Proof.
  replace (length h) with (length h + 0)%nat by lia.
  by rewrite insert_app_r.
Qed.
End HeapFacts.

Section LinkerFacts.
Context {W : Type} `{!Interface W} `{!Platform W}.

Lemma createDockerPullSecretReference_run (s : state W) (stale : loc)
    (name : string) (sa : ServiceAccount) :
  heap s !! stale = Some sa →
  createDockerPullSecretReference stale name s =
    let ns := sa_Namespace sa in
    let '(r, w) := ServiceAccounts_Get ns (sa_Name sa) (world s) in
    let get := EvServiceAccountsGet ns (sa_Name sa) r in
    match r with
    | Err err => (Some err, mkState (heap s) (dockerURL s) w, [get])
    | Ok live =>
      if negb (same_generated sa live) then
        (Some (stale_conflict name sa live),
         mkState (heap s ++ [live]) (dockerURL s) w, [get])
      else if needs_reference name live then
        let o := with_reference name live in
        let '(r', w') := ServiceAccounts_Update (sa_Namespace o) o w in
        (result_err r',
         mkState (match r' with
                  | Ok sa' => heap s ++ [o] ++ [sa']
                  | Err _ => heap s ++ [o]
                  end) (dockerURL s) w',
         [get; EvServiceAccountsUpdate (sa_Namespace o) o r'])
      else (None, mkState (heap s ++ [live]) (dockerURL s) w, [get])
    end.
Proof.
  intros Hp.
  unfold createDockerPullSecretReference, client_ServiceAccounts_Get,
    client_ServiceAccounts_Update, call, load, store, new,
    mbind, M_bind, mret, M_ret. simpl.
  rewrite (lookup_total_Some _ _ _ Hp).
  destruct (ServiceAccounts_Get _ _ _) as [[live|err] w]; simpl; [|done].
  rewrite lookup_total_fresh, (lookup_total_old _ _ _ _ Hp).
  unfold same_generated, stale_conflict, needs_reference, with_reference,
    DeepEqual.
  destruct (getGeneratedDockercfgSecretNames live) as [m i] eqn:Hl.
  destruct (getGeneratedDockercfgSecretNames sa) as [sm si] eqn:Hs.
  destruct (decide ((sm, si) = (m, i))) as [Heq|Hne].
  - inversion Heq; subst. rewrite !bool_decide_eq_true_2 by done. simpl.
    destruct (sets.Has m name) eqn:Hm; destruct (sets.Has i name) eqn:Hi; simpl;
      rewrite ?insert_fresh, ?lookup_total_fresh; simpl; try done;
      rewrite ?insert_fresh, ?lookup_total_fresh; simpl;
      destruct (ServiceAccounts_Update _ _ _) as [[sa'|err] w']; simpl;
      rewrite <-?(assoc_L (++)); try done.
  - rewrite (bool_decide_eq_false_2 ((sm, si) = (m, i))) by done. simpl.
    destruct (decide (sets.List sm = sets.List m)) as [H1|H1];
      destruct (decide (sets.List si = sets.List i)) as [H2|H2].
    + apply setsFacts.List_inj in H1, H2. congruence.
    + rewrite (bool_decide_eq_false_2 _ H2). by rewrite orb_true_r.
    + by rewrite (bool_decide_eq_false_2 _ H1).
    + by rewrite (bool_decide_eq_false_2 _ H1).
Qed.
Lemma with_reference_meta (name : string) (sa : ServiceAccount) :
  ServiceAccount_ObjectMeta (with_reference name sa)
  = ServiceAccount_ObjectMeta sa.
Proof.
  unfold with_reference.
  destruct (getGeneratedDockercfgSecretNames sa) as [m i].
  by destruct (sets.Has m name), (sets.Has i name).
Qed.

(** For a name with the prefix, the written object has the name
    appended to the lists that lacked it. *)
Lemma with_reference_lists (name : string) (sa : ServiceAccount) :
  String.prefix (GetDockercfgSecretNamePrefix sa) name = true →
  Secrets (with_reference name sa)
  = (if bool_decide (name ∈ ObjectReference_Name <$> Secrets sa)
     then Secrets sa else Secrets sa ++ [mkObjectReference name])
  ∧ ImagePullSecrets (with_reference name sa)
    = (if bool_decide (name ∈ LocalObjectReference_Name <$> ImagePullSecrets sa)
       then ImagePullSecrets sa
       else ImagePullSecrets sa ++ [mkLocalObjectReference name]).
Proof.
  intros Hpre. unfold with_reference.
  pose proof (Has_generated_mountable sa _ Hpre) as Hm.
  pose proof (Has_generated_pull sa _ Hpre) as Hi.
  destruct (getGeneratedDockercfgSecretNames sa) as [m i]. simpl in Hm, Hi.
  rewrite Hm, Hi.
  by destruct (bool_decide (_ ∈ ObjectReference_Name <$> _)),
       (bool_decide (_ ∈ LocalObjectReference_Name <$> _)).
Qed.

(** The linker only ever talks to the service account client, and the
    objects it allocates come after those already there. *)
Lemma createDockerPullSecretReference_frame (s s' : state W) (stale : loc)
    (name : string) (sa : ServiceAccount) (err : option error)
    (tr : list Event) :
  heap s !! stale = Some sa →
  createDockerPullSecretReference stale name s = (err, s', tr) →
  heap s `prefix_of` heap s' ∧ dockerURL s' = dockerURL s
  ∧ Forall (λ ev, is_secret_create ev = false) tr.
Proof.
  intros Hp. rewrite (createDockerPullSecretReference_run s _ _ sa Hp).
  cbv zeta.
  destruct (ServiceAccounts_Get _ _ _) as [[live|e] w].
  - destruct (negb _).
    + intros [= <- <- <-]. simpl.
      repeat split; [by apply prefix_app_r | by repeat constructor].
    + destruct (needs_reference _ _).
      * destruct (ServiceAccounts_Update _ _ _) as [[sa'|e] w'];
          intros [= <- <- <-]; simpl;
          (repeat split; [by apply prefix_app_r | by repeat constructor]).
      * intros [= <- <- <-]. simpl.
        repeat split; [by apply prefix_app_r | by repeat constructor].
  - intros [= <- <- <-]. simpl. repeat split; [done | by repeat constructor].
Qed.

End LinkerFacts.

(** ** The poll loop *)

Section PollFacts.
Context {W : Type} `{!Interface W} `{!Platform W}.

Lemma waitForToken_0 (tokenSecret : Secret) (s : state W) :
  waitForToken tokenSecret 0 s = (None, s, []).
Proof. done. Qed.

Lemma waitForToken_S (tokenSecret : Secret) (n : nat) (s : state W) :
  waitForToken tokenSecret (S n) s =
    let '(r, w) := Secrets_Get (secret_Namespace tokenSecret)
                     (secret_Name tokenSecret) (world s) in
    let get := EvSecretsGet (secret_Namespace tokenSecret)
                 (secret_Name tokenSecret) r in
    match r with
    | Err err2 => (Some (Err err2), mkState (heap s) (dockerURL s) w, [get])
    | Ok liveTokenSecret =>
      if bool_decide (0 < length (default [] (Data liveTokenSecret
                                     !! ServiceAccountTokenKey)))%nat
      then (Some (Ok liveTokenSecret), mkState (heap s) (dockerURL s) w, [get])
      else
        let '(d, w1) := wait_Jitter tokenSecretWaitInterval 0%Q w in
        let '(res, s', tr) :=
          waitForToken tokenSecret n
            (mkState (heap s) (dockerURL s) (time_Sleep d w1)) in
        (res, s', get :: EvSleep d :: tr)
    end.
Proof.
  simpl. unfold client_Secrets_Get, call, quiet, time_Sleep', mbind, M_bind,
    mret, M_ret. simpl.
  destruct (Secrets_Get _ _ _) as [[live|err] w]; simpl; [|done].
  destruct (bool_decide _); simpl; [done|].
  destruct (wait_Jitter _ _ _) as [d w1]. simpl.
  by destruct (waitForToken _ _ _) as [[res s'] tr].
Qed.

(** Polling reads and sleeps; it leaves the process memory alone. *)
Lemma waitForToken_frame (tokenSecret : Secret) (n : nat) (s s' : state W)
    (res : option (result Secret)) (tr : list Event) :
  waitForToken tokenSecret n s = (res, s', tr) →
  heap s' = heap s ∧ dockerURL s' = dockerURL s
  ∧ Forall (λ ev, is_poll ev = true) tr.
Proof.
  revert s s' res tr. induction n as [|n IH]; intros s s' res tr.
  - intros [= <- <- <-]. by repeat split.
  - rewrite waitForToken_S.
    destruct (Secrets_Get _ _ _) as [[live|err] w];
      [|intros [= <- <- <-]; repeat split; by repeat constructor].
    destruct (bool_decide _);
      [intros [= <- <- <-]; repeat split; by repeat constructor|].
    destruct (wait_Jitter _ _ _) as [d w1].
    destruct (waitForToken _ _ _) as [[res1 s1] tr1] eqn:Hrec.
    intros [= <- <- <-]. apply IH in Hrec as (Hh & Hu & Htr).
    repeat split; [done|done|]. by repeat constructor.
Qed.

(** A poll that only ever sees the unfilled token runs all its
    iterations, one fetch each, and falls out of the loop. *)
Lemma waitForToken_unfilled (tokenSecret : Secret) (n : nat) (s s' : state W)
    (res : option (result Secret)) (tr : list Event) :
  waitForToken tokenSecret n s = (res, s', tr) →
  (∀ ns nm r, EvSecretsGet ns nm r ∈ tr → unfilled r) →
  res = None ∧ length (filter (λ ev, is_secret_get ev = true) tr) = n.
Proof.
  revert s s' res tr. induction n as [|n IH]; intros s s' res tr.
  - by intros [= <- <- <-].
  - rewrite waitForToken_S.
    destruct (Secrets_Get _ _ _) as [[live|err] w].
    + destruct (bool_decide _) eqn:Hfilled.
      * intros [= <- <- <-] Hall.
        destruct (Hall _ _ _ (list_elem_of_here _ _)) as (live' & [= <-] & Hlen).
        apply bool_decide_eq_true in Hfilled. lia.
      * destruct (wait_Jitter _ _ _) as [d w1].
        destruct (waitForToken _ _ _) as [[res1 s1] tr1] eqn:Hrec.
        intros [= <- <- <-] Hall.
        apply IH in Hrec as [-> Hn].
        -- split; [done|].
           rewrite filter_cons_True by done.
           rewrite filter_cons_False by done. simpl. by rewrite Hn.
        -- intros ns nm r Hin. apply (Hall ns nm r). by do 2 right.
    + intros [= <- <- <-] Hall.
      by destruct (Hall _ _ _ (list_elem_of_here _ _)) as (live' & [=] & _).
Qed.

Lemma gets_unfilled_sound (tr : list Event) :
  gets_unfilled tr = true →
  ∀ ns nm r, EvSecretsGet ns nm r ∈ tr → unfilled r.
Proof.
  unfold gets_unfilled. rewrite forallb_forall.
  intros Hall ns nm r Hin. apply list_elem_of_In, Hall in Hin.
  destruct r as [live|err]; [|done].
  exists live. split; [done|]. by apply bool_decide_eq_true in Hin.
Qed.

End PollFacts.

(** ** Closed forms of the materialiser and the builder *)

#[local] Opaque waitForToken.

Section BuilderFacts.
Context {W : Type} `{!Interface W} `{!Platform W}.

Lemma createTokenSecret_run (s : state W) (p : loc) (sa : ServiceAccount) :
  heap s !! p = Some sa →
  createTokenSecret p s =
    let '(name, w1) := GenerateName (GetTokenSecretNamePrefix sa) (world s) in
    let tokenSecret := tokenSecret_of sa name in
    let ns := sa_Namespace sa in
    let '(r, w2) := Secrets_Create ns tokenSecret w1 in
    let create := EvSecretsCreate ns tokenSecret r in
    match r with
    | Err err => (Err err, mkState (heap s) (dockerURL s) w2, [create])
    | Ok _ =>
      let '(found, s3, tr) :=
        waitForToken tokenSecret (S tokenSecretWaitTimes)
          (mkState (heap s) (dockerURL s) w2) in
      match found with
      | Some res => (res, s3, create :: tr)
      | None =>
        let '(deleteErr, w4) := Secrets_Delete ns name (world s3) in
        (Err (token_never_generated name),
         mkState (heap s3) (dockerURL s3) (handle_delete_error deleteErr w4),
         create :: tr ++ EvSecretsDelete ns name deleteErr
                         :: reported_after_delete deleteErr)
      end
    end.
Proof.
  intros Hp.
  unfold createTokenSecret, client_Secrets_Create, client_Secrets_Delete,
    utilruntime_HandleError, call, quiet, load, mbind, M_bind, mret, M_ret.
  simpl. rewrite (lookup_total_Some _ _ _ Hp).
  destruct (GenerateName _ _) as [name w1]. simpl.
  destruct (Secrets_Create _ _ _) as [[created|err] w2]; simpl; [|done].
  destruct (waitForToken _ _ _) as [[[res|] s3] tr]; simpl.
  - by rewrite app_nil_r.
  - destruct (Secrets_Delete _ _ _) as [[err|] w4]; simpl.
    + unfold reported_after_delete, handle_delete_error.
      destruct err as [[] ? ? ?|?]; simpl; by rewrite ?app_nil_r.
    + by rewrite ?app_nil_r.
Qed.

(** The materialiser leaves the process memory alone. *)
Lemma createTokenSecret_frame (s s' : state W) (p : loc) (sa : ServiceAccount)
    (r : result Secret) (tr : list Event) :
  heap s !! p = Some sa →
  createTokenSecret p s = (r, s', tr) →
  heap s' = heap s ∧ dockerURL s' = dockerURL s.
Proof.
  intros Hp. rewrite (createTokenSecret_run s p sa Hp).
  destruct (GenerateName _ _) as [name w1]. cbv zeta.
  destruct (Secrets_Create _ _ _) as [[created|err] w2];
    [|by intros [= <- <- <-]].
  destruct (waitForToken _ _ _) as [[found s3] tr3] eqn:Hpoll.
  apply waitForToken_frame in Hpoll as (Hh & Hu & _). simpl in Hh, Hu.
  destruct found as [res|]; [by intros [= <- <- <-]|].
  destruct (Secrets_Delete _ _ _) as [deleteErr w4].
  by intros [= <- <- <-].
Qed.

Lemma createDockerPullSecret_run (s : state W) (p : loc) (sa : ServiceAccount) :
  heap s !! p = Some sa →
  createDockerPullSecret p s =
    let '(r, s1, tr1) := createTokenSecret p s in
    match r with
    | Err err => (Err err, s1, tr1)
    | Ok tokenSecret =>
      let '(name, w2) :=
        GenerateName (GetDockercfgSecretNamePrefix sa) (world s1) in
      match json_Marshal (dockercfg_of (dockerURL s1) tokenSecret) with
      | Err err => (Err err, mkState (heap s) (dockerURL s) w2, tr1)
      | Ok dockercfgContent =>
        let dockercfgSecret :=
          set_Data {[ DockerConfigKey := dockercfgContent ]}
            (dockercfgSecret_of sa tokenSecret name) in
        let ns := secret_Namespace tokenSecret in
        let '(r', w3) := Secrets_Create ns dockercfgSecret w2 in
        (r', mkState (heap s) (dockerURL s) w3,
         tr1 ++ [EvSecretsCreate ns dockercfgSecret r'])
      end
    end.
Proof.
  intros Hp. unfold createDockerPullSecret at 1.
  unfold mbind, M_bind at 1.
  destruct (createTokenSecret p s) as [[r s1] tr1] eqn:Htok.
  apply (createTokenSecret_frame _ _ _ _ _ _ Hp) in Htok as [Hh Hu].
  destruct r as [tokenSecret|err]; [|by unfold mret, M_ret; rewrite app_nil_r].
  unfold client_Secrets_Create, call, quiet, load, mbind, M_bind, mret, M_ret.
  simpl. rewrite Hh, (lookup_total_Some _ _ _ Hp).
  destruct (GenerateName _ _) as [name w2]. simpl.
  destruct (json_Marshal _) as [content|err]; simpl.
  - rewrite insert_empty.
    destruct (Secrets_Create _ _ _) as [r' w3]. simpl. by rewrite Hu.
  - by rewrite app_nil_r, Hu.
Qed.

Lemma createDockerPullSecret_frame (s s' : state W) (p : loc)
    (sa : ServiceAccount) (r : result Secret) (tr : list Event) :
  heap s !! p = Some sa →
  createDockerPullSecret p s = (r, s', tr) →
  heap s' = heap s ∧ dockerURL s' = dockerURL s.
Proof.
  intros Hp. rewrite (createDockerPullSecret_run s p sa Hp).
  destruct (createTokenSecret p s) as [[r1 s1] tr1] eqn:Htok.
  apply (createTokenSecret_frame _ _ _ _ _ _ Hp) in Htok as [Hh Hu].
  destruct r1 as [tokenSecret|err]; [|by intros [= <- <- <-]].
  destruct (GenerateName _ _) as [name w2].
  destruct (json_Marshal _) as [content|err]; [|by intros [= <- <- <-]].
  cbv zeta.
  destruct (Secrets_Create _ _ _) as [r' w3]. by intros [= <- <- <-].
Qed.

End BuilderFacts.

(** ** The reference linker: stale decisions and appends *)

Section LinkerClaims.
Context {W : Type} `{!Interface W} `{!Platform W}.

(** C3.  When the generated-name classification of the freshly fetched
    service account differs from the classification of the caller's
    stale snapshot, [createDockerPullSecretReference] returns a Conflict
    error, and the fetch is the only call it makes: no write reaches the
    store, which is left as the fetch found it. *)
Theorem createDockerPullSecretReference_stale_is_conflict
    (s : state W) (staleServiceAccount : loc) (dockercfgSecretName : string)
    (stale live : ServiceAccount) (w : W) :
  heap s !! staleServiceAccount = Some stale →
  ServiceAccounts_Get (sa_Namespace stale) (sa_Name stale) (world s)
    = (Ok live, w) →
  getGeneratedDockercfgSecretNames live
    ≠ getGeneratedDockercfgSecretNames stale →
  ∃ err s',
    createDockerPullSecretReference staleServiceAccount dockercfgSecretName s
      = (Some err, s',
         [EvServiceAccountsGet (sa_Namespace stale) (sa_Name stale) (Ok live)])
    ∧ IsConflict (Some err) = true
    ∧ world s' = w.
Proof.
  intros Hp Hget Hne.
  rewrite (createDockerPullSecretReference_run s _ _ stale Hp). simpl.
  rewrite Hget. unfold same_generated.
  rewrite bool_decide_eq_false_2 by congruence. simpl.
  eexists _, _. split; [reflexivity|]. split; [|done].
  unfold stale_conflict.
  destruct (getGeneratedDockercfgSecretNames live) as [m i].
  by destruct (getGeneratedDockercfgSecretNames stale) as [sm si].
Qed.

(** C7.  When the classifications agree, [createDockerPullSecretReference]
    appends the name of the dockercfg secret (a name carrying the
    generated prefix) to exactly those of [Secrets] and
    [ImagePullSecrets] that do not contain it; if both contain it, it
    returns [nil] having made no call but the fetch; otherwise it makes
    exactly one [Update], of the fetched object with the appended lists
    and the fetched metadata (so the fresh resource version), and
    returns the error of that update. *)
Theorem createDockerPullSecretReference_appends_where_missing
    (s : state W) (staleServiceAccount : loc) (dockercfgSecretName : string)
    (stale live : ServiceAccount) (w : W) :
  heap s !! staleServiceAccount = Some stale →
  ServiceAccounts_Get (sa_Namespace stale) (sa_Name stale) (world s)
    = (Ok live, w) →
  getGeneratedDockercfgSecretNames live
    = getGeneratedDockercfgSecretNames stale →
  String.prefix (GetDockercfgSecretNamePrefix live) dockercfgSecretName
    = true →
  let inSecrets :=
    bool_decide (dockercfgSecretName ∈ ObjectReference_Name <$> Secrets live) in
  let inPullSecrets :=
    bool_decide (dockercfgSecretName
                 ∈ LocalObjectReference_Name <$> ImagePullSecrets live) in
  let updated :=
    mkServiceAccount (ServiceAccount_ObjectMeta live)
      (if inSecrets then Secrets live
       else Secrets live ++ [mkObjectReference dockercfgSecretName])
      (if inPullSecrets then ImagePullSecrets live
       else ImagePullSecrets live
              ++ [mkLocalObjectReference dockercfgSecretName]) in
  let get :=
    EvServiceAccountsGet (sa_Namespace stale) (sa_Name stale) (Ok live) in
  if inSecrets && inPullSecrets then
    ∃ s',
      createDockerPullSecretReference staleServiceAccount dockercfgSecretName s
        = (None, s', [get])
      ∧ world s' = w
  else
    ∃ r w' s',
      ServiceAccounts_Update (sa_Namespace live) updated w = (r, w')
      ∧ createDockerPullSecretReference staleServiceAccount
          dockercfgSecretName s
        = (result_err r, s',
           [get; EvServiceAccountsUpdate (sa_Namespace live) updated r])
      ∧ world s' = w'
      ∧ sa_ResourceVersion updated = sa_ResourceVersion live.
Proof.
  intros Hp Hget Hsame Hpre. simpl.
  rewrite (createDockerPullSecretReference_run s _ _ stale Hp). simpl.
  rewrite Hget. unfold same_generated, needs_reference, with_reference.
  rewrite (bool_decide_eq_true_2 (getGeneratedDockercfgSecretNames stale = _))
    by congruence.
  simpl.
  pose proof (Has_generated_mountable live _ Hpre) as Hm.
  pose proof (Has_generated_pull live _ Hpre) as Hi.
  destruct (getGeneratedDockercfgSecretNames live) as [m i]. simpl in Hm, Hi.
  rewrite Hm, Hi.
  destruct (bool_decide (_ ∈ ObjectReference_Name <$> _));
    destruct (bool_decide (_ ∈ LocalObjectReference_Name <$> _)); simpl.
  - by eexists.
  - destruct live as [meta ss ps]; simpl.
    unfold set_ImagePullSecrets, sa_Namespace; simpl.
    destruct (ServiceAccounts_Update _ _ _) as [r w'].
    by eexists _, _, _.
  - destruct live as [meta ss ps]; simpl.
    unfold set_Secrets, sa_Namespace; simpl.
    destruct (ServiceAccounts_Update _ _ _) as [r w'].
    by eexists _, _, _.
  - destruct live as [meta ss ps]; simpl.
    unfold set_Secrets, set_ImagePullSecrets, sa_Namespace; simpl.
    destruct (ServiceAccounts_Update _ _ _) as [r w'].
    by eexists _, _, _.
Qed.

End LinkerClaims.

Section LinkerWitnesses.
Import apiserver Scenario.

Lemma createDockerPullSecretReference_stale_is_conflict_witness :
  heap state_stale !! 0%nat = Some default_sa
  ∧ ∃ err s',
      createDockerPullSecretReference (Platform0 := platform idle)
        0%nat "default-dockercfg-new" state_stale
      = (Some err, s',
         [EvServiceAccountsGet "ns" "default" (Ok pull_only_sa)])
      ∧ IsConflict (Some err) = true
      ∧ world s' = cluster_pull_only.
Proof.
  split; [by_evaluation|].
  apply (createDockerPullSecretReference_stale_is_conflict
           (Platform0 := platform idle) state_stale 0%nat
           "default-dockercfg-new" default_sa pull_only_sa cluster_pull_only).
  - by_evaluation.
  - by_evaluation.
  - by_evaluation.
Defined.

Lemma createDockerPullSecretReference_appends_where_missing_witness :
  heap state_pull_only !! 0%nat = Some pull_only_sa
  ∧ ∃ r w' s',
      createDockerPullSecretReference (Platform0 := platform idle)
        0%nat "default-dockercfg-xyz" state_pull_only
      = (result_err r, s',
         [EvServiceAccountsGet "ns" "default" (Ok pull_only_sa);
          EvServiceAccountsUpdate "ns"
            (mkServiceAccount (mkObjectMeta "default" "ns" "uid-1" "8" ∅)
               [mkObjectReference "other";
                mkObjectReference "default-dockercfg-xyz"]
               [mkLocalObjectReference "default-dockercfg-xyz"]) r])
      ∧ world s' = w'.
Proof.
  split; [by_evaluation|].
  pose proof (createDockerPullSecretReference_appends_where_missing
                (Platform0 := platform idle) state_pull_only 0%nat
                "default-dockercfg-xyz" pull_only_sa pull_only_sa
                cluster_pull_only) as H.
  destruct H as (r & w' & s' & _ & Hrun & Hw & _); [by_evaluation..|].
  exists r, w', s'. split; [exact Hrun | exact Hw].
Defined.

End LinkerWitnesses.

(** ** Closed form of the reconciliation entry point *)

#[local] Opaque createDockerPullSecretReference createDockerPullSecret
  createTokenSecret.

Section ReconcilerFacts.
Context {W : Type} `{!Interface W} `{!Platform W}.

Lemma createDockercfgSecretIfNeeded_run (s : state W) (p : loc)
    (sa : ServiceAccount) :
  heap s !! p = Some sa →
  createDockercfgSecretIfNeeded p s =
    let '(m, i) := getGeneratedDockercfgSecretNames sa in
    let foundPullSecret := bool_decide (0 < sets.Len i)%nat in
    let foundMountableSecret := bool_decide (0 < sets.Len m)%nat in
    if foundPullSecret && foundMountableSecret then (None, s, [])
    else if foundPullSecret || foundMountableSecret then
      let name := if foundPullSecret then sets.List i !!! 0%nat
                  else sets.List m !!! 0%nat in
      let '(err, s', tr) := createDockerPullSecretReference p name s in
      (if IsConflict err then None else err, s', tr)
    else
      let '(r, w) :=
        ServiceAccounts_Get (sa_Namespace sa) (sa_Name sa) (world s) in
      let get := EvServiceAccountsGet (sa_Namespace sa) (sa_Name sa) r in
      match r with
      | Err err => (Some err, mkState (heap s) (dockerURL s) w, [get])
      | Ok live =>
        let s1 := mkState (heap s ++ [live]) (dockerURL s) w in
        if negb (String.eqb (sa_ResourceVersion live) (sa_ResourceVersion sa))
        then (None, s1, [get])
        else
          let '(r2, s2, tr2) := createDockerPullSecret p s1 in
          match r2 with
          | Err err => (Some err, s2, get :: tr2)
          | Ok dockercfgSecret =>
            let '(err, s3, tr3) :=
              createDockerPullSecretReference p
                (secret_Name dockercfgSecret) s2 in
            if IsConflict err then
              let '(derr, w4) :=
                Secrets_Delete (secret_Namespace dockercfgSecret)
                  (secret_Name dockercfgSecret) (world s3) in
              (None,
               mkState (heap s3) (dockerURL s3) (handle_delete_error derr w4),
               get :: tr2 ++ tr3
                 ++ EvSecretsDelete (secret_Namespace dockercfgSecret)
                      (secret_Name dockercfgSecret) derr
                    :: reported_after_delete derr)
            else (err, s3, get :: tr2 ++ tr3)
          end
      end.
Proof.
  intros Hp.
  unfold createDockercfgSecretIfNeeded, client_ServiceAccounts_Get,
    client_Secrets_Delete, utilruntime_HandleError, call, load, new,
    mbind, M_bind, mret, M_ret.
  simpl. rewrite (lookup_total_Some _ _ _ Hp).
  destruct (getGeneratedDockercfgSecretNames sa) as [m i].
  destruct (bool_decide (0 < sets.Len i)%nat);
    destruct (bool_decide (0 < sets.Len m)%nat); simpl; try done.
  - destruct (createDockerPullSecretReference _ _ _) as [[err s'] tr].
    destruct (IsConflict err); simpl; by rewrite app_nil_r.
  - destruct (createDockerPullSecretReference _ _ _) as [[err s'] tr].
    destruct (IsConflict err); simpl; by rewrite app_nil_r.
  - destruct (ServiceAccounts_Get _ _ _) as [[live|err] w]; simpl; [|done].
    rewrite lookup_total_fresh, (lookup_total_old _ _ _ _ Hp).
    destruct (negb _); simpl; [done|].
    destruct (createDockerPullSecret _ _) as [[[bundle|err] s2] tr2]; simpl;
      [|by rewrite app_nil_r].
    destruct (createDockerPullSecretReference _ _ _) as [[err s3] tr3].
    destruct (IsConflict err) eqn:Hc; rewrite ?Hc; simpl;
      [|by rewrite ?app_nil_r].
    destruct (Secrets_Delete _ _ _) as [[derr|] w4]; simpl.
    + destruct derr as [[] ? ? ?|?]; simpl; by rewrite ?app_nil_r.
    + by rewrite ?app_nil_r.
Qed.

End ReconcilerFacts.

(** ** The reconciliation entry point *)

Section ReconcilerClaims.
Context {W : Type} `{!Interface W} `{!Platform W}.

Lemma found_false (x : gset string) :
  x = ∅ → bool_decide (0 < sets.Len x)%nat = false.
Proof.
  intros ->. apply bool_decide_eq_false. unfold sets.Len.
  rewrite size_empty. lia.
Qed.

Lemma found_true (x : gset string) :
  x ≠ ∅ → bool_decide (0 < sets.Len x)%nat = true.
Proof.
  intros Hx. apply bool_decide_eq_true.
  destruct (sets.Len x) eqn:Hn; [|lia].
  by apply setsFacts.Len_0 in Hn.
Qed.

(** The first name of the sorted listing of a non-empty set is its
    least member. *)
Lemma first_of_List (x : gset string) :
  x ≠ ∅ →
  sets.List x !!! 0%nat ∈ x ∧ ∀ y, y ∈ x → StrOrd.le (sets.List x !!! 0%nat) y.
Proof.
  intros Hx. destruct (sets.List x) as [|a l] eqn:Hl.
  - by apply setsFacts.List_nil in Hl.
  - simpl. by apply (setsFacts.List_head_least x a l).
Qed.

(** C2.  On a snapshot with generated names in exactly one of the two
    lists, [createDockercfgSecretIfNeeded] runs the linker on the
    lexicographically first name of the non-empty set and nothing else:
    no secret is created; a Conflict from the linker becomes [nil] and
    any other error is returned as it is; and when the fetched service
    account still has the snapshot's classification, the one write is
    the fetched object with that name appended to the list that lacked
    generated names, the other list unchanged. *)
Theorem createDockercfgSecretIfNeeded_links_first_existing
    (s : state W) (serviceAccount : loc) (sa : ServiceAccount)
    (m i : gset string) :
  heap s !! serviceAccount = Some sa →
  getGeneratedDockercfgSecretNames sa = (m, i) →
  (m = ∅ ∧ i ≠ ∅) ∨ (m ≠ ∅ ∧ i = ∅) →
  ∃ name err s' tr,
    (name ∈ m ∪ i ∧ ∀ y, y ∈ m ∪ i → StrOrd.le name y)
    ∧ createDockerPullSecretReference serviceAccount name s = (err, s', tr)
    ∧ createDockercfgSecretIfNeeded serviceAccount s
      = (if IsConflict err then None else err, s', tr)
    ∧ Forall (λ ev, is_secret_create ev = false) tr
    ∧ ∀ live w,
        ServiceAccounts_Get (sa_Namespace sa) (sa_Name sa) (world s)
          = (Ok live, w) →
        getGeneratedDockercfgSecretNames live = (m, i) →
        let updated :=
          mkServiceAccount (ServiceAccount_ObjectMeta live)
            (if decide (m = ∅)
             then Secrets live ++ [mkObjectReference name]
             else Secrets live)
            (if decide (i = ∅)
             then ImagePullSecrets live ++ [mkLocalObjectReference name]
             else ImagePullSecrets live) in
        ∃ r w',
          ServiceAccounts_Update (sa_Namespace live) updated w = (r, w')
          ∧ err = result_err r
          ∧ tr = [EvServiceAccountsGet (sa_Namespace sa) (sa_Name sa) (Ok live);
                  EvServiceAccountsUpdate (sa_Namespace live) updated r].
Proof.
  intros Hp Hgen Hone.
  rewrite (createDockercfgSecretIfNeeded_run s _ sa Hp), Hgen.
  cbv beta iota zeta.
  set (name := if bool_decide (0 < sets.Len i)%nat
               then sets.List i !!! 0%nat else sets.List m !!! 0%nat).
  assert (Hname : (name ∈ m ∪ i ∧ ∀ y, y ∈ m ∪ i → StrOrd.le name y)
                  ∧ sets.Has m name = bool_decide (m ≠ ∅)
                  ∧ sets.Has i name = bool_decide (i ≠ ∅)).
  { unfold name. destruct Hone as [[-> Hi]|[Hm ->]].
    - rewrite (found_true i Hi). destruct (first_of_List i Hi) as [Hin Hle].
      split; [split; [set_solver|]|].
      + intros y Hy. apply Hle. set_solver.
      + split.
        * rewrite bool_decide_eq_false_2 by (intros H; by apply H).
          apply setsFacts.Has_false. set_solver.
        * rewrite bool_decide_eq_true_2 by done. by apply setsFacts.Has_true.
    - rewrite (found_false ∅ eq_refl).
      destruct (first_of_List m Hm) as [Hin Hle].
      split; [split; [set_solver|]|].
      + intros y Hy. apply Hle. set_solver.
      + split.
        * rewrite bool_decide_eq_true_2 by done. by apply setsFacts.Has_true.
        * rewrite bool_decide_eq_false_2 by (intros H; by apply H).
          apply setsFacts.Has_false. set_solver. }
  destruct Hname as (Hleast & HasM & HasI).
  assert (Hbranch : bool_decide (0 < sets.Len i)%nat
                    && bool_decide (0 < sets.Len m)%nat = false
                    ∧ bool_decide (0 < sets.Len i)%nat
                      || bool_decide (0 < sets.Len m)%nat = true).
  { destruct Hone as [[-> Hi]|[Hm ->]].
    - by rewrite (found_true i Hi), (found_false ∅ eq_refl).
    - by rewrite (found_true m Hm), (found_false ∅ eq_refl). }
  destruct Hbranch as [-> ->].
  destruct (createDockerPullSecretReference serviceAccount name s)
    as [[err s'] tr] eqn:Hlink.
  exists name, err, s', tr.
  split; [done|]. split; [done|]. split; [done|].
  split; [by eapply createDockerPullSecretReference_frame|].
  intros live w Hget Hlive.
  rewrite (createDockerPullSecretReference_run s _ _ sa Hp) in Hlink.
  cbv zeta in Hlink. rewrite Hget in Hlink.
  unfold same_generated, needs_reference, with_reference in Hlink.
  rewrite Hgen, Hlive, HasM, HasI in Hlink.
  rewrite bool_decide_eq_true_2 in Hlink by done. simpl in Hlink.
  destruct Hone as [[-> Hi]|[Hm ->]].
  - rewrite bool_decide_eq_false_2 in Hlink by (intros H; by apply H).
    rewrite bool_decide_eq_true_2 in Hlink by done. simpl in Hlink.
    rewrite decide_True by done. rewrite decide_False by done.
    unfold set_Secrets, sa_Namespace in *. simpl in Hlink.
    destruct (ServiceAccounts_Update _ _ _) as [r w'].
    injection Hlink as <- _ <-. by exists r, w'.
  - rewrite (bool_decide_eq_true_2 _ Hm) in Hlink.
    rewrite bool_decide_eq_false_2 in Hlink by (intros H; by apply H).
    simpl in Hlink.
    rewrite decide_False by done. rewrite decide_True by done.
    unfold set_ImagePullSecrets, sa_Namespace in *. simpl in Hlink.
    destruct (ServiceAccounts_Update _ _ _) as [r w'].
    injection Hlink as <- _ <-. by exists r, w'.
Qed.

(** C4.  On a snapshot without generated names the first call of
    [createDockercfgSecretIfNeeded] is the re-read of the service
    account, and when the re-read carries another resource version it is
    the only call: [nil] is returned, and no token, no dockercfg secret
    and no write was asked of the store. *)
Theorem createDockercfgSecretIfNeeded_rereads_first
    (s : state W) (serviceAccount : loc) (sa : ServiceAccount) :
  heap s !! serviceAccount = Some sa →
  getGeneratedDockercfgSecretNames sa = (∅, ∅) →
  ∃ r w err s' tr,
    ServiceAccounts_Get (sa_Namespace sa) (sa_Name sa) (world s) = (r, w)
    ∧ createDockercfgSecretIfNeeded serviceAccount s
      = (err, s',
         EvServiceAccountsGet (sa_Namespace sa) (sa_Name sa) r :: tr)
    ∧ ∀ live,
        r = Ok live →
        sa_ResourceVersion live ≠ sa_ResourceVersion sa →
        err = None ∧ tr = [] ∧ world s' = w.
Proof.
  intros Hp Hgen.
  rewrite (createDockercfgSecretIfNeeded_run s _ sa Hp), Hgen.
  cbv beta iota zeta. rewrite (found_false ∅ eq_refl). simpl.
  destruct (ServiceAccounts_Get _ _ _) as [[live|e] w].
  - destruct (String.eqb _ _) eqn:Hrv; simpl.
    + destruct (createDockerPullSecret _ _) as [[[bundle|e] s2] tr2].
      * destruct (createDockerPullSecretReference _ _ _) as [[err s3] tr3].
        destruct (IsConflict err).
        -- destruct (Secrets_Delete _ _ _) as [derr w4].
           eexists _, _, _, _, _. split; [done|]. split; [done|].
           intros live' [= <-] Hne. by apply String.eqb_eq in Hrv.
        -- eexists _, _, _, _, _. split; [done|]. split; [done|].
           intros live' [= <-] Hne. by apply String.eqb_eq in Hrv.
      * eexists _, _, _, _, _. split; [done|]. split; [done|].
        intros live' [= <-] Hne. by apply String.eqb_eq in Hrv.
    + eexists _, _, _, _, _. split; [done|]. split; [done|]. done.
  - eexists _, _, _, _, _. split; [done|]. split; [done|]. done.
Qed.

(** C5.  On the path without generated names, when the dockercfg secret
    was created and the linker then returns a Conflict,
    [createDockercfgSecretIfNeeded] asks the store to delete that
    secret, by its namespace and name, hands the delete's error to the
    error handler unless it is [nil] or NotFound, and returns [nil]. *)
Theorem createDockercfgSecretIfNeeded_conflict_deletes_created
    (s s2 s3 : state W) (serviceAccount : loc) (sa live : ServiceAccount)
    (w : W) (dockercfgSecret : Secret) (err : option error)
    (tr2 tr3 : list Event) :
  heap s !! serviceAccount = Some sa →
  getGeneratedDockercfgSecretNames sa = (∅, ∅) →
  ServiceAccounts_Get (sa_Namespace sa) (sa_Name sa) (world s)
    = (Ok live, w) →
  sa_ResourceVersion live = sa_ResourceVersion sa →
  createDockerPullSecret serviceAccount
    (mkState (heap s ++ [live]) (dockerURL s) w)
    = (Ok dockercfgSecret, s2, tr2) →
  createDockerPullSecretReference serviceAccount
    (secret_Name dockercfgSecret) s2 = (err, s3, tr3) →
  IsConflict err = true →
  ∃ derr w4 s',
    Secrets_Delete (secret_Namespace dockercfgSecret)
      (secret_Name dockercfgSecret) (world s3) = (derr, w4)
    ∧ createDockercfgSecretIfNeeded serviceAccount s
      = (None, s',
         EvServiceAccountsGet (sa_Namespace sa) (sa_Name sa) (Ok live)
         :: tr2 ++ tr3
            ++ EvSecretsDelete (secret_Namespace dockercfgSecret)
                 (secret_Name dockercfgSecret) derr
               :: reported_after_delete derr)
    ∧ world s' = handle_delete_error derr w4
    ∧ (derr = None ∨ IsNotFound derr = true →
       reported_after_delete derr = [] ∧ world s' = w4).
Proof.
  intros Hp Hgen Hget Hrv Hbuild Hlink Hconflict.
  rewrite (createDockercfgSecretIfNeeded_run s _ sa Hp), Hgen.
  cbv beta iota zeta. rewrite (found_false ∅ eq_refl). simpl.
  rewrite Hget, Hrv, String.eqb_refl. simpl.
  rewrite Hbuild, Hlink, Hconflict.
  destruct (Secrets_Delete _ _ _) as [derr w4].
  eexists _, _, _. split; [done|]. split; [done|]. split; [done|].
  simpl. unfold reported_after_delete, handle_delete_error.
  intros [->|Hnf]; [done|]. rewrite Hnf. by destruct derr.
Qed.

(** C10.  Neither [createDockerPullSecretReference] nor
    [createDockercfgSecretIfNeeded] writes through the snapshot pointer:
    after either, the snapshot, like every object that was in the
    process memory before the call, is as it was; the appends went to
    the object the fetch allocated. *)
Theorem snapshot_is_never_mutated
    (s : state W) (serviceAccount : loc) (sa : ServiceAccount)
    (dockercfgSecretName : string) :
  heap s !! serviceAccount = Some sa →
  (∀ q o, heap s !! q = Some o →
     heap (createDockerPullSecretReference serviceAccount
             dockercfgSecretName s).1.2 !! q = Some o)
  ∧ (∀ q o, heap s !! q = Some o →
       heap (createDockercfgSecretIfNeeded serviceAccount s).1.2 !! q = Some o).
Proof.
  intros Hp.
  assert (Hlink : ∀ (s0 : state W) name so,
            heap s0 !! serviceAccount = Some so →
            heap s0 `prefix_of`
              heap (createDockerPullSecretReference serviceAccount name s0).1.2).
  { intros s0 name so Hso.
    destruct (createDockerPullSecretReference _ _ _) as [[e s'] tr] eqn:Hrun.
    by apply (createDockerPullSecretReference_frame _ _ _ _ _ _ _ Hso) in Hrun
      as (Hpre & _). }
  split.
  - intros q o Hq. eapply prefix_lookup_Some; [exact Hq|]. by eapply Hlink.
  - intros q o Hq. eapply prefix_lookup_Some; [exact Hq|].
    rewrite (createDockercfgSecretIfNeeded_run s _ sa Hp).
    destruct (getGeneratedDockercfgSecretNames sa) as [m i]. cbv zeta.
    destruct (_ && _); [done|].
    destruct (_ || _).
    { specialize (Hlink s (if bool_decide (0 < sets.Len i)%nat
                           then sets.List i !!! 0%nat
                           else sets.List m !!! 0%nat) sa Hp).
      by destruct (createDockerPullSecretReference _ _ _) as [[e s'] tr]. }
    destruct (ServiceAccounts_Get _ _ _) as [[live|e] w]; [|done].
    destruct (negb _); [by apply prefix_app_r|].
    assert (Hp1 : (heap s ++ [live]) !! serviceAccount = Some sa)
      by by apply lookup_app_l_Some.
    destruct (createDockerPullSecret _ _) as [[r2 s2] tr2] eqn:Hbuild.
    apply (createDockerPullSecret_frame
             (mkState (heap s ++ [live]) (dockerURL s) w) _ _ sa _ _ Hp1)
      in Hbuild as [Hh _].
    simpl in Hh.
    destruct r2 as [bundle|e]; [|simpl; rewrite Hh; by apply prefix_app_r].
    assert (Hp2 : heap s2 !! serviceAccount = Some sa) by by rewrite Hh.
    specialize (Hlink s2 (secret_Name bundle) sa Hp2).
    destruct (createDockerPullSecretReference _ _ _) as [[e s3] tr3].
    simpl in Hlink.
    assert (heap s `prefix_of` heap s3).
    { etransitivity; [|exact Hlink]. rewrite Hh. by apply prefix_app_r. }
    destruct (IsConflict e); [|done].
    by destruct (Secrets_Delete _ _ _) as [derr w4].
Qed.

End ReconcilerClaims.

(** ** The token materialiser and the dockercfg secret builder *)

Section BuilderClaims.
Context {W : Type} `{!Interface W} `{!Platform W}.

(** C6.  When the token secret was created and every fetch of the poll
    found it without its payload, [createTokenSecret] makes all
    [tokenSecretWaitTimes + 1] fetches, then asks the store to delete
    the token secret by its namespace and name, hands the delete's error
    to the error handler unless it is [nil] or NotFound, and fails with
    the error whose message is "token never generated for" followed by
    the token secret's name. *)
Theorem createTokenSecret_unfilled_token_is_deleted
    (s s' : state W) (serviceAccount : loc) (sa : ServiceAccount)
    (r : result Secret) (tr tr' : list Event) (ns : string)
    (tokenSecret created : Secret) :
  heap s !! serviceAccount = Some sa →
  createTokenSecret serviceAccount s = (r, s', tr) →
  tr = EvSecretsCreate ns tokenSecret (Ok created) :: tr' →
  (∀ ns' nm rr, EvSecretsGet ns' nm rr ∈ tr → unfilled rr) →
  ∃ polls deleteErr,
    r = Err (token_never_generated (secret_Name tokenSecret))
    ∧ Error (token_never_generated (secret_Name tokenSecret))
      = "token never generated for " +:+ secret_Name tokenSecret
    ∧ tr' = polls ++ EvSecretsDelete (secret_Namespace tokenSecret)
                       (secret_Name tokenSecret) deleteErr
                     :: reported_after_delete deleteErr
    ∧ Forall (λ ev, is_poll ev = true) polls
    ∧ length (filter (λ ev, is_secret_get ev = true) polls)
      = S tokenSecretWaitTimes
    ∧ (deleteErr = None ∨ IsNotFound deleteErr = true →
       reported_after_delete deleteErr = []).
Proof.
  intros Hp Hrun -> Hall.
  rewrite (createTokenSecret_run s _ sa Hp) in Hrun.
  destruct (GenerateName _ _) as [name w1]. cbv zeta in Hrun.
  destruct (Secrets_Create _ _ _) as [[created'|e] w2]; [|by simplify_eq].
  destruct (waitForToken _ _ _) as [[found s3] polls] eqn:Hpoll.
  pose proof (waitForToken_frame _ _ _ _ _ _ Hpoll) as (_ & _ & Hshape).
  destruct found as [res|].
  - simplify_eq.
    apply waitForToken_unfilled in Hpoll as [[=] _].
    intros ns' nm rr Hin. apply (Hall ns' nm rr). by right.
  - destruct (Secrets_Delete _ _ _) as [deleteErr w4].
    simplify_eq.
    apply waitForToken_unfilled in Hpoll as [_ Hcount].
    + exists polls, deleteErr. simpl. repeat split; try done.
      unfold reported_after_delete. intros [->|Hnf]; [done|].
      rewrite Hnf. by destruct deleteErr.
    + intros ns' nm rr Hin. apply (Hall ns' nm rr).
      right. apply elem_of_app. by left.
Qed.

(** C8.  Once the token secret is materialised, [createDockerPullSecret]
    serialises the one-entry [DockerConfig] that maps the configured
    docker URL to the entry with user name "serviceaccount", the token
    bytes as password and e-mail "serviceaccount@example.org"; if that
    fails nothing is persisted, and otherwise the single secret it asks
    the store to create has the serialisation as its [.dockercfg] data
    and nothing else, type dockercfg, and annotations recording the
    service account's name and UID and the token secret's name. *)
Theorem createDockerPullSecret_payload_and_annotations
    (s s1 : state W) (serviceAccount : loc) (sa : ServiceAccount)
    (tokenSecret : Secret) (tr1 : list Event) :
  heap s !! serviceAccount = Some sa →
  createTokenSecret serviceAccount s = (Ok tokenSecret, s1, tr1) →
  let dockercfg : DockerConfig :=
    {[ dockerURL s1 :=
         mkDockerConfigEntry "serviceaccount"
           (String.string_of_list_byte
              (default [] (Data tokenSecret !! ServiceAccountTokenKey)))
           "serviceaccount@example.org" ]} in
  dockerURL s1 = dockerURL s
  ∧ match json_Marshal dockercfg with
    | Err err =>
      ∃ s', createDockerPullSecret serviceAccount s = (Err err, s', tr1)
    | Ok dockercfgContent =>
      ∃ dockercfgSecret r s',
        createDockerPullSecret serviceAccount s
          = (r, s',
             tr1 ++ [EvSecretsCreate (secret_Namespace tokenSecret)
                       dockercfgSecret r])
        ∧ Data dockercfgSecret = {[ DockerConfigKey := dockercfgContent ]}
        ∧ Type_ dockercfgSecret = SecretTypeDockercfg
        ∧ secret_Namespace dockercfgSecret = secret_Namespace tokenSecret
        ∧ Annotations (Secret_ObjectMeta dockercfgSecret)
          = {[ ServiceAccountNameKey := sa_Name sa;
               ServiceAccountUIDKey := sa_UID sa;
               ServiceAccountTokenSecretNameKey := secret_Name tokenSecret ]}
        ∧ Annotations (Secret_ObjectMeta dockercfgSecret)
            !! ServiceAccountNameKey = Some (sa_Name sa)
        ∧ Annotations (Secret_ObjectMeta dockercfgSecret)
            !! ServiceAccountUIDKey = Some (sa_UID sa)
        ∧ Annotations (Secret_ObjectMeta dockercfgSecret)
            !! ServiceAccountTokenSecretNameKey
          = Some (secret_Name tokenSecret)
    end.
Proof.
  intros Hp Htok. cbv zeta.
  pose proof (createTokenSecret_frame _ _ _ _ _ _ Hp Htok) as [_ Hu].
  split; [done|].
  rewrite (createDockerPullSecret_run s _ sa Hp), Htok.
  destruct (GenerateName _ _) as [name w2]. unfold dockercfg_of.
  destruct (json_Marshal _) as [content|err]; [|by eexists].
  cbv zeta. destruct (Secrets_Create _ _ _) as [r w3].
  eexists _, r, _. split; [reflexivity|]. simpl.
  by repeat split.
Qed.

End BuilderClaims.

(** ** The theorems on a concrete cluster *)

Section ScenarioWitnesses.
Import apiserver Scenario.

Lemma createDockercfgSecretIfNeeded_links_first_existing_witness :
  heap state_pull_only !! 0%nat = Some pull_only_sa
  ∧ ∃ name err s' tr,
      name ∈ (∅ : gset string) ∪ {[ "default-dockercfg-xyz" ]}
      ∧ createDockercfgSecretIfNeeded (Platform0 := platform idle)
          0%nat state_pull_only
        = (if IsConflict err then None else err, s', tr)
      ∧ Forall (λ ev, is_secret_create ev = false) tr.
Proof.
  split; [by_evaluation|].
  destruct (createDockercfgSecretIfNeeded_links_first_existing
              (Platform0 := platform idle) state_pull_only 0%nat pull_only_sa
              ∅ {[ "default-dockercfg-xyz" ]})
    as (name & err & s' & tr & [Hin _] & _ & Hrun & Hcreate & _).
  - by_evaluation.
  - by_evaluation.
  - left. split; [reflexivity | by_evaluation].
  - exists name, err, s', tr.
    split; [exact Hin|]. split; [exact Hrun | exact Hcreate].
Defined.

Lemma createDockercfgSecretIfNeeded_rereads_first_witness :
  heap state_stale !! 0%nat = Some default_sa
  ∧ ∃ s',
      createDockercfgSecretIfNeeded (Platform0 := platform idle)
        0%nat state_stale
      = (None, s', [EvServiceAccountsGet "ns" "default" (Ok pull_only_sa)])
      ∧ world s' = cluster_pull_only.
Proof.
  split; [by_evaluation|].
  destruct (createDockercfgSecretIfNeeded_rereads_first
              (Platform0 := platform idle) state_stale 0%nat default_sa)
    as (r & w & err & s' & tr & Hget & Hrun & Hnoop).
  - by_evaluation.
  - by_evaluation.
  - assert (Hr : (r, w) = (Ok pull_only_sa, cluster_pull_only)).
    { rewrite <-Hget. by_evaluation. }
    injection Hr as -> ->.
    destruct (Hnoop pull_only_sa eq_refl) as (-> & -> & Hw).
    + by_evaluation.
    + exists s'. split; [exact Hrun | exact Hw].
Defined.

Lemma createDockercfgSecretIfNeeded_conflict_deletes_created_witness :
  IsConflict race_linked.1.1 = true
  ∧ ∃ s',
      createDockercfgSecretIfNeeded (Platform0 := platform racing_writer)
        0%nat state0
      = (None, s',
         EvServiceAccountsGet "ns" "default" (Ok default_sa)
         :: race_built.2 ++ race_linked.2
            ++ [EvSecretsDelete "ns" "default-dockercfg-xyz" None])
      ∧ secrets (world s') !! ("ns", "default-dockercfg-xyz") = None.
Proof.
  split; [by_evaluation|].
  destruct (createDockercfgSecretIfNeeded_conflict_deletes_created
              (Platform0 := platform racing_writer) state0
              race_built.1.2 race_linked.1.2 0%nat default_sa default_sa
              cluster0 race_bundle race_linked.1.1 race_built.2 race_linked.2)
    as (derr & w4 & s' & Hdel & Hrun & Hw & _).
  - by_evaluation.
  - by_evaluation.
  - by_evaluation.
  - by_evaluation.
  - by_evaluation.
  - by_evaluation.
  - by_evaluation.
  - assert (Hd : (derr, w4)
                 = (None, set_secrets
                            (delete ("ns", "default-dockercfg-xyz")
                               (secrets (world race_linked.1.2)))
                            (world race_linked.1.2))).
    { rewrite <-Hdel. by_evaluation. }
    injection Hd as -> ->.
    exists s'. split; [exact Hrun|]. rewrite Hw. by_evaluation.
Defined.

Lemma createTokenSecret_unfilled_token_is_deleted_witness :
  gets_unfilled unfilled_run.2 = true
  ∧ secrets (world unfilled_run.1.2) !! ("ns", "default-token-abc") = None
  ∧ ∃ polls,
      unfilled_run.1.1 = Err (token_never_generated "default-token-abc")
      ∧ tl unfilled_run.2
        = polls ++ [EvSecretsDelete "ns" "default-token-abc" None]
      ∧ length (filter (λ ev, is_secret_get ev = true) polls) = 101%nat.
Proof.
  split; [by_evaluation|]. split; [by_evaluation|].
  destruct (createTokenSecret_unfilled_token_is_deleted
              (Platform0 := platform idle) state0 unfilled_run.1.2 0%nat
              default_sa unfilled_run.1.1 unfilled_run.2 (tl unfilled_run.2)
              "ns" (tokenSecret_of default_sa "default-token-abc")
              (tokenSecret_of default_sa "default-token-abc"))
    as (polls & deleteErr & Hr & _ & Htr & _ & Hcount & _).
  - by_evaluation.
  - by_evaluation.
  - by_evaluation.
  - apply gets_unfilled_sound. by_evaluation.
  - assert (Hd : deleteErr = None).
    { assert (Hlast : last (tl unfilled_run.2)
                      = Some (EvSecretsDelete "ns" "default-token-abc" None))
        by by_evaluation.
      rewrite Htr in Hlast. unfold reported_after_delete in Hlast.
      destruct deleteErr as [e|]; [|done].
      destruct (IsNotFound (Some e)).
      - rewrite last_snoc in Hlast. by simplify_eq.
      - change (?l ++ ?a :: [?b]) with (l ++ [a] ++ [b]) in Hlast.
        rewrite (assoc_L (++)), last_snoc in Hlast. by simplify_eq. }
    subst deleteErr. exists polls.
    split; [exact Hr|]. split; [exact Htr | exact Hcount].
Defined.

Lemma createDockerPullSecret_payload_and_annotations_witness :
  (∃ tokenSecret, filled_token.1.1 = Ok tokenSecret)
  ∧ ∃ dockercfgSecret r s',
      createDockerPullSecret
        (Platform0 := platform (token_controller token_value)) 0%nat state0
      = (r, s',
         filled_token.2 ++ [EvSecretsCreate "ns" dockercfgSecret r])
      ∧ Data dockercfgSecret
        = {[ DockerConfigKey :=
               String.list_byte_of_string "registry.example.com=s3cr3t" ]}
      ∧ Annotations (Secret_ObjectMeta dockercfgSecret)
          !! ServiceAccountTokenSecretNameKey
        = Some "default-token-abc".
Proof.
  split; [exists (value_of filled_token.1.1 inhabitant); by_evaluation|].
  destruct (createDockerPullSecret_payload_and_annotations
              (Platform0 := platform (token_controller token_value))
              state0 filled_token.1.2 0%nat default_sa
              (value_of filled_token.1.1 inhabitant) filled_token.2)
    as [_ H].
  - by_evaluation.
  - by_evaluation.
  - destruct H as (dockercfgSecret & r & s' & Hrun & Hdata & _ & _ & _ & _
                   & _ & Htok).
    exists dockercfgSecret, r, s'.
    split; [exact Hrun|]. split; [|exact Htok].
    rewrite Hdata. by_evaluation.
Defined.

Lemma snapshot_is_never_mutated_witness :
  heap state_pull_only !! 0%nat = Some pull_only_sa
  ∧ heap (createDockercfgSecretIfNeeded (Platform0 := platform idle)
            0%nat state_pull_only).1.2 !! 0%nat
    = Some pull_only_sa.
Proof.
  split; [by_evaluation|].
  apply (snapshot_is_never_mutated (Platform0 := platform idle)
           state_pull_only 0%nat pull_only_sa "default-dockercfg-xyz");
    by_evaluation.
Defined.

End ScenarioWitnesses.

(** ** Reconciling twice against the in-memory API server *)

Arguments with_reference : simpl never.
Arguments needs_reference : simpl never.
Arguments linked : simpl never.
Arguments both_found : simpl never.
Arguments same_generated : simpl never.

Section StringFacts.

Lemma prefix_append (base x : string) : String.prefix base (base +:+ x) = true.
Proof.
  induction base as [|a base IH]; simpl; [by destruct x|].
  by destruct (ascii_dec a a).
Qed.

Lemma prefix_refl (base : string) : String.prefix base base = true.
Proof.
  induction base as [|a base IH]; simpl; [done|].
  by destruct (ascii_dec a a).
Qed.

Lemma length_append (s1 s2 : string) :
  String.length (s1 +:+ s2) = (String.length s1 + String.length s2)%nat.
Proof. induction s1 as [|a s1 IH]; simpl; [done|]. by rewrite IH. Qed.

Lemma next_version_ne (rv : string) : apiserver.next_version rv ≠ rv.
Proof.
  unfold apiserver.next_version. intros H.
  apply (f_equal String.length) in H. rewrite length_append in H.
  simpl in H. lia.
Qed.

End StringFacts.

Section Idempotence.
Import apiserver.
Variable others : Cluster → Cluster.
Variables dockercfgPrefix tokenPrefix : ServiceAccount → string.
Variable marshal : DockerConfig → result (list Byte.byte).
Variable fault : call → Cluster → option error.

(** Between the two calls nobody else writes the principal, the prefix
    of generated names is derived from the principal's identity, and
    the store reports a Conflict for a stale version token only: a
    call it fails for another reason fails with another error. *)
Hypothesis others_keep_serviceAccounts :
  ∀ c, serviceAccounts (others c) = serviceAccounts c.
Hypothesis prefix_of_identity :
  ∀ a b, sa_Namespace a = sa_Namespace b → sa_Name a = sa_Name b →
         dockercfgPrefix a = dockercfgPrefix b.
Hypothesis faults_are_not_conflicts :
  ∀ k c err, fault k c = Some err → IsConflict (Some err) = false.

#[local] Instance idempotence_platform : Platform Cluster :=
  Cluster_Platform others dockercfgPrefix tokenPrefix marshal.
#[local] Instance idempotence_store : Interface Cluster :=
  Faulty_Interface fault.

Lemma waitForToken_keeps_serviceAccounts (tokenSecret : Secret) (n : nat)
    (s s' : state Cluster) (res : option (result Secret)) (tr : list Event) :
  waitForToken tokenSecret n s = (res, s', tr) →
  serviceAccounts (world s') = serviceAccounts (world s).
Proof.
  revert s s' res tr. induction n as [|n IH]; intros s s' res tr.
  - rewrite waitForToken_0. by intros [= <- <- <-].
  - rewrite waitForToken_S. simpl. unfold failing, get_secret.
    destruct (fault _ _) as [err|]; [by intros [= <- <- <-]|].
    destruct (secrets (world s) !! _) as [live|];
      [|by intros [= <- <- <-]].
    destruct (bool_decide _); [by intros [= <- <- <-]|].
    destruct (waitForToken _ _ _) as [[res1 s1] tr1] eqn:Hrec.
    intros [= <- <- <-]. apply IH in Hrec. simpl in Hrec.
    by rewrite Hrec, others_keep_serviceAccounts.
Qed.

Lemma is_poll_not_created (tr : list Event) :
  Forall (λ ev, is_poll ev = true) tr →
  Forall (λ ev, bundle_created ev = false) tr.
Proof. intros H. eapply Forall_impl; [exact H|]. by intros []. Qed.

Lemma not_write_not_created (tr : list Event) :
  Forall (λ ev, is_write ev = false) tr →
  Forall (λ ev, bundle_created ev = false) tr.
Proof. intros H. eapply Forall_impl; [exact H|]. by intros []. Qed.

Lemma none_created (tr : list Event) :
  Forall (λ ev, bundle_created ev = false) tr →
  filter (λ ev, bundle_created ev = true) tr = [].
Proof.
  induction 1 as [|ev tr Hev _ IH]; [done|].
  rewrite filter_cons_False; [done|]. by rewrite Hev.
Qed.

Lemma generate_name_spec (base : string) (c c' : Cluster) (name : string) :
  generate_name base c = (name, c') →
  serviceAccounts c' = serviceAccounts c ∧ secrets c' = secrets c
  ∧ String.prefix base name = true.
Proof.
  unfold generate_name. destruct (suffixes c) as [|x rest];
    intros [= <- <-]; simpl; repeat split.
  - apply prefix_refl.
  - apply prefix_append.
Qed.

Lemma create_secret_spec (ns : string) (x : Secret) (c c' : Cluster)
    (r : result Secret) :
  Secrets_Create ns x c = (r, c') →
  serviceAccounts c' = serviceAccounts c ∧ ∀ y, r = Ok y → y = x.
Proof.
  simpl. unfold failing, create_secret.
  destruct (fault _ _) as [err|]; [by intros [= <- <-]|].
  destruct (secrets c !! _);
    intros [= <- <-]; simpl; split; try done. by intros y [= <-].
Qed.

Lemma delete_secret_keeps (ns name : string) (c c' : Cluster)
    (r : option error) :
  Secrets_Delete ns name c = (r, c') →
  serviceAccounts c' = serviceAccounts c.
Proof.
  simpl. unfold delete_secret.
  destruct (fault _ _) as [err|]; [by intros [= <- <-]|].
  by destruct (secrets c !! _); intros [= <- <-].
Qed.

Lemma handle_delete_error_keeps (derr : option error) (c : Cluster) :
  serviceAccounts (handle_delete_error derr c) = serviceAccounts c.
Proof.
  unfold handle_delete_error. destruct derr as [e|]; [|done].
  by destruct (IsNotFound (Some e)).
Qed.

Lemma createTokenSecret_keeps_serviceAccounts (s s' : state Cluster)
    (p : loc) (sa : ServiceAccount) (r : result Secret) (tr : list Event) :
  heap s !! p = Some sa →
  createTokenSecret p s = (r, s', tr) →
  serviceAccounts (world s') = serviceAccounts (world s)
  ∧ Forall (λ ev, bundle_created ev = false) tr.
Proof.
  intros Hp. rewrite (createTokenSecret_run s p sa Hp).
  destruct (GenerateName _ _) as [name w1] eqn:Hname.
  apply generate_name_spec in Hname as (Hsas1 & _ & _). cbv zeta.
  destruct (Secrets_Create _ _ _) as [r0 w2] eqn:Hcreate.
  apply create_secret_spec in Hcreate as [Hsas2 _].
  assert (Hev : bundle_created
                  (EvSecretsCreate (sa_Namespace sa) (tokenSecret_of sa name) r0)
                = false) by by destruct r0.
  destruct r0 as [created|err].
  - destruct (waitForToken _ _ _) as [[found s3] polls] eqn:Hpoll.
    pose proof (waitForToken_frame _ _ _ _ _ _ Hpoll) as (_ & _ & Hshape).
    apply is_poll_not_created in Hshape.
    apply waitForToken_keeps_serviceAccounts in Hpoll. simpl in Hpoll.
    destruct found as [res|].
    + intros [= <- <- <-]. split; [congruence|]. by constructor.
    + destruct (Secrets_Delete _ _ _) as [derr w4] eqn:Hdel.
      apply delete_secret_keeps in Hdel.
      intros [= <- <- <-]. simpl. split.
      * rewrite handle_delete_error_keeps. congruence.
      * constructor; [done|]. apply Forall_app. split; [done|].
        constructor; [done|]. unfold reported_after_delete.
        destruct derr as [e|]; [|done].
        destruct (IsNotFound (Some e)); by repeat constructor.
  - intros [= <- <- <-]. simpl. split; [congruence|]. by repeat constructor.
Qed.

(** The builder keeps the principals, persists at most one dockercfg
    secret, and a secret it returns carries the generated prefix. *)
Lemma createDockerPullSecret_on_cluster (s s' : state Cluster)
    (p : loc) (sa : ServiceAccount) (r : result Secret) (tr : list Event) :
  heap s !! p = Some sa →
  createDockerPullSecret p s = (r, s', tr) →
  serviceAccounts (world s') = serviceAccounts (world s)
  ∧ heap s' = heap s
  ∧ (length (filter (λ ev, bundle_created ev = true) tr) ≤ 1)%nat
  ∧ match r with
    | Ok dockercfgSecret =>
      String.prefix (dockercfgPrefix sa) (secret_Name dockercfgSecret) = true
    | Err _ => Forall (λ ev, bundle_created ev = false) tr
    end.
Proof.
  intros Hp Hrun.
  pose proof (createDockerPullSecret_frame _ _ _ _ _ _ Hp Hrun) as [Hheap _].
  rewrite (createDockerPullSecret_run s p sa Hp) in Hrun.
  destruct (createTokenSecret p s) as [[r1 s1] tr1] eqn:Htok.
  apply (createTokenSecret_keeps_serviceAccounts _ _ _ _ _ _ Hp) in Htok
    as [Hsas1 Hnone].
  destruct r1 as [tokenSecret|err].
  - destruct (GenerateName _ _) as [name w2] eqn:Hname.
    apply generate_name_spec in Hname as (Hsas2 & _ & Hprefix).
    destruct (json_Marshal _) as [content|err].
    + cbv zeta in Hrun.
      destruct (Secrets_Create _ _ _) as [r' w3] eqn:Hcreate.
      apply create_secret_spec in Hcreate as [Hsas3 Hsame].
      injection Hrun as <- <- <-. simpl.
      split; [congruence|]. split; [done|]. split.
      * rewrite filter_app, length_app, (none_created tr1 Hnone). simpl.
        match goal with
        | |- (length (filter ?P ?l) ≤ 1)%nat =>
          pose proof (length_filter P l) as Hle
        end.
        simpl in Hle. lia.
      * destruct r' as [y|e].
        -- by rewrite (Hsame y eq_refl).
        -- apply Forall_app. split; [done|]. by repeat constructor.
    + injection Hrun as <- <- <-. simpl.
      split; [congruence|]. split; [done|].
      rewrite (none_created tr1 Hnone). simpl. split; [lia|done].
  - injection Hrun as <- <- <-.
    split; [done|]. split; [done|].
    rewrite (none_created tr1 Hnone). simpl. split; [lia|done].
Qed.

Lemma linked_identity (name : string) (sa : ServiceAccount) :
  sa_Namespace (linked name sa) = sa_Namespace sa
  ∧ sa_Name (linked name sa) = sa_Name sa
  ∧ sa_ResourceVersion (linked name sa)
    = next_version (sa_ResourceVersion sa)
  ∧ Secrets (linked name sa) = Secrets (with_reference name sa)
  ∧ ImagePullSecrets (linked name sa)
    = ImagePullSecrets (with_reference name sa).
Proof.
  unfold linked, set_ResourceVersion, sa_Namespace, sa_Name,
    sa_ResourceVersion. simpl. by rewrite (with_reference_meta name sa).
Qed.

(** Linking from an up-to-date snapshot is accepted by the store,
    unless the store fails the fetch or the write; it never ends in a
    Conflict. *)
Lemma link_up_to_date (s : state Cluster) (p : loc) (name : string)
    (sa : ServiceAccount) :
  heap s !! p = Some sa →
  stored (world s) sa = Some sa →
  ∃ err s' tr,
    createDockerPullSecretReference p name s = (err, s', tr)
    ∧ Forall (λ ev, bundle_created ev = false) tr
    ∧ IsConflict err = false
    ∧ match err with
      | Some _ => world s' = world s
      | None =>
        if needs_reference name sa
        then serviceAccounts (world s')
             = <[(sa_Namespace sa, sa_Name sa) := linked name sa]>
                 (serviceAccounts (world s))
        else world s' = world s
      end.
Proof.
  intros Hp Hstored.
  rewrite (createDockerPullSecretReference_run s _ _ sa Hp). simpl.
  unfold failing at 1.
  destruct (fault (GetServiceAccount _ _) _) as [err|] eqn:Hget.
  { eexists _, _, _. split; [reflexivity|].
    split; [by repeat constructor|]. split; [by eapply faults_are_not_conflicts|done]. }
  unfold get_sa. unfold stored in Hstored. rewrite Hstored.
  unfold same_generated. rewrite bool_decide_eq_true_2 by done. simpl.
  destruct (needs_reference name sa).
  - unfold failing.
    destruct (fault (UpdateServiceAccount _ _) _) as [err|] eqn:Hupd.
    { eexists _, _, _. split; [reflexivity|].
      split; [by repeat constructor|].
      split; [by eapply faults_are_not_conflicts|done]. }
    eexists _, _, _.
    unfold update_sa, sa_Namespace, sa_Name, sa_ResourceVersion.
    rewrite (with_reference_meta name sa).
    unfold sa_Namespace, sa_Name in Hstored. rewrite Hstored.
    rewrite String.eqb_refl.
    split; [reflexivity|]. split; [by repeat constructor|].
    split; [done|].
    simpl. unfold linked, sa_ResourceVersion.
    by rewrite ?(with_reference_meta name sa).
  - eexists _, _, _. split; [reflexivity|].
    split; [by repeat constructor|done].
Qed.

(** Once a prefixed name is linked, both generated sets have it. *)
Lemma linked_both_found (name : string) (sa : ServiceAccount) :
  String.prefix (dockercfgPrefix sa) name = true →
  both_found (linked name sa) = true
  ∧ name ∈ (getGeneratedDockercfgSecretNames (linked name sa)).1
  ∧ name ∈ (getGeneratedDockercfgSecretNames (linked name sa)).2.
Proof.
  intros Hpre.
  destruct (linked_identity name sa) as (Hns & Hnm & _ & HS & HP).
  destruct (with_reference_lists (Platform0 := idempotence_platform)
              name sa Hpre) as [HS' HP'].
  assert (Hpre' : String.prefix
            (GetDockercfgSecretNamePrefix (linked name sa)) name = true).
  { simpl. by rewrite (prefix_of_identity (linked name sa) sa). }
  assert (Hm : name ∈ (getGeneratedDockercfgSecretNames (linked name sa)).1).
  { apply elem_of_generated_mountable. split; [exact Hpre'|].
    rewrite HS, HS'. clear HS' HP'.
    destruct (bool_decide _) eqn:Hin; [by apply bool_decide_eq_true in Hin|].
    rewrite fmap_app. set_solver. }
  assert (Hi : name ∈ (getGeneratedDockercfgSecretNames (linked name sa)).2).
  { apply elem_of_generated_pull. split; [exact Hpre'|].
    rewrite HP, HP'. clear HS' HP'.
    destruct (bool_decide _) eqn:Hin; [by apply bool_decide_eq_true in Hin|].
    rewrite fmap_app. set_solver. }
  split; [|done]. unfold both_found.
  destruct (getGeneratedDockercfgSecretNames (linked name sa)) as [m i].
  simpl in Hm, Hi.
  rewrite !found_true; [done|set_solver|set_solver].
Qed.

Lemma both_found_run (s : state Cluster) (p : loc) (sa : ServiceAccount) :
  heap s !! p = Some sa →
  both_found sa = true →
  createDockercfgSecretIfNeeded p s = (None, s, []).
Proof.
  intros Hp Hboth. rewrite (createDockercfgSecretIfNeeded_run s _ sa Hp).
  unfold both_found in Hboth.
  destruct (getGeneratedDockercfgSecretNames sa) as [m i].
  cbv zeta. by rewrite Hboth.
Qed.

(** One call from an up-to-date snapshot persists at most one
    dockercfg secret, and either leaves the principal alone, returning
    [nil] only when there was nothing to do, or links one prefixed name
    that was missing and returns [nil]. *)
Lemma single_call (s s' : state Cluster) (p : loc) (sa : ServiceAccount)
    (r : option error) (tr : list Event) :
  heap s !! p = Some sa →
  stored (world s) sa = Some sa →
  createDockercfgSecretIfNeeded p s = (r, s', tr) →
  (length (filter (λ ev, bundle_created ev = true) tr) ≤ 1)%nat
  ∧ ((serviceAccounts (world s') = serviceAccounts (world s)
      ∧ (r = None →
         both_found sa = true
         ∧ Forall (λ ev, bundle_created ev = false) tr))
     ∨ (∃ name,
          r = None
          ∧ String.prefix (dockercfgPrefix sa) name = true
          ∧ both_found sa = false
          ∧ serviceAccounts (world s')
            = <[(sa_Namespace sa, sa_Name sa) := linked name sa]>
                (serviceAccounts (world s)))).
Proof.
  intros Hp Hstored.
  destruct (both_found sa) eqn:Hboth.
  { rewrite (both_found_run s p sa Hp Hboth). intros [= <- <- <-].
    simpl. split; [lia|]. left. by repeat split. }
  rewrite (createDockercfgSecretIfNeeded_run s _ sa Hp).
  pose proof Hboth as Hboth0. unfold both_found in Hboth.
  destruct (getGeneratedDockercfgSecretNames sa) as [m i] eqn:Hgen.
  cbv zeta. rewrite Hboth.
  destruct (_ || _) eqn:Hone.
  - (* generated names in exactly one list *)
    set (name := if bool_decide (0 < sets.Len i)%nat
                 then sets.List i !!! 0%nat else sets.List m !!! 0%nat).
    assert (Hname : name ∈ m ∪ i ∧ needs_reference name sa = true).
    { unfold name, needs_reference. rewrite Hgen.
      destruct (decide (i = ∅)) as [->|Hi].
      - rewrite (found_false ∅ eq_refl) in Hone |- *. simpl in Hone.
        apply bool_decide_eq_true in Hone.
        assert (Hm : m ≠ ∅).
        { intros ->. unfold sets.Len in Hone. rewrite size_empty in Hone. lia. }
        destruct (first_of_List m Hm) as [Hin _]. split; [set_solver|].
        apply orb_true_iff. right. apply negb_true_iff.
        apply setsFacts.Has_false. set_solver.
      - rewrite (found_true i Hi) in Hboth |- *. simpl in Hboth.
        apply bool_decide_eq_false in Hboth.
        assert (Hm : m = ∅).
        { apply setsFacts.Len_0. lia. }
        subst m. destruct (first_of_List i Hi) as [Hin _].
        split; [set_solver|]. apply orb_true_iff. left.
        apply negb_true_iff. apply setsFacts.Has_false. set_solver. }
    destruct Hname as [Hin Hneeds].
    assert (Hpre : String.prefix (dockercfgPrefix sa) name = true).
    { apply elem_of_union in Hin as [Hin|Hin].
      - pose proof (elem_of_generated_mountable sa name) as H.
        rewrite Hgen in H. by apply H in Hin as [? _].
      - pose proof (elem_of_generated_pull sa name) as H.
        rewrite Hgen in H. by apply H in Hin as [? _]. }
    destruct (link_up_to_date s p name sa Hp Hstored)
      as (err & s1 & tr1 & Hlink & Hnone & Hconflict & Hsas).
    rewrite Hneeds in Hsas. fold name. rewrite Hlink, Hconflict.
    intros [= <- <- <-].
    split; [by rewrite (none_created _ Hnone); simpl; lia|].
    destruct err as [e|].
    + left. by rewrite Hsas.
    + right. exists name. repeat split; try done.
  - (* no generated names: build and link *)
    apply orb_false_iff in Hone as [Hi Hm].
    simpl. unfold failing at 1.
    destruct (fault (GetServiceAccount _ _) _) as [err|];
      [intros [= <- <- <-]; split; [simpl; lia|]; by left|].
    unfold get_sa. unfold stored in Hstored. rewrite Hstored.
    rewrite String.eqb_refl. simpl.
    set (s1 := mkState (heap s ++ [sa]) (dockerURL s) (world s)).
    assert (Hp1 : heap s1 !! p = Some sa) by by apply lookup_app_l_Some.
    destruct (createDockerPullSecret p s1) as [[r2 s2] tr2] eqn:Hbuild.
    apply (createDockerPullSecret_on_cluster _ _ _ _ _ _ Hp1) in Hbuild
      as (Hsas2 & Hheap2 & Hcount & Hr2).
    destruct r2 as [bundle|err].
    + assert (Hp2 : heap s2 !! p = Some sa) by by rewrite Hheap2.
      assert (Hstored2 : stored (world s2) sa = Some sa)
        by (unfold stored; by rewrite Hsas2).
      destruct (link_up_to_date s2 p (secret_Name bundle) sa Hp2 Hstored2)
        as (err & s3 & tr3 & Hlink & Hnone & Hconflict & Hsas3).
      assert (Hneeds : needs_reference (secret_Name bundle) sa = true).
      { unfold needs_reference. rewrite Hgen.
        apply bool_decide_eq_false in Hi, Hm.
        assert (m = ∅) as -> by (apply setsFacts.Len_0; lia).
        apply orb_true_iff. left. apply negb_true_iff.
        apply setsFacts.Has_false. set_solver. }
      rewrite Hneeds in Hsas3. rewrite Hlink, Hconflict.
      intros [= <- <- <-]. split.
      * rewrite filter_cons_False by done.
        rewrite filter_app, length_app, (none_created _ Hnone).
        simpl. lia.
      * destruct err as [e|].
        -- left. by rewrite Hsas3, Hsas2.
        -- right. exists (secret_Name bundle). repeat split; try done.
           by rewrite Hsas3, Hsas2.
    + intros [= <- <- <-]. split; [by rewrite filter_cons_False by done|].
      by left.
Qed.

(** After an accepted link, a call on the old snapshot or on the
    principal as now stored makes no write, and returns [nil] unless
    the store fails its fetch of the principal. *)
Lemma after_link_noop (s : state Cluster) (q : loc) (name : string)
    (sa snap : ServiceAccount) :
  heap s !! q = Some snap →
  stored (world s) sa = Some (linked name sa) →
  String.prefix (dockercfgPrefix sa) name = true →
  both_found sa = false →
  snap = sa ∨ snap = linked name sa →
  ∃ r s' tr,
    createDockercfgSecretIfNeeded q s = (r, s', tr)
    ∧ world s' = world s
    ∧ Forall (λ ev, is_write ev = false) tr
    ∧ (fault (GetServiceAccount (sa_Namespace snap) (sa_Name snap)) (world s)
         = None →
       r = None).
Proof.
  intros Hq Hstored Hpre Hboth [->| ->].
  - destruct (linked_both_found name sa Hpre) as (Hboth' & Hm' & Hi').
    rewrite (createDockercfgSecretIfNeeded_run s _ sa Hq).
    unfold both_found in Hboth.
    destruct (getGeneratedDockercfgSecretNames sa) as [m i] eqn:Hgen.
    cbv zeta. rewrite Hboth.
    assert (Hdiff : same_generated sa (linked name sa) = false).
    { unfold same_generated. apply bool_decide_eq_false. intros Heq.
      rewrite Hgen in Heq. rewrite <-Heq in Hm', Hi'. simpl in Hm', Hi'.
      rewrite !found_true in Hboth; [done|set_solver|set_solver]. }
    destruct (_ || _).
    + rewrite (createDockerPullSecretReference_run s _ _ sa Hq). simpl.
      unfold failing.
      destruct (fault (GetServiceAccount _ _) _) as [err|] eqn:Hget.
      { rewrite (faults_are_not_conflicts _ _ _ Hget).
        eexists _, _, _. split; [reflexivity|]. split; [done|].
        split; [by repeat constructor|done]. }
      unfold get_sa. unfold stored in Hstored. rewrite Hstored, Hdiff. simpl.
      unfold stale_conflict.
      destruct (getGeneratedDockercfgSecretNames (linked name sa)).
      rewrite Hgen. simpl.
      eexists _, _, _. split; [reflexivity|]. split; [done|].
      split; [by repeat constructor|done].
    + simpl. unfold failing.
      destruct (fault (GetServiceAccount _ _) _) as [err|] eqn:Hget.
      { eexists _, _, _. split; [reflexivity|]. split; [done|].
        split; [by repeat constructor|done]. }
      unfold get_sa. unfold stored in Hstored. rewrite Hstored.
      destruct (linked_identity name sa) as (_ & _ & Hrv & _).
      rewrite Hrv.
      rewrite (proj2 (String.eqb_neq _ _) (next_version_ne _)). simpl.
      eexists _, _, _. split; [reflexivity|]. split; [done|].
      split; [by repeat constructor|done].
  - destruct (linked_both_found name sa Hpre) as (Hboth' & _).
    rewrite (both_found_run s q _ Hq Hboth'). by eexists _, _, _.
Qed.

(** What one accepted link, or none, does to the two lists. *)
Lemma linked_lists (name : string) (sa : ServiceAccount) :
  String.prefix (dockercfgPrefix sa) name = true →
  (Secrets (linked name sa) = Secrets sa
   ∨ (name ∉ (ObjectReference_Name <$> Secrets sa))
     ∧ Secrets (linked name sa) = Secrets sa ++ [mkObjectReference name])
  ∧ (ImagePullSecrets (linked name sa) = ImagePullSecrets sa
     ∨ (name ∉ (LocalObjectReference_Name <$> ImagePullSecrets sa))
       ∧ ImagePullSecrets (linked name sa)
         = ImagePullSecrets sa ++ [mkLocalObjectReference name]).
Proof.
  intros Hpre.
  destruct (linked_identity name sa) as (_ & _ & _ & -> & ->).
  destruct (with_reference_lists (Platform0 := idempotence_platform)
              name sa Hpre) as [-> ->].
  split; (destruct (bool_decide _) eqn:Hin;
          [by left | right; by apply bool_decide_eq_false in Hin]).
Qed.

(** C1.  Against a store on which nobody else writes the principal,
    and whose calls may fail for reasons other than a stale version,
    two calls of [createDockercfgSecretIfNeeded] in a row, the first on
    a snapshot equal to the stored principal and the second on that
    same snapshot or on the principal as stored by then: unless the
    first call persisted a dockercfg secret and then returned an error,
    at most one dockercfg secret is persisted over both calls; each of
    the stored [Secrets] and [ImagePullSecrets] ends as it began or
    with one name appended that it did not contain; and when the first
    call returned [nil] the second makes no write, leaves the store as
    the first call left it, and returns [nil] unless the store fails
    its fetch of the principal. *)
Theorem reconciling_twice_is_idempotent
    (s0 s1 s2 : state Cluster) (p q : loc) (sa snap : ServiceAccount)
    (r1 r2 : option error) (tr1 tr2 : list Event) :
  heap s0 !! p = Some sa →
  stored (world s0) sa = Some sa →
  createDockercfgSecretIfNeeded (Interface0 := Faulty_Interface fault)
    p s0 = (r1, s1, tr1) →
  heap s1 !! q = Some snap →
  snap = sa ∨ stored (world s1) sa = Some snap →
  createDockercfgSecretIfNeeded (Interface0 := Faulty_Interface fault)
    q s1 = (r2, s2, tr2) →
  (r1 = None ∨ Forall (λ ev, bundle_created ev = false) tr1 →
   (length (filter (λ ev, bundle_created ev = true) (tr1 ++ tr2)) ≤ 1)%nat)
  ∧ (∃ final,
       stored (world s2) sa = Some final
       ∧ (Secrets final = Secrets sa
          ∨ ∃ name,
              (name ∉ (ObjectReference_Name <$> Secrets sa))
              ∧ Secrets final = Secrets sa ++ [mkObjectReference name])
       ∧ (ImagePullSecrets final = ImagePullSecrets sa
          ∨ ∃ name,
              (name ∉ (LocalObjectReference_Name <$> ImagePullSecrets sa))
              ∧ ImagePullSecrets final
                = ImagePullSecrets sa ++ [mkLocalObjectReference name]))
  ∧ (r1 = None →
     world s2 = world s1
     ∧ Forall (λ ev, is_write ev = false) tr2
     ∧ (fault (GetServiceAccount (sa_Namespace snap) (sa_Name snap))
          (world s1) = None →
        r2 = None)).
Proof.
  intros Hp Hstored Hrun1 Hq Hsnap Hrun2.
  change (Faulty_Interface fault) with idempotence_store in Hrun1, Hrun2.
  rewrite filter_app, length_app.
  destruct (single_call _ _ _ _ _ _ Hp Hstored Hrun1)
    as [Hcount1 [(Hsas1 & Hnil1)|(name & -> & Hpre & Hboth & Hsas1)]].
  - (* the first call left the principal alone *)
    assert (Hstored1 : stored (world s1) sa = Some sa)
      by (unfold stored; by rewrite Hsas1).
    assert (snap = sa) as ->.
    { destruct Hsnap as [->|Hsnap]; [done|]. congruence. }
    destruct (single_call _ _ _ _ _ _ Hq Hstored1 Hrun2)
      as [Hcount2 [(Hsas2 & Hnil2)|(name & -> & Hpre & Hboth & Hsas2)]].
    + split.
      { intros [Hr1|Hnone1].
        - destruct (Hnil1 Hr1) as [_ Hnone1].
          rewrite (none_created _ Hnone1). simpl. lia.
        - rewrite (none_created _ Hnone1). simpl. lia. }
      split.
      * exists sa. split; [unfold stored; by rewrite Hsas2|]. by split; left.
      * intros Hr1. destruct (Hnil1 Hr1) as [Hboth1 _].
        rewrite (both_found_run s1 q sa Hq Hboth1) in Hrun2.
        injection Hrun2 as <- <- <-. by repeat split.
    + split.
      { intros [Hr1|Hnone1].
        - destruct (Hnil1 Hr1) as [? _]. congruence.
        - rewrite (none_created _ Hnone1). simpl. lia. }
      split.
      * exists (linked name sa). split.
        { unfold stored. rewrite Hsas2. by rewrite lookup_insert_eq. }
        destruct (linked_lists name sa Hpre) as [[HS|[HS1 HS2]] [HP|[HP1 HP2]]];
          split; eauto.
      * intros Hr1. destruct (Hnil1 Hr1) as [? _]. congruence.
  - (* the first call linked [name] *)
    assert (Hstored1 : stored (world s1) sa = Some (linked name sa)).
    { unfold stored. rewrite Hsas1. by rewrite lookup_insert_eq. }
    assert (Hsnap' : snap = sa ∨ snap = linked name sa).
    { destruct Hsnap as [->|Hsnap]; [by left|]. right. congruence. }
    destruct (after_link_noop s1 q name sa snap Hq Hstored1 Hpre Hboth Hsnap')
      as (r2' & s2' & tr2' & Hrun2' & Hworld & Hreads & Hnil).
    rewrite Hrun2 in Hrun2'. injection Hrun2' as <- <- <-.
    rewrite (none_created _ (not_write_not_created _ Hreads)). simpl.
    split; [intros _; lia|]. split.
    + exists (linked name sa). split; [by rewrite Hworld|].
      destruct (linked_lists name sa Hpre) as [[HS|[HS1 HS2]] [HP|[HP1 HP2]]];
        split; eauto.
    + by intros _.
Qed.

End Idempotence.

(** The store without faults is the plain store. *)
Section PlainStore.
Import apiserver.
Variable others : Cluster → Cluster.
Variables dockercfgPrefix tokenPrefix : ServiceAccount → string.
Variable marshal : DockerConfig → result (list Byte.byte).

Hypothesis others_keep_serviceAccounts :
  ∀ c, serviceAccounts (others c) = serviceAccounts c.
Hypothesis prefix_of_identity :
  ∀ a b, sa_Namespace a = sa_Namespace b → sa_Name a = sa_Name b →
         dockercfgPrefix a = dockercfgPrefix b.

#[local] Instance plain_platform : Platform Cluster :=
  Cluster_Platform others dockercfgPrefix tokenPrefix marshal.

Lemma no_fault_is_plain : Faulty_Interface no_fault = Cluster_Interface.
Proof. reflexivity. Qed.

Lemma no_fault_not_conflict (k : call) (c : Cluster) (err : error) :
  no_fault k c = Some err → IsConflict (Some err) = false.
Proof. done. Qed.

(** X21.  Against a store on which nobody else writes the principal,
    a call of [createDockercfgSecretIfNeeded] on a snapshot equal to
    the stored principal that returns [nil] leaves the principal stored
    with generated names in both of its lists, under its old namespace
    and name. *)
Theorem nil_from_a_current_snapshot_means_linked
    (s s' : state Cluster) (p : loc) (sa : ServiceAccount)
    (tr : list Event) :
  heap s !! p = Some sa →
  stored (world s) sa = Some sa →
  createDockercfgSecretIfNeeded p s = (None, s', tr) →
  ∃ final,
    stored (world s') sa = Some final
    ∧ both_found final = true
    ∧ sa_Namespace final = sa_Namespace sa
    ∧ sa_Name final = sa_Name sa.
Proof.
  intros Hp Hstored Hrun.
  destruct (single_call others dockercfgPrefix tokenPrefix marshal no_fault
              others_keep_serviceAccounts prefix_of_identity
              no_fault_not_conflict _ _ _ _ _ _ Hp Hstored Hrun)
    as [_ [(Hsas & Hnil)|(name & _ & Hpre & _ & Hsas)]].
  - exists sa. split; [unfold stored; by rewrite Hsas|].
    split; [by apply Hnil|done].
  - exists (linked name sa). split.
    { unfold stored. rewrite Hsas. by rewrite lookup_insert_eq. }
    destruct (linked_both_found others dockercfgPrefix tokenPrefix marshal
                no_fault others_keep_serviceAccounts prefix_of_identity
                no_fault_not_conflict name sa Hpre) as (Hboth & _).
    destruct (linked_identity others dockercfgPrefix tokenPrefix marshal
                name sa) as (Hns & Hnm & _).
    by repeat split.
Qed.

End PlainStore.

Section IdempotenceWitness.
Import apiserver Scenario.

Lemma reconciling_twice_is_idempotent_witness :
  (heap state0 !! 0%nat = Some default_sa
   ∧ stored (world state0) default_sa = Some default_sa
   ∧ first_run.1.1 = None)
  ∧ second_run.1.1 = None
  ∧ world second_run.1.2 = world first_run.1.2
  ∧ Forall (λ ev, is_write ev = false) second_run.2
  ∧ (length (filter (λ ev, bundle_created ev = true)
               (first_run.2 ++ second_run.2)) ≤ 1)%nat.
Proof.
  split; [split; [by_evaluation|split; by_evaluation]|].
  destruct (reconciling_twice_is_idempotent
              (token_controller token_value) prefix_dockercfg prefix_token
              marshal no_fault (λ c, eq_refl)
              (λ a b _ Hname,
                 f_equal (λ n, n +:+ "-dockercfg-") Hname)
              no_fault_not_conflict
              state0 first_run.1.2 second_run.1.2 0%nat 0%nat
              default_sa default_sa first_run.1.1 second_run.1.1
              first_run.2 second_run.2)
    as (Hcount & _ & Hnoop).
  - by_evaluation.
  - by_evaluation.
  - by_evaluation.
  - by_evaluation.
  - by left.
  - by_evaluation.
  - destruct Hnoop as (Hworld & Hreads & Hr2); [by_evaluation|].
    split; [apply Hr2; reflexivity|]. split; [exact Hworld|].
    split; [exact Hreads|]. apply Hcount. left. by_evaluation.
Defined.

(** C1 without its proviso fails: on a store that refuses the write
    of the principal, the first of two calls in a row persists a
    dockercfg secret and returns the store's error, the stored
    principal and the snapshot are as before, and the second call
    persists a dockercfg secret of its own. *)
Lemma reconciling_twice_can_persist_two_bundles :
  stored (world state0) default_sa = Some default_sa
  ∧ stored (world refused_first.1.2) default_sa = Some default_sa
  ∧ heap refused_first.1.2 !! 0%nat = Some default_sa
  ∧ refused_first.1.1 ≠ None
  ∧ ¬ Forall (λ ev, bundle_created ev = false) refused_second.2
  ∧ ¬ (length (filter (λ ev, bundle_created ev = true)
                 (refused_first.2 ++ refused_second.2)) ≤ 1)%nat.
Proof.
  assert (Hfirst : length (filter (λ ev, bundle_created ev = true)
                             refused_first.2) = 1%nat) by by_evaluation.
  assert (Hsecond : length (filter (λ ev, bundle_created ev = true)
                              refused_second.2) = 1%nat) by by_evaluation.
  split; [by_evaluation|]. split; [by_evaluation|]. split; [by_evaluation|].
  split; [by_evaluation|]. split.
  - intros Hnone. rewrite (none_created _ Hnone) in Hsecond. done.
  - rewrite filter_app, length_app, Hfirst, Hsecond. lia.
Qed.

End IdempotenceWitness.

(** * Further properties of the controller *)

(** ** Starting and stopping *)

Section LifecycleProperties.
Import lifecycle.

Lemma lifecycle_inv_fresh : lifecycle_inv fresh.
Proof.
  unfold lifecycle_inv, fresh. simpl.
  repeat split; try constructor; set_solver.
Qed.

Lemma lifecycle_inv_step (e : controller) (o : op) :
  lifecycle_inv e → lifecycle_inv (step e o).
Proof.
  intros He. pose proof He as (Hs & Hc & Hlt & Hsub & Hcur).
  destruct o; unfold step, Run, Stop;
    destruct (stopChan e) as [c|] eqn:Hchan; try exact He;
    unfold lifecycle_inv; simpl.
  - (* Run on a stopped controller *)
    assert (Hnew : made e ∉ started e).
    { intros Hin. apply Hlt in Hin. lia. }
    repeat split.
    + apply NoDup_app. repeat split; [done| |apply NoDup_singleton].
      intros x Hx Hx'. apply list_elem_of_singleton in Hx' as ->. done.
    + done.
    + intros x Hx. apply elem_of_app in Hx as [Hx|Hx].
      * apply Hlt in Hx. lia.
      * apply list_elem_of_singleton in Hx as ->. lia.
    + intros x Hx. apply elem_of_app. left. by apply Hsub.
    + apply elem_of_app. right. by apply list_elem_of_singleton.
    + intros Hin. by apply Hsub in Hin.
    + intros x Hx Hne. apply elem_of_app in Hx as [Hx|Hx]; [by apply Hcur|].
      by apply list_elem_of_singleton in Hx.
  - (* Stop on a running controller *)
    destruct Hcur as (Hin & Hnin & Hrest).
    repeat split; try done.
    + apply NoDup_app. repeat split; [done| |apply NoDup_singleton].
      intros x Hx Hx'. apply list_elem_of_singleton in Hx' as ->. done.
    + intros x Hx. apply elem_of_app in Hx as [Hx|Hx]; [by apply Hsub|].
      by apply list_elem_of_singleton in Hx as ->.
    + intros x Hx. apply elem_of_app.
      destruct (decide (x = c)) as [->|Hne].
      * right. by apply list_elem_of_singleton.
      * left. by apply Hrest.
Qed.

Lemma lifecycle_inv_reachable (ops : list op) (e : controller) :
  lifecycle_inv e → lifecycle_inv (foldl step e ops).
Proof.
  revert e. induction ops as [|o ops IH]; intros e He; simpl; [done|].
  apply IH. by apply lifecycle_inv_step.
Qed.

(** X1.  After any sequence of [Run] and [Stop] on a new controller no
    channel has been closed twice, every closed channel is the stop
    channel of an informer that was started, and the informers still
    running are exactly the one holding the current [stopChan], none
    when it is [nil]. *)
Theorem run_stop_never_close_twice (ops : list op) :
  let e := foldl step fresh ops in
  NoDup (closed e)
  ∧ (∀ c, c ∈ closed e → c ∈ started e)
  ∧ (∀ c, c ∈ running e ↔ stopChan e = Some c).
Proof.
  cbv zeta.
  destruct (lifecycle_inv_reachable ops fresh lifecycle_inv_fresh)
    as (Hs & Hc & Hlt & Hsub & Hcur).
  split; [done|]. split; [done|].
  intros c. unfold running. rewrite list_elem_of_filter.
  destruct (stopChan (foldl step fresh ops)) as [c0|].
  - destruct Hcur as (Hin & Hnin & Hrest). split.
    + intros [Hopen Hstarted].
      destruct (decide (c = c0)) as [->|Hne]; [done|].
      by apply Hrest in Hstarted.
    + by intros [= ->].
  - split; [|done]. intros [Hopen Hstarted]. by apply Hcur in Hstarted.
Qed.

(** X2.  [Run] on a running controller and [Stop] on a stopped one do
    nothing, so a second [Run] starts no second informer and a second
    [Stop] closes nothing; and [Stop] after [Run] always leaves
    [stopChan] [nil] with the channel of that run closed. *)
Theorem run_and_stop_are_idempotent (e : controller) :
  Run (Run e) = Run e
  ∧ Stop (Stop e) = Stop e
  ∧ stopChan (Stop (Run e)) = None
  ∧ ∃ c, stopChan (Run e) = Some c ∧ c ∈ closed (Stop (Run e)).
Proof.
  unfold Run, Stop. destruct (stopChan e) as [c|] eqn:Hc; simpl.
  - rewrite Hc. simpl. repeat split. exists c. split; [done|].
    apply elem_of_app. right. by apply list_elem_of_singleton.
  - rewrite Hc. repeat split. exists (made e). split; [done|].
    apply elem_of_app. right. by apply list_elem_of_singleton.
Qed.

End LifecycleProperties.

(** ** The classifier *)

Section ClassifierProperties.
Context {W : Type} `{!Platform W}.

(** X3.  A name is in the first set of
    [getGeneratedDockercfgSecretNames] exactly when it carries the
    dockercfg prefix of the service account and some entry of [Secrets]
    has it, and in the second set exactly when it carries the prefix
    and some entry of [ImagePullSecrets] has it. *)
Theorem generated_names_are_the_prefixed_references
    (serviceAccount : ServiceAccount) (x : string) :
  (x ∈ (getGeneratedDockercfgSecretNames serviceAccount).1 ↔
   String.prefix (GetDockercfgSecretNamePrefix serviceAccount) x = true
   ∧ x ∈ ObjectReference_Name <$> Secrets serviceAccount)
  ∧ (x ∈ (getGeneratedDockercfgSecretNames serviceAccount).2 ↔
     String.prefix (GetDockercfgSecretNamePrefix serviceAccount) x = true
     ∧ x ∈ LocalObjectReference_Name <$> ImagePullSecrets serviceAccount).
Proof.
  split; [apply elem_of_generated_mountable | apply elem_of_generated_pull].
Qed.

(** X4.  The classification looks at which names occur, not at their
    order or number: two service accounts with the same prefix whose
    lists hold the same names are classified alike. *)
Theorem classification_ignores_order_and_repetition (a b : ServiceAccount) :
  GetDockercfgSecretNamePrefix a = GetDockercfgSecretNamePrefix b →
  (∀ x, x ∈ ObjectReference_Name <$> Secrets a
        ↔ x ∈ ObjectReference_Name <$> Secrets b) →
  (∀ x, x ∈ LocalObjectReference_Name <$> ImagePullSecrets a
        ↔ x ∈ LocalObjectReference_Name <$> ImagePullSecrets b) →
  getGeneratedDockercfgSecretNames a = getGeneratedDockercfgSecretNames b.
Proof.
  intros Hpre HS HP.
  pose proof (elem_of_generated_mountable a) as Ha1.
  pose proof (elem_of_generated_mountable b) as Hb1.
  pose proof (elem_of_generated_pull a) as Ha2.
  pose proof (elem_of_generated_pull b) as Hb2.
  destruct (getGeneratedDockercfgSecretNames a) as [m i].
  destruct (getGeneratedDockercfgSecretNames b) as [m' i'].
  simpl in *. f_equal; apply set_eq; intros x.
  - rewrite Ha1, Hb1, Hpre, HS. done.
  - rewrite Ha2, Hb2, Hpre, HP. done.
Qed.

Lemma elem_of_foldl_Insert {A} (f : A → string) (l : list A)
    (acc : gset string) (x : string) :
  x ∈ foldl (λ acc s, sets.Insert (f s) acc) acc l ↔ x ∈ acc ∨ x ∈ f <$> l.
Proof.
  revert acc. induction l as [|a l IH]; intros acc; simpl.
  - rewrite elem_of_nil. naive_solver.
  - rewrite IH, elem_of_cons. unfold sets.Insert.
    rewrite elem_of_union, elem_of_singleton. naive_solver.
Qed.

(** X5.  [getSecretReferences] is the set of the names in [Secrets],
    and every generated mountable name is one of them. *)
Theorem secret_references_hold_the_generated_names
    (serviceAccount : ServiceAccount) :
  (∀ x, x ∈ getSecretReferences serviceAccount
        ↔ x ∈ ObjectReference_Name <$> Secrets serviceAccount)
  ∧ (getGeneratedDockercfgSecretNames serviceAccount).1
    ⊆ getSecretReferences serviceAccount.
Proof.
  assert (Hrefs : ∀ x, x ∈ getSecretReferences serviceAccount
                       ↔ x ∈ ObjectReference_Name <$> Secrets serviceAccount).
  { intros x. unfold getSecretReferences.
    rewrite (elem_of_foldl_Insert ObjectReference_Name). set_solver. }
  split; [done|]. intros x Hx. apply Hrefs.
  by apply elem_of_generated_mountable in Hx as [_ ?].
Qed.

End ClassifierProperties.

Section ClassifierWitnesses.
Import apiserver Scenario.

Lemma classification_ignores_order_and_repetition_witness :
  getGeneratedDockercfgSecretNames (Platform0 := platform idle) shuffled_a
  = getGeneratedDockercfgSecretNames (Platform0 := platform idle) shuffled_b.
Proof.
  apply (classification_ignores_order_and_repetition
           (Platform0 := platform idle) shuffled_a shuffled_b).
  - by_evaluation.
  - intros x. unfold shuffled_a, shuffled_b. simpl. set_solver.
  - intros x. unfold shuffled_a, shuffled_b. simpl. set_solver.
Defined.

End ClassifierWitnesses.

(** ** The token materialiser *)

Section MaterialiserProperties.
Context {W : Type} `{!Interface W} `{!Platform W}.

Lemma is_poll_not_delete (tr : list Event) :
  Forall (λ ev, is_poll ev = true) tr →
  Forall (λ ev, is_secret_delete ev = false) tr.
Proof. intros H. eapply Forall_impl; [exact H|]. by intros []. Qed.

(** A poll that returns a secret returns the one its last fetch found,
    with the payload present. *)
Lemma waitForToken_found (tokenSecret live : Secret) (n : nat)
    (s s' : state W) (tr : list Event) :
  waitForToken tokenSecret n s = (Some (Ok live), s', tr) →
  (0 < length (default [] (Data live !! ServiceAccountTokenKey)))%nat
  ∧ last tr = Some (EvSecretsGet (secret_Namespace tokenSecret)
                      (secret_Name tokenSecret) (Ok live)).
Proof.
  revert s s' tr. induction n as [|n IH]; intros s s' tr.
  - by rewrite waitForToken_0.
  - rewrite waitForToken_S.
    destruct (Secrets_Get _ _ _) as [[live0|err] w]; [|done].
    destruct (bool_decide _) eqn:Hfilled.
    + intros [= <- <- <-]. by apply bool_decide_eq_true in Hfilled.
    + destruct (wait_Jitter _ _ _) as [d w1].
      destruct (waitForToken _ _ _) as [[res1 s1] tr1] eqn:Hrec.
      intros [= -> <- <-]. apply IH in Hrec as [Hlen Hlast].
      split; [done|]. destruct tr1 as [|ev tr1]; [done|].
      by rewrite !last_cons_cons.
Qed.

(** A failed fetch is the last call of the poll, which ends with its
    error. *)
Lemma waitForToken_fetch_error (tokenSecret : Secret) (n : nat)
    (s s' : state W) (res : option (result Secret)) (tr : list Event)
    (ns nm : string) (e : error) :
  waitForToken tokenSecret n s = (res, s', tr) →
  EvSecretsGet ns nm (Err e) ∈ tr →
  res = Some (Err e) ∧ last tr = Some (EvSecretsGet ns nm (Err e)).
Proof.
  revert s s' res tr. induction n as [|n IH]; intros s s' res tr.
  - rewrite waitForToken_0. intros [= <- <- <-] Hin.
    by apply elem_of_nil in Hin.
  - rewrite waitForToken_S.
    destruct (Secrets_Get _ _ _) as [[live0|err] w].
    + destruct (bool_decide _).
      * intros [= <- <- <-] Hin.
        apply list_elem_of_singleton in Hin. done.
      * destruct (wait_Jitter _ _ _) as [d w1].
        destruct (waitForToken _ _ _) as [[res1 s1] tr1] eqn:Hrec.
        intros [= <- <- <-] Hin.
        apply elem_of_cons in Hin as [?|Hin]; [done|].
        apply elem_of_cons in Hin as [?|Hin]; [done|].
        destruct (IH _ _ _ _ Hrec Hin) as [-> Hlast].
        split; [done|]. destruct tr1 as [|ev tr1]; [done|].
        by rewrite !last_cons_cons.
    + intros [= <- <- <-] Hin.
      apply list_elem_of_singleton in Hin. by simplify_eq.
Qed.

(** The poll makes at most [n] fetches, each followed by at most one
    sleep. *)
Lemma waitForToken_bounded (tokenSecret : Secret) (n : nat)
    (s s' : state W) (res : option (result Secret)) (tr : list Event) :
  waitForToken tokenSecret n s = (res, s', tr) →
  (length (filter (λ ev, is_secret_get ev = true) tr) ≤ n)%nat
  ∧ (length tr ≤ 2 * n)%nat.
Proof.
  revert s s' res tr. induction n as [|n IH]; intros s s' res tr.
  - rewrite waitForToken_0. by intros [= <- <- <-].
  - rewrite waitForToken_S.
    destruct (Secrets_Get _ _ _) as [[live0|err] w].
    + destruct (bool_decide _).
      * intros [= <- <- <-]. rewrite filter_cons_True by done. simpl. lia.
      * destruct (wait_Jitter _ _ _) as [d w1].
        destruct (waitForToken _ _ _) as [[res1 s1] tr1] eqn:Hrec.
        intros [= <- <- <-]. apply IH in Hrec as [Hg Hl].
        rewrite filter_cons_True by done.
        rewrite filter_cons_False by done. simpl. lia.
    + intros [= <- <- <-]. rewrite filter_cons_True by done. simpl. lia.
Qed.

(** X6.  The first call of [createTokenSecret] asks the store to create
    a secret of type service-account-token in the service account's
    namespace, under the generated name, with no data and with the
    service account's name and UID as annotations; when that create
    fails its error is returned and nothing else is asked of the
    store. *)
Theorem createTokenSecret_creates_annotated_empty_token
    (s : state W) (serviceAccount : loc) (sa : ServiceAccount) :
  heap s !! serviceAccount = Some sa →
  ∃ name w1 tokenSecret r tr',
    GenerateName (GetTokenSecretNamePrefix sa) (world s) = (name, w1)
    ∧ (createTokenSecret serviceAccount s).2
      = EvSecretsCreate (sa_Namespace sa) tokenSecret r :: tr'
    ∧ secret_Name tokenSecret = name
    ∧ secret_Namespace tokenSecret = sa_Namespace sa
    ∧ Type_ tokenSecret = SecretTypeServiceAccountToken
    ∧ Data tokenSecret = ∅
    ∧ Annotations (Secret_ObjectMeta tokenSecret) !! ServiceAccountNameKey
      = Some (sa_Name sa)
    ∧ Annotations (Secret_ObjectMeta tokenSecret) !! ServiceAccountUIDKey
      = Some (sa_UID sa)
    ∧ ∀ err, r = Err err →
        (createTokenSecret serviceAccount s).1.1 = Err err ∧ tr' = [].
Proof.
  intros Hp. rewrite (createTokenSecret_run s _ sa Hp).
  destruct (GenerateName _ _) as [name w1]. cbv zeta.
  destruct (Secrets_Create _ _ _) as [[created|err] w2].
  - destruct (waitForToken _ _ _) as [[[res|] s3] polls].
    + eexists name, w1, _, _, _. simpl. by repeat split.
    + destruct (Secrets_Delete _ _ _) as [derr w4].
      eexists name, w1, _, _, _. simpl. by repeat split.
  - eexists name, w1, _, _, _. simpl. repeat split; try done.
    all: by intros err' [= ->].
Qed.

(** X7.  A secret returned by [createTokenSecret] is the one its last
    fetch found, its token payload is not empty, and the run deleted
    nothing. *)
Theorem createTokenSecret_returns_a_filled_token
    (s s' : state W) (serviceAccount : loc) (sa : ServiceAccount)
    (liveTokenSecret : Secret) (tr : list Event) :
  heap s !! serviceAccount = Some sa →
  createTokenSecret serviceAccount s = (Ok liveTokenSecret, s', tr) →
  (0 < length (default [] (Data liveTokenSecret
                             !! ServiceAccountTokenKey)))%nat
  ∧ (∃ ns nm, last tr = Some (EvSecretsGet ns nm (Ok liveTokenSecret)))
  ∧ Forall (λ ev, is_secret_delete ev = false) tr.
Proof.
  intros Hp. rewrite (createTokenSecret_run s _ sa Hp).
  destruct (GenerateName _ _) as [name w1]. cbv zeta.
  destruct (Secrets_Create _ _ _) as [[created|err] w2]; [|done].
  destruct (waitForToken _ _ _) as [[[res|] s3] polls] eqn:Hpoll.
  - intros [= -> <- <-].
    pose proof (waitForToken_frame _ _ _ _ _ _ Hpoll) as (_ & _ & Hshape).
    apply waitForToken_found in Hpoll as [Hlen Hlast].
    split; [done|]. split.
    + eexists _, _. destruct polls as [|ev polls]; [done|].
      rewrite last_cons_cons. exact Hlast.
    + constructor; [done|]. by apply is_poll_not_delete.
  - by destruct (Secrets_Delete _ _ _) as [derr w4].
Qed.

(** X8.  When a fetch of the poll fails, [createTokenSecret] returns
    that error at once and does not delete the token secret it
    created. *)
Theorem createTokenSecret_fetch_error_leaves_the_token
    (s s' : state W) (serviceAccount : loc) (sa : ServiceAccount)
    (r : result Secret) (tr : list Event) (ns nm : string) (err2 : error) :
  heap s !! serviceAccount = Some sa →
  createTokenSecret serviceAccount s = (r, s', tr) →
  EvSecretsGet ns nm (Err err2) ∈ tr →
  r = Err err2
  ∧ last tr = Some (EvSecretsGet ns nm (Err err2))
  ∧ Forall (λ ev, is_secret_delete ev = false) tr.
Proof.
  intros Hp. rewrite (createTokenSecret_run s _ sa Hp).
  destruct (GenerateName _ _) as [name w1]. cbv zeta.
  destruct (Secrets_Create _ _ _) as [[created|err] w2].
  - destruct (waitForToken _ _ _) as [[found s3] polls] eqn:Hpoll.
    pose proof (waitForToken_frame _ _ _ _ _ _ Hpoll) as (_ & _ & Hshape).
    assert (Hget : EvSecretsGet ns nm (Err err2) ∈ polls →
                   found = Some (Err err2)
                   ∧ last polls = Some (EvSecretsGet ns nm (Err err2)))
      by apply (waitForToken_fetch_error _ _ _ _ _ _ _ _ _ Hpoll).
    destruct found as [res|].
    + intros [= <- <- <-] Hin.
      apply elem_of_cons in Hin as [?|Hin]; [done|].
      destruct (Hget Hin) as [[= ->] Hlast].
      split; [done|]. split.
      * destruct polls as [|ev polls]; [done|]. by rewrite last_cons_cons.
      * constructor; [done|]. by apply is_poll_not_delete.
    + destruct (Secrets_Delete _ _ _) as [derr w4].
      intros [= <- <- <-] Hin.
      apply elem_of_cons in Hin as [?|Hin]; [done|].
      apply elem_of_app in Hin as [Hin|Hin]; [by destruct (Hget Hin)|].
      apply elem_of_cons in Hin as [?|Hin]; [done|].
      unfold reported_after_delete in Hin. destruct derr as [e|].
      * destruct (IsNotFound (Some e)); [by apply elem_of_nil in Hin|].
        by apply list_elem_of_singleton in Hin.
      * by apply elem_of_nil in Hin.
  - intros [= <- <- <-] Hin. by apply list_elem_of_singleton in Hin.
Qed.

(** A run that materialised the token deleted nothing. *)
Lemma createTokenSecret_ok_deletes_nothing
    (s s' : state W) (p : loc) (sa : ServiceAccount)
    (liveTokenSecret : Secret) (tr : list Event) :
  heap s !! p = Some sa →
  createTokenSecret p s = (Ok liveTokenSecret, s', tr) →
  Forall (λ ev, is_secret_delete ev = false) tr.
Proof.
  intros Hp. rewrite (createTokenSecret_run s _ sa Hp).
  destruct (GenerateName _ _) as [name w1]. cbv zeta.
  destruct (Secrets_Create _ _ _) as [[created|err] w2]; [|done].
  destruct (waitForToken _ _ _) as [[[res|] s3] polls] eqn:Hpoll.
  - intros [= -> <- <-].
    pose proof (waitForToken_frame _ _ _ _ _ _ Hpoll) as (_ & _ & Hshape).
    constructor; [done|]. by apply is_poll_not_delete.
  - by destruct (Secrets_Delete _ _ _) as [derr w4].
Qed.

(** X9.  [createTokenSecret] always comes back: it fetches the token
    secret at most [tokenSecretWaitTimes + 1] times and makes at most
    [2 * (tokenSecretWaitTimes + 1) + 3] calls in all. *)
Theorem createTokenSecret_is_bounded
    (s s' : state W) (serviceAccount : loc) (sa : ServiceAccount)
    (r : result Secret) (tr : list Event) :
  heap s !! serviceAccount = Some sa →
  createTokenSecret serviceAccount s = (r, s', tr) →
  (length (filter (λ ev, is_secret_get ev = true) tr)
   ≤ S tokenSecretWaitTimes)%nat
  ∧ (length tr ≤ 2 * S tokenSecretWaitTimes + 3)%nat.
Proof.
  intros Hp. rewrite (createTokenSecret_run s _ sa Hp).
  destruct (GenerateName _ _) as [name w1]. cbv zeta.
  generalize (S tokenSecretWaitTimes). intros n.
  destruct (Secrets_Create _ _ _) as [[created|err] w2].
  - destruct (waitForToken _ _ _) as [[found s3] polls] eqn:Hpoll.
    apply waitForToken_bounded in Hpoll as [Hg Hl].
    destruct found as [res|].
    + intros [= <- <- <-]. rewrite filter_cons_False by done. simpl. lia.
    + destruct (Secrets_Delete _ _ _) as [derr w4].
      intros [= <- <- <-]. rewrite filter_cons_False by done.
      rewrite filter_app, filter_cons_False by done.
      assert (Hrep : filter (λ ev, is_secret_get ev = true)
                       (reported_after_delete derr) = []
                     ∧ (length (reported_after_delete derr) ≤ 1)%nat).
      { unfold reported_after_delete.
        destruct derr as [e|]; [|split; [done|simpl; lia]].
        destruct (IsNotFound (Some e)); [split; [done|simpl; lia]|].
        rewrite filter_cons_False by done. simpl. split; [done|lia]. }
      destruct Hrep as [-> Hrep].
      rewrite app_nil_r. simpl. rewrite length_app. simpl. lia.
  - intros [= <- <- <-]. rewrite filter_cons_False by done. simpl. lia.
Qed.

End MaterialiserProperties.

Section MaterialiserWitnesses.
Import apiserver Scenario.

Lemma createTokenSecret_creates_annotated_empty_token_witness :
  heap state0 !! 0%nat = Some default_sa
  ∧ ∃ tokenSecret r tr',
      unfilled_run.2 = EvSecretsCreate "ns" tokenSecret r :: tr'
      ∧ secret_Name tokenSecret = "default-token-abc"
      ∧ Data tokenSecret = ∅.
Proof.
  split; [by_evaluation|].
  destruct (createTokenSecret_creates_annotated_empty_token
              (Platform0 := platform idle) state0 0%nat default_sa)
    as (name & w1 & tok & r & tr' & Hname & Htr & Hnm & _ & _ & Hdata & _).
  - by_evaluation.
  - assert (Hn : (name, w1)
                 = ("default-token-abc",
                    (generate_name "default-token-" cluster0).2)).
    { rewrite <-Hname. by_evaluation. }
    injection Hn as -> _.
    exists tok, r, tr'. split; [exact Htr|]. split; [exact Hnm|exact Hdata].
Defined.

Lemma createTokenSecret_returns_a_filled_token_witness :
  filled_token.1.1 = Ok (value_of filled_token.1.1 inhabitant)
  ∧ (0 < length (default [] (Data (value_of filled_token.1.1 inhabitant)
                               !! ServiceAccountTokenKey)))%nat
  ∧ Forall (λ ev, is_secret_delete ev = false) filled_token.2.
Proof.
  split; [by_evaluation|].
  destruct (createTokenSecret_returns_a_filled_token
              (Platform0 := platform (token_controller token_value))
              state0 filled_token.1.2 0%nat default_sa
              (value_of filled_token.1.1 inhabitant) filled_token.2)
    as (Hlen & _ & Hdel).
  - by_evaluation.
  - by_evaluation.
  - split; [exact Hlen | exact Hdel].
Defined.

Lemma createTokenSecret_fetch_error_leaves_the_token_witness :
  EvSecretsGet "ns" "default-token-abc"
    (Err (NewNotFound "secrets" "default-token-abc")) ∈ orphan_run.2
  ∧ orphan_run.1.1 = Err (NewNotFound "secrets" "default-token-abc")
  ∧ Forall (λ ev, is_secret_delete ev = false) orphan_run.2.
Proof.
  assert (Hin : EvSecretsGet "ns" "default-token-abc"
                  (Err (NewNotFound "secrets" "default-token-abc"))
                ∈ orphan_run.2).
  { apply (@bool_decide_unpack _ (list_elem_of_dec _ _)).
    vm_compute. exact I. }
  split; [exact Hin|].
  destruct (createTokenSecret_fetch_error_leaves_the_token
              (Platform0 := platform secret_remover) state0 orphan_run.1.2
              0%nat default_sa orphan_run.1.1 orphan_run.2
              "ns" "default-token-abc"
              (NewNotFound "secrets" "default-token-abc"))
    as (Hr & _ & Hdel).
  - by_evaluation.
  - by_evaluation.
  - exact Hin.
  - split; [exact Hr | exact Hdel].
Defined.

Lemma createTokenSecret_is_bounded_witness :
  heap state0 !! 0%nat = Some default_sa
  ∧ (length unfilled_run.2 ≤ 2 * S tokenSecretWaitTimes + 3)%nat.
Proof.
  split; [by_evaluation|].
  apply (createTokenSecret_is_bounded (Platform0 := platform idle)
           state0 unfilled_run.1.2 0%nat default_sa unfilled_run.1.1
           unfilled_run.2); by_evaluation.
Defined.

End MaterialiserWitnesses.

(** ** The dockercfg secret builder *)

Section BuilderProperties.
Context {W : Type} `{!Interface W} `{!Platform W}.

(** The materialiser persists no dockercfg secret. *)
Lemma createTokenSecret_persists_no_bundle (s s' : state W) (p : loc)
    (sa : ServiceAccount) (r : result Secret) (tr : list Event) :
  heap s !! p = Some sa →
  createTokenSecret p s = (r, s', tr) →
  Forall (λ ev, bundle_created ev = false) tr.
Proof.
  intros Hp. rewrite (createTokenSecret_run s p sa Hp).
  destruct (GenerateName _ _) as [name w1]. cbv zeta.
  destruct (Secrets_Create _ _ _) as [r0 w2].
  assert (Hev : bundle_created
                  (EvSecretsCreate (sa_Namespace sa) (tokenSecret_of sa name) r0)
                = false) by by destruct r0.
  destruct r0 as [created|err]; [|intros [= <- <- <-]; by repeat constructor].
  destruct (waitForToken _ _ _) as [[found s3] polls] eqn:Hpoll.
  pose proof (waitForToken_frame _ _ _ _ _ _ Hpoll) as (_ & _ & Hshape).
  apply is_poll_not_created in Hshape.
  destruct found as [res|]; [intros [= <- <- <-]; by constructor|].
  destruct (Secrets_Delete _ _ _) as [derr w4]. intros [= <- <- <-].
  constructor; [done|]. apply Forall_app. split; [done|].
  constructor; [done|]. unfold reported_after_delete.
  destruct derr as [e|]; [|done].
  destruct (IsNotFound (Some e)); by repeat constructor.
Qed.

(** X10.  [createDockerPullSecret] persists at most one dockercfg
    secret; a secret it returns is what the store returned for that
    one create, its last call; and when the token cannot be
    materialised the error is returned and no dockercfg secret is
    created. *)
Theorem createDockerPullSecret_persists_at_most_one_bundle
    (s s' : state W) (serviceAccount : loc) (sa : ServiceAccount)
    (r : result Secret) (tr : list Event) :
  heap s !! serviceAccount = Some sa →
  createDockerPullSecret serviceAccount s = (r, s', tr) →
  (length (filter (λ ev, bundle_created ev = true) tr) ≤ 1)%nat
  ∧ (∀ createdSecret,
       r = Ok createdSecret →
       ∃ ns dockercfgSecret,
         last tr = Some (EvSecretsCreate ns dockercfgSecret (Ok createdSecret))
         ∧ Type_ dockercfgSecret = SecretTypeDockercfg)
  ∧ (∀ err,
       (createTokenSecret serviceAccount s).1.1 = Err err →
       r = Err err ∧ Forall (λ ev, bundle_created ev = false) tr).
Proof.
  intros Hp. rewrite (createDockerPullSecret_run s _ sa Hp).
  destruct (createTokenSecret serviceAccount s) as [[r1 s1] tr1] eqn:Htok.
  pose proof (createTokenSecret_persists_no_bundle _ _ _ _ _ _ Hp Htok)
    as Hnone.
  destruct r1 as [tokenSecret|err].
  - destruct (GenerateName _ _) as [name w2].
    destruct (json_Marshal _) as [content|err].
    + cbv zeta. destruct (Secrets_Create _ _ _) as [r' w3].
      intros [= <- <- <-]. split; [|split].
      * rewrite filter_app, length_app, (none_created tr1 Hnone). simpl.
        match goal with
        | |- (length (filter ?P ?l) ≤ 1)%nat =>
          pose proof (length_filter P l) as Hle
        end.
        simpl in Hle. lia.
      * intros created ->. eexists _, _. by rewrite last_snoc.
      * done.
    + intros [= <- <- <-]. split; [|split]; try done.
      rewrite (none_created tr1 Hnone). simpl. lia.
  - intros [= <- <- <-]. split; [|split].
    + rewrite (none_created tr1 Hnone). simpl. lia.
    + done.
    + by intros err' [= ->].
Qed.

(** X11.  Once the token is materialised [createDockerPullSecret] makes
    at most one more call and asks for no delete: when serialising or
    creating the dockercfg secret fails, the token secret is not
    cleaned up. *)
Theorem createDockerPullSecret_never_deletes_the_token
    (s s1 s' : state W) (serviceAccount : loc) (sa : ServiceAccount)
    (tokenSecret : Secret) (r : result Secret) (tr1 tr : list Event) :
  heap s !! serviceAccount = Some sa →
  createTokenSecret serviceAccount s = (Ok tokenSecret, s1, tr1) →
  createDockerPullSecret serviceAccount s = (r, s', tr) →
  Forall (λ ev, is_secret_delete ev = false) tr
  ∧ ∃ tr2, tr = tr1 ++ tr2 ∧ (length tr2 ≤ 1)%nat.
Proof.
  intros Hp Htok.
  pose proof (createTokenSecret_ok_deletes_nothing
                _ _ _ _ _ _ Hp Htok) as Hdel.
  rewrite (createDockerPullSecret_run s _ sa Hp), Htok.
  destruct (GenerateName _ _) as [name w2].
  destruct (json_Marshal _) as [content|err].
  - cbv zeta. destruct (Secrets_Create _ _ _) as [r' w3].
    intros [= <- <- <-]. split.
    + apply Forall_app. split; [done|]. by repeat constructor.
    + eexists. split; [done|]. simpl. lia.
  - intros [= <- <- <-]. split; [done|].
    exists []. rewrite app_nil_r. split; [done|]. simpl. lia.
Qed.

(** X12.  [SetDockerURL] touches nothing but the controller's URL and
    asks nothing of the store, and a dockercfg secret built afterwards
    is keyed by the new URL. *)
Theorem SetDockerURL_takes_effect_on_the_next_build
    (s s1 : state W) (newDockerURL : string) (serviceAccount : loc)
    (sa : ServiceAccount) (tokenSecret : Secret) (tr1 : list Event)
    (dockercfgContent : list Byte.byte) :
  let s0 := (SetDockerURL newDockerURL s).1.2 in
  heap s !! serviceAccount = Some sa →
  createTokenSecret serviceAccount s0 = (Ok tokenSecret, s1, tr1) →
  json_Marshal
    {[ newDockerURL :=
         mkDockerConfigEntry "serviceaccount"
           (String.string_of_list_byte
              (default [] (Data tokenSecret !! ServiceAccountTokenKey)))
           "serviceaccount@example.org" ]} = Ok dockercfgContent →
  (SetDockerURL newDockerURL s).2 = []
  ∧ heap s0 = heap s ∧ world s0 = world s
  ∧ ∃ dockercfgSecret r s',
      createDockerPullSecret serviceAccount s0
      = (r, s',
         tr1 ++ [EvSecretsCreate (secret_Namespace tokenSecret)
                   dockercfgSecret r])
      ∧ Data dockercfgSecret = {[ DockerConfigKey := dockercfgContent ]}.
Proof.
  intros s0 Hp Htok Hjson.
  split; [done|]. split; [done|]. split; [done|].
  assert (Hp0 : heap s0 !! serviceAccount = Some sa) by done.
  pose proof (createTokenSecret_frame _ _ _ _ _ _ Hp0 Htok) as [_ Hu].
  rewrite (createDockerPullSecret_run s0 _ sa Hp0), Htok.
  destruct (GenerateName _ _) as [name w2]. unfold dockercfg_of.
  rewrite Hu. simpl. rewrite Hjson. cbv zeta.
  destruct (Secrets_Create _ _ _) as [r w3].
  by eexists _, r, _.
Qed.

End BuilderProperties.

Section BuilderWitnesses.
Import apiserver Scenario.

Lemma createDockerPullSecret_persists_at_most_one_bundle_witness :
  heap state0 !! 0%nat = Some default_sa
  ∧ (length (filter (λ ev, bundle_created ev = true) built_run.2) ≤ 1)%nat.
Proof.
  split; [by_evaluation|].
  apply (createDockerPullSecret_persists_at_most_one_bundle
           (Platform0 := platform (token_controller token_value))
           state0 built_run.1.2 0%nat default_sa built_run.1.1 built_run.2);
    by_evaluation.
Defined.

Lemma createDockerPullSecret_never_deletes_the_token_witness :
  filled_token.1.1 = Ok (value_of filled_token.1.1 inhabitant)
  ∧ Forall (λ ev, is_secret_delete ev = false) built_run.2.
Proof.
  split; [by_evaluation|].
  apply (createDockerPullSecret_never_deletes_the_token
           (Platform0 := platform (token_controller token_value))
           state0 filled_token.1.2 built_run.1.2 0%nat default_sa
           (value_of filled_token.1.1 inhabitant) built_run.1.1
           filled_token.2 built_run.2); by_evaluation.
Defined.

Lemma SetDockerURL_takes_effect_on_the_next_build_witness :
  heap state0 !! 0%nat = Some default_sa
  ∧ ∃ dockercfgSecret r s',
      createDockerPullSecret
        (Platform0 := platform (token_controller token_value))
        0%nat state_reconfigured
      = (r, s',
         reconfigured_token.2 ++ [EvSecretsCreate "ns" dockercfgSecret r])
      ∧ Data dockercfgSecret
        = {[ DockerConfigKey :=
               String.list_byte_of_string "mirror.example.com=s3cr3t" ]}.
Proof.
  split; [by_evaluation|].
  destruct (SetDockerURL_takes_effect_on_the_next_build
              (Platform0 := platform (token_controller token_value))
              state0 reconfigured_token.1.2 "mirror.example.com" 0%nat
              default_sa (value_of reconfigured_token.1.1 inhabitant)
              reconfigured_token.2
              (String.list_byte_of_string "mirror.example.com=s3cr3t"))
    as (_ & _ & _ & bundle & r & s' & Hrun & Hdata).
  - by_evaluation.
  - by_evaluation.
  - by_evaluation.
  - exists bundle, r, s'. split; [exact Hrun | exact Hdata].
Defined.

End BuilderWitnesses.

(** ** The reference linker *)

Section LinkerProperties.
Context {W : Type} `{!Interface W} `{!Platform W}.

(** X13.  When the fetch of the live service account fails,
    [createDockerPullSecretReference] returns that error, allocates
    nothing and makes no other call. *)
Theorem createDockerPullSecretReference_fetch_error
    (s : state W) (staleServiceAccount : loc) (dockercfgSecretName : string)
    (stale : ServiceAccount) (err : error) (w : W) :
  heap s !! staleServiceAccount = Some stale →
  ServiceAccounts_Get (sa_Namespace stale) (sa_Name stale) (world s)
    = (Err err, w) →
  createDockerPullSecretReference staleServiceAccount dockercfgSecretName s
  = (Some err, mkState (heap s) (dockerURL s) w,
     [EvServiceAccountsGet (sa_Namespace stale) (sa_Name stale) (Err err)]).
Proof.
  intros Hp Hget.
  rewrite (createDockerPullSecretReference_run s _ _ stale Hp). simpl.
  by rewrite Hget.
Qed.

(** X14.  [createDockerPullSecretReference] makes one fetch and at most
    one update, never a second try; what it writes has the metadata of
    the fetched object and each list of the fetched object as a prefix
    of its own, so no existing reference is dropped or moved; and the
    error of the update is what it returns. *)
Theorem createDockerPullSecretReference_only_appends
    (s s' : state W) (staleServiceAccount : loc) (dockercfgSecretName : string)
    (stale : ServiceAccount) (err : option error) (tr : list Event) :
  heap s !! staleServiceAccount = Some stale →
  createDockerPullSecretReference staleServiceAccount dockercfgSecretName s
    = (err, s', tr) →
  (length tr ≤ 2)%nat
  ∧ (length (filter (λ ev, is_update ev = true) tr) ≤ 1)%nat
  ∧ ∀ ns o r,
      EvServiceAccountsUpdate ns o r ∈ tr →
      ∃ live w,
        ServiceAccounts_Get (sa_Namespace stale) (sa_Name stale) (world s)
          = (Ok live, w)
        ∧ ServiceAccount_ObjectMeta o = ServiceAccount_ObjectMeta live
        ∧ ns = sa_Namespace live
        ∧ Secrets live `prefix_of` Secrets o
        ∧ ImagePullSecrets live `prefix_of` ImagePullSecrets o
        ∧ err = result_err r.
Proof.
  intros Hp. rewrite (createDockerPullSecretReference_run s _ _ stale Hp).
  cbv zeta.
  destruct (ServiceAccounts_Get _ _ _) as [[live|e] w].
  - destruct (negb _).
    + intros [= <- <- <-]. split; [simpl; lia|]. split; [simpl; lia|].
      intros ns o r Hin. by apply list_elem_of_singleton in Hin.
    + destruct (needs_reference _ _).
      * destruct (ServiceAccounts_Update _ _ _) as [r' w'] eqn:Hupd.
        intros [= <- <- <-]. split; [simpl; lia|]. split.
        { rewrite filter_cons_False by done.
          rewrite filter_cons_True by done. simpl. lia. }
        intros ns o r Hin.
        apply elem_of_cons in Hin as [?|Hin]; [done|].
        apply list_elem_of_singleton in Hin. injection Hin as -> -> ->.
        exists live, w. split; [done|].
        unfold sa_Namespace. rewrite with_reference_meta.
        split; [done|]. split; [done|].
        unfold with_reference.
        destruct (getGeneratedDockercfgSecretNames live) as [m i].
        destruct (sets.Has m dockercfgSecretName),
          (sets.Has i dockercfgSecretName); simpl;
          repeat split; try done; by apply prefix_app_r.
      * intros [= <- <- <-]. split; [simpl; lia|]. split; [simpl; lia|].
        intros ns o r Hin. by apply list_elem_of_singleton in Hin.
  - intros [= <- <- <-]. split; [simpl; lia|]. split; [simpl; lia|].
    intros ns o r Hin. by apply list_elem_of_singleton in Hin.
Qed.

(** X15.  Membership is tested on the generated names only: for a name
    that does not carry the dockercfg prefix, and agreeing
    classifications, [createDockerPullSecretReference] appends the name
    to both lists and writes the object back, whether or not the lists
    already hold the name. *)
Theorem createDockerPullSecretReference_appends_unprefixed_name_always
    (s : state W) (staleServiceAccount : loc) (dockercfgSecretName : string)
    (stale live : ServiceAccount) (w : W) :
  heap s !! staleServiceAccount = Some stale →
  ServiceAccounts_Get (sa_Namespace stale) (sa_Name stale) (world s)
    = (Ok live, w) →
  getGeneratedDockercfgSecretNames live
    = getGeneratedDockercfgSecretNames stale →
  String.prefix (GetDockercfgSecretNamePrefix live) dockercfgSecretName
    = false →
  let updated :=
    mkServiceAccount (ServiceAccount_ObjectMeta live)
      (Secrets live ++ [mkObjectReference dockercfgSecretName])
      (ImagePullSecrets live
         ++ [mkLocalObjectReference dockercfgSecretName]) in
  ∃ r w' s',
    ServiceAccounts_Update (sa_Namespace live) updated w = (r, w')
    ∧ createDockerPullSecretReference staleServiceAccount
        dockercfgSecretName s
      = (result_err r, s',
         [EvServiceAccountsGet (sa_Namespace stale) (sa_Name stale) (Ok live);
          EvServiceAccountsUpdate (sa_Namespace live) updated r]).
Proof.
  intros Hp Hget Hsame Hpre. cbv zeta.
  rewrite (createDockerPullSecretReference_run s _ _ stale Hp). simpl.
  rewrite Hget. unfold same_generated, needs_reference, with_reference.
  rewrite (bool_decide_eq_true_2 (getGeneratedDockercfgSecretNames stale = _))
    by congruence.
  simpl.
  assert (Hm : sets.Has (getGeneratedDockercfgSecretNames live).1
                 dockercfgSecretName = false).
  { apply setsFacts.Has_false. intros Hin.
    apply elem_of_generated_mountable in Hin as [Hin _]. congruence. }
  assert (Hi : sets.Has (getGeneratedDockercfgSecretNames live).2
                 dockercfgSecretName = false).
  { apply setsFacts.Has_false. intros Hin.
    apply elem_of_generated_pull in Hin as [Hin _]. congruence. }
  destruct (getGeneratedDockercfgSecretNames live) as [m i]. simpl in Hm, Hi.
  rewrite Hm, Hi. simpl.
  destruct live as [meta ss ps]; simpl.
  unfold set_Secrets, set_ImagePullSecrets, sa_Namespace; simpl.
  destruct (ServiceAccounts_Update _ _ _) as [r w'].
  by eexists _, _, _.
Qed.

End LinkerProperties.


Section LinkerWitnesses.
Import apiserver Scenario.

Lemma createDockerPullSecretReference_fetch_error_witness :
  heap state_gone !! 0%nat = Some default_sa
  ∧ gone_linked.1.1 = Some (NewNotFound "serviceaccounts" "default")
  ∧ gone_linked.2
    = [EvServiceAccountsGet "ns" "default"
         (Err (NewNotFound "serviceaccounts" "default"))].
Proof.
  split; [by_evaluation|].
  unfold gone_linked.
  rewrite (createDockerPullSecretReference_fetch_error
             (Platform0 := platform idle) state_gone 0%nat
             "default-dockercfg-abc" default_sa
             (NewNotFound "serviceaccounts" "default") cluster_gone).
  - split; reflexivity.
  - by_evaluation.
  - by_evaluation.
Defined.

Lemma createDockerPullSecretReference_only_appends_witness :
  heap state0 !! 0%nat = Some default_sa
  ∧ (length fresh_linked.2 ≤ 2)%nat
  ∧ (length (filter (λ ev, is_update ev = true) fresh_linked.2) ≤ 1)%nat.
Proof.
  split; [by_evaluation|].
  destruct (createDockerPullSecretReference_only_appends
              (Platform0 := platform idle) state0 fresh_linked.1.2 0%nat
              "default-dockercfg-abc" default_sa fresh_linked.1.1
              fresh_linked.2) as (Hlen & Hupd & _).
  - by_evaluation.
  - by_evaluation.
  - split; [exact Hlen | exact Hupd].
Defined.

Lemma createDockerPullSecretReference_appends_unprefixed_name_always_witness :
  "other" ∈ (ObjectReference_Name <$> Secrets pull_only_sa)
  ∧ ∃ r w' s',
      ServiceAccounts_Update "ns"
        (mkServiceAccount (ServiceAccount_ObjectMeta pull_only_sa)
           [mkObjectReference "other"; mkObjectReference "other"]
           [mkLocalObjectReference "default-dockercfg-xyz";
            mkLocalObjectReference "other"])
        cluster_pull_only = (r, w')
      ∧ createDockerPullSecretReference (Platform0 := platform idle) 0%nat
          "other" state_pull_only
        = (result_err r, s',
           [EvServiceAccountsGet "ns" "default" (Ok pull_only_sa);
            EvServiceAccountsUpdate "ns"
              (mkServiceAccount (ServiceAccount_ObjectMeta pull_only_sa)
                 [mkObjectReference "other"; mkObjectReference "other"]
                 [mkLocalObjectReference "default-dockercfg-xyz";
                  mkLocalObjectReference "other"]) r]).
Proof.
  split.
  { apply (@bool_decide_unpack _ (list_elem_of_dec _ _)).
    vm_compute. exact I. }
  apply (createDockerPullSecretReference_appends_unprefixed_name_always
           (Platform0 := platform idle) state_pull_only 0%nat "other"
           pull_only_sa pull_only_sa cluster_pull_only).
  - by_evaluation.
  - by_evaluation.
  - reflexivity.
  - by_evaluation.
Defined.

End LinkerWitnesses.

(** ** The reconciliation entry point *)

Section ReconcilerProperties.
Context {W : Type} `{!Interface W} `{!Platform W}.

Lemma not_delete_dwc (tr : list Event) :
  Forall (λ ev, is_secret_delete ev = false) tr → deleted_was_created tr.
Proof.
  intros Hall ns nm derr Hin.
  by eapply Forall_forall in Hall; [|exact Hin].
Qed.

Lemma is_poll_not_update (tr : list Event) :
  Forall (λ ev, is_poll ev = true) tr →
  Forall (λ ev, is_update ev = false) tr.
Proof. intros H. eapply Forall_impl; [exact H|]. by intros []. Qed.

Lemma reported_after_delete_reports (derr : option error) :
  Forall (λ ev, is_secret_delete ev = false ∧ is_update ev = false)
    (reported_after_delete derr).
Proof.
  unfold reported_after_delete. destruct derr as [e|]; [|done].
  destruct (IsNotFound (Some e)); by repeat constructor.
Qed.

(** What the materialiser deletes is the token secret it created, and
    it writes no service account. *)
Lemma createTokenSecret_trace (s s' : state W) (p : loc)
    (sa : ServiceAccount) (r : result Secret) (tr : list Event) :
  heap s !! p = Some sa →
  createTokenSecret p s = (r, s', tr) →
  deleted_was_created tr ∧ Forall (λ ev, is_update ev = false) tr.
Proof.
  intros Hp. rewrite (createTokenSecret_run s p sa Hp).
  destruct (GenerateName _ _) as [name w1]. cbv zeta.
  destruct (Secrets_Create _ _ _) as [[created|err] w2].
  - destruct (waitForToken _ _ _) as [[found s3] polls] eqn:Hpoll.
    apply waitForToken_frame in Hpoll as (_ & _ & Hshape).
    pose proof (is_poll_not_delete _ Hshape) as Hnd.
    pose proof (is_poll_not_update _ Hshape) as Hnu.
    destruct found as [res|].
    + intros [= <- <- <-]. split.
      * apply not_delete_dwc. by constructor.
      * by constructor.
    + destruct (Secrets_Delete _ _ _) as [derr w4].
      intros [= <- <- <-]. split.
      * intros ns nm derr' Hin.
        exists (sa_Namespace sa), (tokenSecret_of sa name), created.
        split; [left|].
        apply elem_of_cons in Hin as [?|Hin]; [done|].
        apply elem_of_app in Hin as [Hin|Hin].
        { by eapply Forall_forall in Hnd; [|exact Hin]. }
        apply elem_of_cons in Hin as [Heq|Hin].
        { injection Heq as -> -> _. by left. }
        pose proof (reported_after_delete_reports derr) as Hrep.
        eapply Forall_forall in Hrep; [|exact Hin]. by destruct Hrep.
      * constructor; [done|]. apply Forall_app. split; [done|].
        constructor; [done|].
        eapply Forall_impl; [apply reported_after_delete_reports|].
        by intros ? [_ ?].
  - intros [= <- <- <-]. split.
    + apply not_delete_dwc. by repeat constructor.
    + by repeat constructor.
Qed.

(** The same for the builder; and a build that succeeded deleted
    nothing and ended with the create of the secret it returns. *)
Lemma createDockerPullSecret_trace (s s' : state W) (p : loc)
    (sa : ServiceAccount) (r : result Secret) (tr : list Event) :
  heap s !! p = Some sa →
  createDockerPullSecret p s = (r, s', tr) →
  deleted_was_created tr
  ∧ Forall (λ ev, is_update ev = false) tr
  ∧ ∀ dockercfgSecret, r = Ok dockercfgSecret →
      Forall (λ ev, is_secret_delete ev = false) tr
      ∧ ∃ ns x, EvSecretsCreate ns x (Ok dockercfgSecret) ∈ tr.
Proof.
  intros Hp. rewrite (createDockerPullSecret_run s p sa Hp).
  destruct (createTokenSecret p s) as [[r1 s1] tr1] eqn:Htok.
  pose proof (createTokenSecret_trace _ _ _ _ _ _ Hp Htok) as [Hdwc Hnu].
  destruct r1 as [tokenSecret|err]; [|by intros [= <- <- <-]].
  pose proof (createTokenSecret_ok_deletes_nothing _ _ _ _ _ _ Hp Htok)
    as Hnd.
  destruct (GenerateName _ _) as [name w2].
  destruct (json_Marshal _) as [content|err]; [|by intros [= <- <- <-]].
  cbv zeta.
  destruct (Secrets_Create _ _ _) as [r' w3]. intros [= <- <- <-].
  assert (Hnd' : Forall (λ ev, is_secret_delete ev = false)
                   (tr1 ++ [EvSecretsCreate (secret_Namespace tokenSecret)
                              (set_Data {[ DockerConfigKey := content ]}
                                 (dockercfgSecret_of sa tokenSecret name))
                              r'])).
  { apply Forall_app. split; [done|]. by repeat constructor. }
  split; [by apply not_delete_dwc|]. split.
  - apply Forall_app. split; [done|]. by repeat constructor.
  - intros bundle ->. split; [done|]. eexists _, _.
    apply elem_of_app. right. left.
Qed.

(** The linker deletes nothing and reports nothing. *)
Lemma createDockerPullSecretReference_trace (s s' : state W) (p : loc)
    (name : string) (sa : ServiceAccount) (err : option error)
    (tr : list Event) :
  heap s !! p = Some sa →
  createDockerPullSecretReference p name s = (err, s', tr) →
  Forall (λ ev, is_secret_delete ev = false) tr
  ∧ ∀ e, EvHandleError e ∉ tr.
Proof.
  intros Hp. rewrite (createDockerPullSecretReference_run s _ _ sa Hp).
  cbv zeta.
  destruct (ServiceAccounts_Get _ _ _) as [[live|e] w].
  - destruct (negb _).
    + intros [= <- <- <-]. split; [by repeat constructor|].
      intros e Hin. by apply list_elem_of_singleton in Hin.
    + destruct (needs_reference _ _).
      * destruct (ServiceAccounts_Update _ _ _) as [r' w'].
        intros [= <- <- <-]. split; [by repeat constructor|].
        intros e Hin. apply elem_of_cons in Hin as [?|Hin]; [done|].
        by apply list_elem_of_singleton in Hin.
      * intros [= <- <- <-]. split; [by repeat constructor|].
        intros e Hin. by apply list_elem_of_singleton in Hin.
  - intros [= <- <- <-]. split; [by repeat constructor|].
    intros e' Hin. by apply list_elem_of_singleton in Hin.
Qed.

(** X16.  For a snapshot with generated names in both lists
    [createDockercfgSecretIfNeeded] returns [nil] without a single call:
    the state is untouched and the trace is empty. *)
Theorem createDockercfgSecretIfNeeded_linked_makes_no_call
    (s : state W) (serviceAccount : loc) (sa : ServiceAccount)
    (m i : gset string) :
  heap s !! serviceAccount = Some sa →
  getGeneratedDockercfgSecretNames sa = (m, i) →
  m ≠ ∅ → i ≠ ∅ →
  createDockercfgSecretIfNeeded serviceAccount s = (None, s, []).
Proof.
  intros Hp Hgen Hm Hi.
  rewrite (createDockercfgSecretIfNeeded_run s _ sa Hp), Hgen.
  cbv beta iota zeta. by rewrite (found_true m Hm), (found_true i Hi).
Qed.

(** X17.  On the path without generated names, an error of the re-read
    or of [createDockerPullSecret] is returned as it is, Conflict or
    not; after a failed re-read nothing else is called, and after a
    failed build no link is attempted: the trace holds no update of a
    service account. *)
Theorem createDockercfgSecretIfNeeded_returns_build_errors
    (s s' : state W) (serviceAccount : loc) (sa : ServiceAccount)
    (err : option error) (tr : list Event) :
  heap s !! serviceAccount = Some sa →
  getGeneratedDockercfgSecretNames sa = (∅, ∅) →
  createDockercfgSecretIfNeeded serviceAccount s = (err, s', tr) →
  (∀ e w,
     ServiceAccounts_Get (sa_Namespace sa) (sa_Name sa) (world s)
       = (Err e, w) →
     err = Some e
     ∧ tr = [EvServiceAccountsGet (sa_Namespace sa) (sa_Name sa) (Err e)])
  ∧ (∀ live w e s2 tr2,
       ServiceAccounts_Get (sa_Namespace sa) (sa_Name sa) (world s)
         = (Ok live, w) →
       sa_ResourceVersion live = sa_ResourceVersion sa →
       createDockerPullSecret serviceAccount
         (mkState (heap s ++ [live]) (dockerURL s) w) = (Err e, s2, tr2) →
       err = Some e
       ∧ tr = EvServiceAccountsGet (sa_Namespace sa) (sa_Name sa) (Ok live)
              :: tr2
       ∧ Forall (λ ev, is_update ev = false) tr).
Proof.
  intros Hp Hgen.
  rewrite (createDockercfgSecretIfNeeded_run s _ sa Hp), Hgen.
  cbv beta iota zeta. rewrite (found_false ∅ eq_refl). simpl.
  destruct (ServiceAccounts_Get _ _ _) as [[live|e] w] eqn:Hget.
  - intros Hrun. split; [done|].
    intros live' w' e s2 tr2 [= <- <-] Hrv Hbuild.
    rewrite Hrv, String.eqb_refl in Hrun. simpl in Hrun.
    rewrite Hbuild in Hrun. injection Hrun as <- <- <-.
    split; [done|]. split; [done|]. constructor; [done|].
    assert (Hp1 : heap (mkState (heap s ++ [live]) (dockerURL s) w)
                    !! serviceAccount = Some sa)
      by by apply lookup_app_l_Some.
    by destruct (createDockerPullSecret_trace _ _ _ _ _ _ Hp1 Hbuild)
      as (_ & ? & _).
  - intros [= <- <- <-]. split; [|done].
    by intros e' w' [= <- <-].
Qed.

(** X18.  On the path without generated names, when the dockercfg
    secret was created and the linker fails with an error that is not a
    Conflict, [createDockercfgSecretIfNeeded] returns that error and
    asks for no delete: unlike after a Conflict, the created secret is
    not cleaned up. *)
Theorem createDockercfgSecretIfNeeded_other_link_error_keeps_the_secret
    (s s2 s3 : state W) (serviceAccount : loc) (sa live : ServiceAccount)
    (w : W) (dockercfgSecret : Secret) (err : option error)
    (tr2 tr3 : list Event) :
  heap s !! serviceAccount = Some sa →
  getGeneratedDockercfgSecretNames sa = (∅, ∅) →
  ServiceAccounts_Get (sa_Namespace sa) (sa_Name sa) (world s)
    = (Ok live, w) →
  sa_ResourceVersion live = sa_ResourceVersion sa →
  createDockerPullSecret serviceAccount
    (mkState (heap s ++ [live]) (dockerURL s) w)
    = (Ok dockercfgSecret, s2, tr2) →
  createDockerPullSecretReference serviceAccount
    (secret_Name dockercfgSecret) s2 = (err, s3, tr3) →
  IsConflict err = false →
  createDockercfgSecretIfNeeded serviceAccount s
  = (err, s3,
     EvServiceAccountsGet (sa_Namespace sa) (sa_Name sa) (Ok live)
     :: tr2 ++ tr3)
  ∧ Forall (λ ev, is_secret_delete ev = false)
      (EvServiceAccountsGet (sa_Namespace sa) (sa_Name sa) (Ok live)
       :: tr2 ++ tr3)
  ∧ ∃ ns x, EvSecretsCreate ns x (Ok dockercfgSecret) ∈ tr2.
Proof.
  intros Hp Hgen Hget Hrv Hbuild Hlink Hconflict.
  rewrite (createDockercfgSecretIfNeeded_run s _ sa Hp), Hgen.
  cbv beta iota zeta. rewrite (found_false ∅ eq_refl). simpl.
  rewrite Hget, Hrv, String.eqb_refl. simpl.
  rewrite Hbuild, Hlink, Hconflict.
  assert (Hp1 : heap (mkState (heap s ++ [live]) (dockerURL s) w)
                  !! serviceAccount = Some sa)
    by by apply lookup_app_l_Some.
  destruct (createDockerPullSecret_trace _ _ _ _ _ _ Hp1 Hbuild)
    as (_ & _ & Hok).
  destruct (Hok dockercfgSecret eq_refl) as [Hnd2 Hcreated].
  assert (Hp2 : heap s2 !! serviceAccount = Some sa).
  { apply (createDockerPullSecret_frame _ _ _ _ _ _ Hp1) in Hbuild
      as [-> _]. exact Hp1. }
  destruct (createDockerPullSecretReference_trace _ _ _ _ _ _ _ Hp2 Hlink)
    as [Hnd3 _].
  split; [done|]. split; [|done].
  constructor; [done|]. by apply Forall_app.
Qed.

(** X19.  Whatever happens, every delete that
    [createDockercfgSecretIfNeeded] asks of the store names a secret
    that a successful create of the same call was given or returned: the
    controller deletes only what it has itself just created. *)
Theorem createDockercfgSecretIfNeeded_deletes_only_its_own
    (s s' : state W) (serviceAccount : loc) (sa : ServiceAccount)
    (err : option error) (tr : list Event) :
  heap s !! serviceAccount = Some sa →
  createDockercfgSecretIfNeeded serviceAccount s = (err, s', tr) →
  deleted_was_created tr.
Proof.
  intros Hp. rewrite (createDockercfgSecretIfNeeded_run s _ sa Hp).
  destruct (getGeneratedDockercfgSecretNames sa) as [m i]. cbv zeta.
  destruct (_ && _); [intros [= <- <- <-]; by apply not_delete_dwc|].
  destruct (_ || _).
  { destruct (createDockerPullSecretReference _ _ _) as [[e s1] tr1] eqn:Hlink.
    apply (createDockerPullSecretReference_trace _ _ _ _ _ _ _ Hp) in Hlink
      as [Hnd _].
    intros [= <- <- <-]. by apply not_delete_dwc. }
  destruct (ServiceAccounts_Get _ _ _) as [[live|e] w];
    [|intros [= <- <- <-]; apply not_delete_dwc; by repeat constructor].
  destruct (negb _);
    [intros [= <- <- <-]; apply not_delete_dwc; by repeat constructor|].
  assert (Hp1 : heap (mkState (heap s ++ [live]) (dockerURL s) w)
                  !! serviceAccount = Some sa)
    by by apply lookup_app_l_Some.
  destruct (createDockerPullSecret _ _) as [[r2 s2] tr2] eqn:Hbuild.
  destruct (createDockerPullSecret_trace _ _ _ _ _ _ Hp1 Hbuild)
    as (Hdwc2 & _ & Hok).
  destruct r2 as [bundle|e].
  - destruct (Hok bundle eq_refl) as [Hnd2 (cns & cx & Hcreated)].
    assert (Hp2 : heap s2 !! serviceAccount = Some sa).
    { apply (createDockerPullSecret_frame _ _ _ _ _ _ Hp1) in Hbuild
        as [-> _]. exact Hp1. }
    destruct (createDockerPullSecretReference _ _ _) as [[e s3] tr3] eqn:Hlink.
    apply (createDockerPullSecretReference_trace _ _ _ _ _ _ _ Hp2) in Hlink
      as [Hnd3 _].
    destruct (IsConflict e).
    + destruct (Secrets_Delete _ _ _) as [derr w4].
      intros [= <- <- <-] ns nm derr' Hin.
      exists cns, cx, bundle. split.
      { right. apply elem_of_app. by left. }
      apply elem_of_cons in Hin as [?|Hin]; [done|].
      apply elem_of_app in Hin as [Hin|Hin].
      { by eapply Forall_forall in Hnd2; [|exact Hin]. }
      apply elem_of_app in Hin as [Hin|Hin].
      { by eapply Forall_forall in Hnd3; [|exact Hin]. }
      apply elem_of_cons in Hin as [Heq|Hin].
      { injection Heq as -> -> _. by right. }
      pose proof (reported_after_delete_reports derr) as Hrep.
      eapply Forall_forall in Hrep; [|exact Hin]. by destruct Hrep.
    + intros [= <- <- <-]. apply not_delete_dwc.
      constructor; [done|]. by apply Forall_app.
  - intros [= <- <- <-] ns nm derr Hin.
    apply elem_of_cons in Hin as [?|Hin]; [done|].
    destruct (Hdwc2 ns nm derr Hin) as (ns' & x & y & Hc & Hnames).
    exists ns', x, y. split; [by right|done].
Qed.

(** X20.  [serviceAccountUpdated] looks at the new object only, and
    does what [serviceAccountAdded] does on it; and for a snapshot with
    generated names in exactly one list, neither handler ever hands a
    Conflict to the error handler: a stale decision or a lost write is
    dropped in silence. *)
Theorem handlers_drop_link_conflicts
    (s : state W) (oldObj newObj : loc) (sa : ServiceAccount)
    (m i : gset string) :
  heap s !! newObj = Some sa →
  getGeneratedDockercfgSecretNames sa = (m, i) →
  (m = ∅ ∧ i ≠ ∅) ∨ (m ≠ ∅ ∧ i = ∅) →
  serviceAccountUpdated oldObj newObj s = serviceAccountAdded newObj s
  ∧ ∀ e, EvHandleError e ∈ (serviceAccountAdded newObj s).2 →
         IsConflict (Some e) = false.
Proof.
  intros Hp Hgen Hone. split; [done|].
  unfold serviceAccountAdded, mbind, M_bind at 1.
  rewrite (createDockercfgSecretIfNeeded_run s _ sa Hp), Hgen.
  cbv beta iota zeta.
  assert (Hbranch : bool_decide (0 < sets.Len i)%nat
                    && bool_decide (0 < sets.Len m)%nat = false
                    ∧ bool_decide (0 < sets.Len i)%nat
                      || bool_decide (0 < sets.Len m)%nat = true).
  { destruct Hone as [[-> Hi]|[Hm ->]].
    - by rewrite (found_true i Hi), (found_false ∅ eq_refl).
    - by rewrite (found_true m Hm), (found_false ∅ eq_refl). }
  destruct Hbranch as [-> ->].
  destruct (createDockerPullSecretReference _ _ _) as [[err s1] tr1] eqn:Hlink.
  apply (createDockerPullSecretReference_trace _ _ _ _ _ _ _ Hp) in Hlink
    as [_ Hquiet].
  destruct (IsConflict err) eqn:Hconflict.
  - unfold mret, M_ret. simpl. rewrite app_nil_r.
    intros e Hin. by apply Hquiet in Hin.
  - destruct err as [e0|].
    + unfold utilruntime_HandleError, call. simpl.
      intros e Hin. apply elem_of_app in Hin as [Hin|Hin].
      * by apply Hquiet in Hin.
      * apply list_elem_of_singleton in Hin. by injection Hin as ->.
    + unfold mret, M_ret. simpl. rewrite app_nil_r.
      intros e Hin. by apply Hquiet in Hin.
Qed.

End ReconcilerProperties.

Section ReconcilerWitnesses.
Import apiserver Scenario.

Lemma createDockercfgSecretIfNeeded_linked_makes_no_call_witness :
  heap state_converged !! 0%nat = Some converged_sa
  ∧ createDockercfgSecretIfNeeded (Platform0 := platform idle) 0%nat
      state_converged = (None, state_converged, []).
Proof.
  split; [by_evaluation|].
  apply (createDockercfgSecretIfNeeded_linked_makes_no_call
           (Platform0 := platform idle) state_converged 0%nat converged_sa
           {[ "default-dockercfg-xyz" ]} {[ "default-dockercfg-xyz" ]});
    by_evaluation.
Defined.

Lemma createDockercfgSecretIfNeeded_returns_build_errors_witness :
  heap state_taken !! 0%nat = Some default_sa
  ∧ taken_run.1.1 = Some (NewAlreadyExists "secrets" "default-token-abc")
  ∧ Forall (λ ev, is_update ev = false) taken_run.2.
Proof.
  split; [by_evaluation|].
  destruct (createDockercfgSecretIfNeeded_returns_build_errors
              (Platform0 := platform idle) state_taken taken_run.1.2 0%nat
              default_sa taken_run.1.1 taken_run.2) as [_ Hbuild].
  - by_evaluation.
  - by_evaluation.
  - by_evaluation.
  - destruct (Hbuild default_sa cluster_taken
                (NewAlreadyExists "secrets" "default-token-abc")
                taken_built.1.2 taken_built.2) as (Herr & _ & Hquiet).
    + by_evaluation.
    + reflexivity.
    + by_evaluation.
    + split; [exact Herr | exact Hquiet].
Defined.

Lemma createDockercfgSecretIfNeeded_other_link_error_keeps_the_secret_witness :
  lost_built.1.1 = Ok lost_bundle
  ∧ lost_run.1.1 = Some (NewNotFound "serviceaccounts" "default")
  ∧ Forall (λ ev, is_secret_delete ev = false) lost_run.2.
Proof.
  split; [by_evaluation|].
  destruct (createDockercfgSecretIfNeeded_other_link_error_keeps_the_secret
              (Platform0 := platform principal_remover)
              state0 lost_built.1.2 lost_linked.1.2 0%nat default_sa
              default_sa cluster0 lost_bundle lost_linked.1.1
              lost_built.2 lost_linked.2) as (Hrun & Hkept & _).
  - by_evaluation.
  - by_evaluation.
  - by_evaluation.
  - reflexivity.
  - by_evaluation.
  - by_evaluation.
  - by_evaluation.
  - unfold lost_run. rewrite Hrun. split; [by_evaluation | exact Hkept].
Defined.

Lemma createDockercfgSecretIfNeeded_deletes_only_its_own_witness :
  EvSecretsDelete "ns" (secret_Name race_bundle) None ∈ race_run.2
  ∧ deleted_was_created race_run.2.
Proof.
  split.
  { apply (@bool_decide_unpack _ (list_elem_of_dec _ _)).
    vm_compute. exact I. }
  apply (createDockercfgSecretIfNeeded_deletes_only_its_own
           (Platform0 := platform racing_writer) state0 race_run.1.2 0%nat
           default_sa race_run.1.1 race_run.2); by_evaluation.
Defined.

Lemma handlers_drop_link_conflicts_witness :
  heap state_half_stale !! 0%nat = Some pull_only_sa
  ∧ ∀ e, EvHandleError e
           ∈ (serviceAccountAdded (Platform0 := platform idle) 0%nat
                state_half_stale).2 →
         IsConflict (Some e) = false.
Proof.
  split; [by_evaluation|].
  apply (handlers_drop_link_conflicts (Platform0 := platform idle)
           state_half_stale 0%nat 0%nat pull_only_sa
           ∅ {[ "default-dockercfg-xyz" ]}).
  - by_evaluation.
  - by_evaluation.
  - left. split; [reflexivity | by_evaluation].
Defined.

Lemma nil_from_a_current_snapshot_means_linked_witness :
  first_run.1.1 = None
  ∧ ∃ final,
      stored (world first_run.1.2) default_sa = Some final
      ∧ both_found (Platform0 := platform (token_controller token_value))
          final = true.
Proof.
  split; [by_evaluation|].
  destruct (nil_from_a_current_snapshot_means_linked
              (token_controller token_value) prefix_dockercfg prefix_token
              marshal (λ c, eq_refl)
              (λ a b _ Hname,
                 f_equal (λ n, n +:+ "-dockercfg-") Hname)
              state0 first_run.1.2 0%nat default_sa first_run.2)
    as (final & Hstored & Hboth & _).
  - by_evaluation.
  - by_evaluation.
  - by_evaluation.
  - exists final. split; [exact Hstored | exact Hboth].
Defined.

End ReconcilerWitnesses.
